(** * iot-warriors: the dashboard's telemetry engine (Website/script.js)

    A shallow embedding of the stateful part of [script.js]: the polling
    cycle [fetchData], the status panel, the alerting system, the colour
    helpers and the analytics filter, followed by the properties proved
    about them.

    Conventions.
    - A JavaScript number is an exact rational or [NaN].  The script
      never divides by a variable, so no infinity arises; rounding error
      of binary floating point is not modelled.  Comparisons are exact in
      both; sums and differences of whole numbers up to 2^52 in magnitude
      are exact in both; elsewhere a statement about the value of a
      difference or a quotient is a statement about the exact one.
    - Readings are stored as they arrive from JSON (the script does not
      convert them), so a sample carries raw [jsval]s and every
      comparison goes through [ToNumber], as the [>] operator does.
    - What the script asks of its host (parsing a numeric string, parsing
      a date, the map library refusing a coordinate) is the interface
      [Host]; theorems hold for every host.
    - Clock readings ([Date.now()]) are integers in milliseconds.
    - [fetchData] suspends only at its three [await]s; everything from
      [formattedData] to [updateAllHeatmaps] runs in one piece.  A
      [Tick] gathers what the awaits and the page delivered, and one
      call of the embedded [fetchData] is that synchronous piece.
    - Writes to the page (gauges, status texts, toasts, chart) are
      outputs; page elements are taken to exist. *)

From Stdlib Require Import List ZArith QArith Qround String Ascii Bool Lia Lqa.
From Stdlib Require Import HexadecimalString.
Import ListNotations.

Local Open Scope string_scope.
Local Open Scope list_scope.
Local Open Scope Z_scope.

(* ================================================================== *)
(** ** JavaScript values *)

Inductive number : Type :=
| NaN
| Num (q : Q).

(** The JSON values a payload field can hold (objects and arrays are not
    modelled), plus [undefined] for an absent property. *)
Inductive jsval : Type :=
| JUndefined
| JNull
| JBool (b : bool)
| JNum (n : number)
| JStr (s : string).

Definition str_nonempty (s : string) : bool :=
  match s with EmptyString => false | String _ _ => true end.

(** Truthiness, as tested by [&&] and [if]. *)
Definition truthy (v : jsval) : bool :=
  match v with
  | JUndefined | JNull => false
  | JBool b => b
  | JNum NaN => false
  | JNum (Num q) => negb (Qeq_bool q 0)
  | JStr s => str_nonempty s
  end.

Definition num_gt (a b : number) : bool :=
  match a, b with
  | Num x, Num y => negb (Qle_bool x y)
  | _, _ => false
  end.

Definition num_lt (a b : number) : bool := num_gt b a.

Definition num_le (a b : number) : bool :=
  match a, b with
  | Num x, Num y => Qle_bool x y
  | _, _ => false
  end.

Definition num_sub (a b : number) : number :=
  match a, b with
  | Num x, Num y => Num (x - y)
  | _, _ => NaN
  end.

Definition num_add (a b : number) : number :=
  match a, b with
  | Num x, Num y => Num (x + y)
  | _, _ => NaN
  end.

Definition num_mul (a b : number) : number :=
  match a, b with
  | Num x, Num y => Num (x * y)
  | _, _ => NaN
  end.

(** Division by a non-zero literal, the only division in the script. *)
Definition num_div (a : number) (k : Q) : number :=
  match a with
  | Num x => Num (x / k)
  | NaN => NaN
  end.

(** [Math.round]: the nearest integer, ties towards plus infinity. *)
Definition Math_round (a : number) : number :=
  match a with
  | Num x => Num (inject_Z (Qfloor (x + (1 # 2))))
  | NaN => NaN
  end.

(** The integer held by an integral number (used after [Math_round]). *)
Definition int_of (x : Q) : Z := Qfloor x.

(** [x.toFixed(0)] for [0 <= x < 1e21]: the nearest integer, ties up. *)
Definition toFixed0 (x : Q) : Z := Qfloor (x + (1 # 2)).

(** [s.split(sep)] for a one-character separator. *)
Fixpoint split (sep : ascii) (s : string) : list string :=
  match s with
  | EmptyString => [EmptyString]
  | String c rest =>
      if Ascii.eqb c sep then EmptyString :: split sep rest
      else match split sep rest with
           | [] => [String c EmptyString]
           | w :: ws => String c w :: ws
           end
  end.

(** What the script relies on from outside itself. *)
Class Host : Type := {
  (** [Number(s)] on a string. *)
  StringToNumber : string -> number;
  (** The time value of [new Date(v)]; [None] is an invalid date. *)
  DateParse : jsval -> option Z;
  (** [mainMarker.setLatLng([lat, lng])] throws. *)
  setLatLng_throws : jsval -> jsval -> bool
}.

Module THRESHOLDS.
Definition temp : Q := 45.
Definition co2 : Q := 500.
Definition humidity : Q := 80.
End THRESHOLDS.

Definition ALERT_COOLDOWN : Z := 300000.

Module lastAlertTimes.
Record t : Type := mk { temp : Z; co2 : Z; humidity : Z }.
Definition initial : t := mk 0 0 0.
End lastAlertTimes.

(** An entry of [activeAlerts].  [value] keeps the template literal
    unrendered: the interpolated reading and the literal suffix.
    [timestamp] stands in for the text the script stores there,
    [new Date().toLocaleString()]: a second reading of the clock, taken
    by [sendAlert] in the same synchronous call as the [Date.now()] of
    [checkThresholds] and rendered in local time to the second.  The
    record keeps the [Date.now()] of that call, in milliseconds, in its
    place, so the field says in which evaluation the alert was sent and
    nothing about the text on display. *)
Module Alert.
Record t : Type := mk {
  metric : string;
  value : jsval * string;
  type : string;
  location : string;
  timestamp : Z
}.
End Alert.

(** [formattedData]. *)
Record Sample : Type := mkSample {
  temperature : jsval;
  humidity : jsval;
  carbon : jsval;
  latitude : jsval;
  longitude : jsval;
  locationName : string;
  timestamp : jsval
}.

(** The script's global variables. *)
Record State : Type := mkState {
  historicalData : list Sample;
  activeAlerts : list Alert.t;
  unreadAlertCount : Z;
  lastAlertTimes : lastAlertTimes.t
}.

Definition initialState : State :=
  mkState [] [] 0 lastAlertTimes.initial.

(** What [updateStatusPanel] writes into [statusText]. *)
Inductive StatusText : Type :=
| HighCO2            (* 'High CO2 Levels Detected!' *)
| HighTemperature    (* 'High Temperature Alert!' *)
| ElevatedHumidity   (* 'High Humidity Detected.' *)
| Normal.            (* 'All Systems Normal.' *)

(** What it writes into [statusSuggestion]. *)
Inductive Suggestion : Type :=
| SuggestVentilation
| SuggestFireHazards
| SuggestMoldMonitoring
| TrendingUpwards (ppm : Z)   (* '... (increased by ${trend.toFixed(0)} ppm recently).' *)
| TrendingDownwards
| Stable.                     (* 'Environmental conditions are stable.' *)

Record StatusPanel : Type := mkPanel {
  statusText : StatusText;
  statusSuggestion : Suggestion
}.

(** The fetched JSON object; an absent property reads [JUndefined]. *)
Module liveData.
Record t : Type := mk {
  temperature : jsval;
  humidity : jsval;
  carbon : jsval;
  location : jsval;
  timestamp : jsval
}.
End liveData.

(** The outside world during one run of [fetchData]. *)
Record Tick : Type := mkTick {
  (** [None]: [fetch] rejected, the response was not ok, or its body
      was not JSON. [Some None]: the body is not an object ([null], a
      number, ...). *)
  response : option (option liveData.t);
  (** what [getAddressFromCoords] resolves to *)
  address : string;
  (** [Date.now()] *)
  now : Z;
  (** the text of the [sensorLocationName] element *)
  sensorLocationName : string
}.

(** How a cycle ended. *)
Inductive Outcome : Type :=
| Failed                     (* an exception reached the [catch] *)
| Skipped                    (* the [if] guard was false *)
| Accepted (panel : StatusPanel) (sent : list Alert.t).

(** The values of the [chart-time-filter] select that
    [renderAnalyticsChart] tells apart: ['24h'], ['7d'], anything else. *)
Inductive TimeFilter : Type := FilterAll | Filter24h | Filter7d.

(** Modelled from the spec: the options of the [chart-data-filter]
    select, whose markup is in the dashboard page and not in the script;
    the windower's [metric] is one of the three readings. *)
Inductive DataKey : Type := KeyTemperature | KeyHumidity | KeyCarbon.

(* ------------------------------------------------------------------ *)
(** ** The page around the globals

    What the script writes on the page, for the functions that the
    polling cycle and the click handlers call beside the globals. *)

(** The activity card: the title [updateActivitySuggestions] writes. The
    first one interpolates the carbon and temperature readings in its
    description. *)
Inductive Activity : Type :=
| StayIndoors (carbon temperature : jsval)   (* "Best to Stay Indoors" *)
| PicnicOrCamping       (* "Perfect for a Picnic or Camping!" *)
| ModerateAirQuality    (* "Air Quality is Moderate" *)
| HeatAndHumidity       (* "Caution: Heat and Humidity" *)
| AverageConditions.    (* "Conditions are Average" *)

(** The [gaugeType] argument of [updateGauge]. *)
Inductive GaugeType : Type := TemperatureGauge | HumidityGauge | CarbonGauge.

(** The text of [x.toFixed(0)] below 1e21: a minus sign when [x < 0],
    then the digits of the rounded magnitude; [NaN] for NaN. *)
Inductive FixedText : Type :=
| TextNaN
| Text (negative : bool) (digits : Z).

(** What [updateGauge] sets on the fill element: [background] ([None]:
    not assigned) and the [rotate(...turn)] of [transform]. *)
Record GaugeFill : Type := mkFill {
  background : option string;
  turn : number
}.

(** What [updateGauge] does to the cover: write the final text at once,
    or start the animation from [startValue] to [endValue]. *)
Inductive CoverUpdate : Type :=
| WriteNow (text : FixedText) (unit : string)
| Animate (startValue : Q) (endValue : jsval) (unit : string).

(** The points of the three heat layers, each [[lat, lng, weight]]. *)
Record HeatLayers : Type := mkHeat {
  tempHeatLayer : list (jsval * jsval * jsval);
  humidityHeatLayer : list (jsval * jsval * jsval);
  co2HeatLayer : list (jsval * jsval * jsval)
}.

(** The alert count badge: its text and whether it carries [hidden]. *)
Record Badge : Type := mkBadge {
  badgeText : option Z;
  badgeHidden : bool
}.

(** One entry of the alert modal: the border class and the three lines
    of text. *)
Record AlertDiv : Type := mkDiv {
  border : string;
  heading : string * (jsval * string);
  place : string;
  time : Z
}.

(** The children of [alertsList] after [renderAlertsInModal]. *)
Inductive ModalList : Type :=
| NoAlertsMessage
| AlertDivs (divs : list AlertDiv).

Record AlertsUi : Type := mkAlertsUi {
  badge : Badge;
  modalHidden : bool;
  alertsList : ModalList
}.

(** One entry of [tabs]: its button's [tab-active] and its content's
    [hidden]. *)
Record Tab : Type := mkTab {
  tabActive : bool;
  contentHidden : bool
}.

Inductive TabKey : Type := GaugeTab | AnalyticsTab.

(** The analytics side: the two tabs, the two selects and the [labels]
    and [data] of [analyticsChart] ([None]: null). *)
Record Analytics : Type := mkAnalytics {
  gaugeTab : Tab;
  analyticsTab : Tab;
  chartTimeFilter : TimeFilter;
  chartDataFilter : DataKey;
  analyticsChart : option (list (option Z) * list jsval)
}.

(** What [updateDashboard] shows: the three gauge fills, the status
    panel and the activity card ([None]: not written yet). *)
Record Display : Type := mkDisplay {
  tempGauge : GaugeFill;
  humidityGauge : GaugeFill;
  carbonGauge : GaugeFill;
  statusPanel : option StatusPanel;
  activityCard : option Activity
}.

Record Page : Type := mkPage {
  globals : State;
  display : Display;
  alertsUi : AlertsUi;
  heatLayers : HeatLayers;
  analytics : Analytics
}.

(** What can happen to the page. [nowMs] is the clock read by the
    redraw of the chart. *)
Inductive PageEvent : Type :=
| PagePoll (tk : Tick)
| BellClicked
| CloseModalClicked
| ClearAllClicked
| TabClicked (key : TabKey) (nowMs : Z)
| TimeFilterChanged (value : TimeFilter) (nowMs : Z)
| DataFilterChanged (value : DataKey) (nowMs : Z)
| ThemeSwitched (nowMs : Z).

Section Script.

Context {host : Host}.

Definition ToNumber (v : jsval) : number :=
  match v with
  | JUndefined => NaN
  | JNull => Num 0
  | JBool true => Num 1
  | JBool false => Num 0
  | JNum n => n
  | JStr s => StringToNumber s
  end.

(** [v > k], [v <= k] and [v < k] against a numeric literal. *)
Definition js_gt (v : jsval) (k : Q) : bool := num_gt (ToNumber v) (Num k).
Definition js_le (v : jsval) (k : Q) : bool := num_le (ToNumber v) (Num k).
Definition js_lt (v : jsval) (k : Q) : bool := num_lt (ToNumber v) (Num k).

(* ------------------------------------------------------------------ *)
(** *** Colour helpers *)

Definition hexDigit (c : ascii) : option Z :=
  let n := Z.of_nat (nat_of_ascii c) in
  if (48 <=? n) && (n <=? 57) then Some (n - 48)
  else if (97 <=? n) && (n <=? 102) then Some (n - 87)
  else if (65 <=? n) && (n <=? 70) then Some (n - 55)
  else None.

Fixpoint parseHex (s : string) (acc : option Z) : option Z :=
  match s with
  | EmptyString => acc
  | String c rest =>
      match hexDigit c with
      | Some d => parseHex rest (Some (16 * match acc with Some a => a | None => 0 end + d))
      | None => acc
      end
  end.

(** [parseInt(s, 16)] on a string with no sign, blank or [0x] prefix. *)
Definition parseInt16 (s : string) : number :=
  match parseHex s None with
  | Some z => Num (inject_Z z)
  | None => NaN
  end.

(** [n.toString(16)] for an integral or NaN [n]. *)
Definition toString16 (n : number) : string :=
  match n with
  | NaN => "NaN"
  | Num x =>
      let z := int_of x in
      let digits := NilZero.string_of_uint (N.to_hex_uint (Z.to_N (Z.abs z))) in
      if z <? 0 then String "-" digits else digits
  end.

(** [s.padStart(2, '0')]. *)
Definition padStart2 (s : string) : string :=
  match s with
  | EmptyString => "00"
  | String c EmptyString => String "0" (String c EmptyString)
  | _ => s
  end.

(** One channel: [Math.round(c1 + factor * (c2 - c1))]. *)
Definition mix (c1 c2 factor : number) : number :=
  Math_round (num_add c1 (num_mul factor (num_sub c2 c1))).

(** The three channels [r], [g], [b] computed by [interpolateColor]. *)
Definition channels (color1 color2 : string) (factor : number)
  : number * number * number :=
  let r1 := parseInt16 (substring 1 2 color1) in
  let g1 := parseInt16 (substring 3 2 color1) in
  let b1 := parseInt16 (substring 5 2 color1) in
  let r2 := parseInt16 (substring 1 2 color2) in
  let g2 := parseInt16 (substring 3 2 color2) in
  let b2 := parseInt16 (substring 5 2 color2) in
  (mix r1 r2 factor, mix g1 g2 factor, mix b1 b2 factor).

Definition interpolateColor (color1 color2 : string) (factor : number) : string :=
  let '(r, g, b) := channels color1 color2 factor in
  String "#" (padStart2 (toString16 r) ++ padStart2 (toString16 g)
              ++ padStart2 (toString16 b))%string.

Definition blue : string := "#3b82f6".
Definition green : string := "#22c55e".
Definition yellow : string := "#eab308".
Definition lightRed : string := "#f87171".
Definition midRed : string := "#ef4444".
Definition darkRed : string := "#b91c1c".

Definition getTemperatureColor (value : jsval) : string :=
  let v := ToNumber value in
  if js_le value 25 then interpolateColor blue green (num_div v 25)
  else if js_le value 40 then interpolateColor green yellow (num_div (num_sub v (Num 25)) 15)
  else if js_le value 50 then interpolateColor yellow lightRed (num_div (num_sub v (Num 40)) 10)
  else if js_le value 70 then interpolateColor lightRed midRed (num_div (num_sub v (Num 50)) 20)
  else interpolateColor midRed darkRed (num_div (num_sub v (Num 70)) 30).

Definition getCO2Color (value : jsval) : string :=
  let v := ToNumber value in
  if js_lt value 350 then green
  else if js_le value 450 then interpolateColor green yellow (num_div (num_sub v (Num 350)) 100)
  else if js_le value 500 then interpolateColor yellow lightRed (num_div (num_sub v (Num 450)) 50)
  else if js_le value 700 then interpolateColor lightRed midRed (num_div (num_sub v (Num 500)) 200)
  else interpolateColor midRed darkRed (num_div (num_sub v (Num 700)) 100).

(** The arguments [getTemperatureColor] hands to [interpolateColor]:
    the band's two end colours and the interpolation factor. *)
Definition temperatureBand (value : jsval) : string * string * number :=
  let v := ToNumber value in
  if js_le value 25 then (blue, green, num_div v 25)
  else if js_le value 40 then (green, yellow, num_div (num_sub v (Num 25)) 15)
  else if js_le value 50 then (yellow, lightRed, num_div (num_sub v (Num 40)) 10)
  else if js_le value 70 then (lightRed, midRed, num_div (num_sub v (Num 50)) 20)
  else (midRed, darkRed, num_div (num_sub v (Num 70)) 30).

(* ------------------------------------------------------------------ *)
(** *** Data insights *)

(** [trend.toFixed(0)]; the script calls it only where [trend > 50]. *)
Definition trendShown (trend : number) : Z :=
  match trend with
  | Num x => toFixed0 x
  | NaN => 0
  end.

Definition updateStatusPanel (st : State) (data : Sample) : StatusPanel :=
  if js_gt (carbon data) THRESHOLDS.co2 then
    mkPanel HighCO2 SuggestVentilation
  else if js_gt (temperature data) THRESHOLDS.temp then
    mkPanel HighTemperature SuggestFireHazards
  else if js_gt (humidity data) THRESHOLDS.humidity then
    mkPanel ElevatedHumidity SuggestMoldMonitoring
  else
    mkPanel Normal
      (if (5 <? Z.of_nat (List.length (historicalData st))) then
         match historicalData st with
         | oldest :: _ =>
             let oldCarbon := carbon oldest in
             let trend := num_sub (ToNumber (carbon data)) (ToNumber oldCarbon) in
             if num_gt trend (Num 50) then TrendingUpwards (trendShown trend)
             else if num_lt trend (Num (-50)) then TrendingDownwards
             else Stable
         | [] => Stable
         end
       else Stable).

(** [updateDashboard]: the gauges and the activity card only write to the
    page; [mainMarker.setLatLng] comes before [updateStatusPanel] and
    may throw ([None]). *)
Definition updateDashboard (st : State) (data : Sample) : option StatusPanel :=
  if setLatLng_throws (latitude data) (longitude data) then None
  else Some (updateStatusPanel st data).

(* ------------------------------------------------------------------ *)
(** *** Alerting system *)

(** The record [sendAlert] puts in front of [activeAlerts]. *)
Definition alertRecord (tk : Tick) (metric : string) (value : jsval * string)
    (type : string) : Alert.t :=
  let location := hd EmptyString (split "*" (sensorLocationName tk)) in
  Alert.mk metric value type location (now tk).

Definition sendAlert (st : State) (tk : Tick) (metric : string)
    (value : jsval * string) (type : string) : State :=
  mkState (historicalData st)
          (alertRecord tk metric value type :: activeAlerts st)
          (unreadAlertCount st + 1)
          (lastAlertTimes st).

Definition set_temp (st : State) (t : Z) : State :=
  let l := lastAlertTimes st in
  mkState (historicalData st) (activeAlerts st) (unreadAlertCount st)
          (lastAlertTimes.mk t (lastAlertTimes.co2 l) (lastAlertTimes.humidity l)).

Definition set_co2 (st : State) (t : Z) : State :=
  let l := lastAlertTimes st in
  mkState (historicalData st) (activeAlerts st) (unreadAlertCount st)
          (lastAlertTimes.mk (lastAlertTimes.temp l) t (lastAlertTimes.humidity l)).

Definition set_humidity (st : State) (t : Z) : State :=
  let l := lastAlertTimes st in
  mkState (historicalData st) (activeAlerts st) (unreadAlertCount st)
          (lastAlertTimes.mk (lastAlertTimes.temp l) (lastAlertTimes.co2 l) t).

(** [checkThresholds]: the new state and the alerts sent, in order. *)
Definition checkThresholds (st : State) (tk : Tick) (data : Sample)
  : State * list Alert.t :=
  let '(st1, sent1) :=
    if js_gt (temperature data) THRESHOLDS.temp
       && (now tk - lastAlertTimes.temp (lastAlertTimes st) >? ALERT_COOLDOWN)
    then (set_temp (sendAlert st tk "Temperature" (temperature data, "°C") "error") (now tk),
          [alertRecord tk "Temperature" (temperature data, "°C") "error"])
    else (st, []) in
  let '(st2, sent2) :=
    if js_gt (carbon data) THRESHOLDS.co2
       && (now tk - lastAlertTimes.co2 (lastAlertTimes st1) >? ALERT_COOLDOWN)
    then (set_co2 (sendAlert st1 tk "CO2 Level" (carbon data, " ppm") "error") (now tk),
          [alertRecord tk "CO2 Level" (carbon data, " ppm") "error"])
    else (st1, []) in
  let '(st3, sent3) :=
    if js_gt (humidity data) THRESHOLDS.humidity
       && (now tk - lastAlertTimes.humidity (lastAlertTimes st2) >? ALERT_COOLDOWN)
    then (set_humidity (sendAlert st2 tk "Humidity" (humidity data, "%") "warning") (now tk),
          [alertRecord tk "Humidity" (humidity data, "%") "warning"])
    else (st2, []) in
  (st3, sent1 ++ sent2 ++ sent3).

(** The two handlers of the alert modal that touch the globals. *)
Definition alertBellBtn_click (st : State) : State :=
  mkState (historicalData st) (activeAlerts st) 0 (lastAlertTimes st).

Definition clearAllAlertsBtn_click (st : State) : State :=
  mkState (historicalData st) [] 0 (lastAlertTimes st).

(* ------------------------------------------------------------------ *)
(** *** Live data fetching *)

(** [formattedData], built from the payload once the guard has passed
    and [location] is a string. *)
Definition formatData (d : liveData.t) (loc : string) (tk : Tick) : Sample :=
  let parts := map (fun p => JNum (StringToNumber p)) (split "," loc) in
  let lat := nth 0 parts JUndefined in
  let lng := nth 1 parts JUndefined in
  mkSample (liveData.temperature d) (liveData.humidity d) (liveData.carbon d)
           lat lng (address tk) (liveData.timestamp d).

(** [historicalData.push(formattedData)] and the [shift] that follows. *)
Definition pushHistory (st : State) (formattedData : Sample) : State :=
  let pushed := historicalData st ++ [formattedData] in
  mkState (if 20 <? Z.of_nat (List.length pushed) then tl pushed else pushed)
          (activeAlerts st) (unreadAlertCount st) (lastAlertTimes st).

Definition fetchData (st : State) (tk : Tick) : State * Outcome :=
  match response tk with
  | None => (st, Failed)
  | Some None => (st, Skipped)
  | Some (Some d) =>
      if truthy (liveData.location d) then
        match liveData.location d with
        | JStr loc =>
            let formattedData := formatData d loc tk in
            match updateDashboard st formattedData with
            | None => (st, Failed)
            | Some panel =>
                let '(st1, sent) := checkThresholds st tk formattedData in
                (pushHistory st1 formattedData, Accepted panel sent)
            end
        | _ => (st, Failed)   (* [split] is not a function of a non-string *)
        end
      else (st, Skipped)
  end.

(* ------------------------------------------------------------------ *)
(** *** Analytics chart *)

Definition readKey (key : DataKey) (d : Sample) : jsval :=
  match key with
  | KeyTemperature => temperature d
  | KeyHumidity => humidity d
  | KeyCarbon => carbon d
  end.

(** [new Date(d.timestamp) > bound], [bound] a valid date. *)
Definition laterThan (bound : Z) (d : Sample) : bool :=
  match DateParse (timestamp d) with
  | Some t => t >? bound
  | None => false
  end.

(** [renderAnalyticsChart]: the [labels] and [data] handed to the chart,
    [None] when it returns before drawing; [nowMs] is [now.getTime()]. *)
Definition renderAnalyticsChart (st : State) (timeFilter : TimeFilter)
    (selectedDataKey : DataKey) (nowMs : Z)
  : State * option (list (option Z) * list jsval) :=
  if (List.length (historicalData st) =? 0)%nat then (st, None)
  else
    let filteredData :=
      match timeFilter with
      | Filter24h => filter (laterThan (nowMs - 24 * 60 * 60 * 1000)) (historicalData st)
      | Filter7d => filter (laterThan (nowMs - 7 * 24 * 60 * 60 * 1000)) (historicalData st)
      | FilterAll => historicalData st
      end in
    let labels := map (fun d => DateParse (timestamp d)) filteredData in
    let dataPoints := map (readKey selectedDataKey) filteredData in
    (st, Some (labels, dataPoints)).

(* ------------------------------------------------------------------ *)
(** *** Runs *)

(** What can happen to the globals between two observations. *)
Inductive Event : Type :=
| Poll (tk : Tick)
| BellClick
| ClearAllClick.

Definition step (st : State) (e : Event) : State :=
  match e with
  | Poll tk => fst (fetchData st tk)
  | BellClick => alertBellBtn_click st
  | ClearAllClick => clearAllAlertsBtn_click st
  end.

Definition run (st : State) (es : list Event) : State := fold_left step es st.

Definition reachable (st : State) : Prop :=
  exists es, st = run initialState es.

(** Polling through a list of ticks. *)
Definition poll (st : State) (tks : list Tick) : State :=
  fold_left (fun s tk => fst (fetchData s tk)) tks st.

(** A run of [checkThresholds] over successive readings: the final state
    and every alert sent, oldest first. *)
Fixpoint evaluations (st : State) (calls : list (Tick * Sample))
  : State * list Alert.t :=
  match calls with
  | [] => (st, [])
  | (tk, data) :: rest =>
      let '(st1, sent) := checkThresholds st tk data in
      let '(st2, later) := evaluations st1 rest in
      (st2, sent ++ later)
  end.

(* ------------------------------------------------------------------ *)
(** *** Vocabulary of the statements *)

(** The sample a tick contributes when its cycle reaches the [push]:
    the guard passes, [location] is a string and the marker accepts the
    coordinates. *)
Definition sampleOf (tk : Tick) : option Sample :=
  match response tk with
  | Some (Some d) =>
      match liveData.location d with
      | JStr loc =>
          let s := formatData d loc tk in
          if str_nonempty loc && negb (setLatLng_throws (latitude s) (longitude s))
          then Some s else None
      | _ => None
      end
  | _ => None
  end.

(** The last [20] entries of a list. *)
Definition last20 (l : list Sample) : list Sample :=
  skipn (List.length l - 20) l.

(** The samples a list of ticks contributes, in arrival order. *)
Definition samplesOf (tks : list Tick) : list Sample :=
  flat_map (fun tk => match sampleOf tk with Some s => [s] | None => [] end) tks.

(** A colour channel within [0, 255]. *)
Definition isByte (n : number) : bool :=
  match n with
  | Num x => Qle_bool 0 x && Qle_bool x 255
  | NaN => false
  end.

(** The payload lacks a usable [location]: the [if] guard is false. *)
Definition lacksLocation (tk : Tick) : Prop :=
  response tk = Some None
  \/ exists d, response tk = Some (Some d) /\ truthy (liveData.location d) = false.

(** The three keys of [THRESHOLDS] and [lastAlertTimes]. *)
Inductive MetricKind : Type := OfTemperature | OfCO2 | OfHumidity.

Definition metricName (k : MetricKind) : string :=
  match k with
  | OfTemperature => "Temperature"
  | OfCO2 => "CO2 Level"
  | OfHumidity => "Humidity"
  end.

Definition breaches (k : MetricKind) (data : Sample) : bool :=
  match k with
  | OfTemperature => js_gt (temperature data) THRESHOLDS.temp
  | OfCO2 => js_gt (carbon data) THRESHOLDS.co2
  | OfHumidity => js_gt (humidity data) THRESHOLDS.humidity
  end.

Definition lastFired (k : MetricKind) (st : State) : Z :=
  match k with
  | OfTemperature => lastAlertTimes.temp (lastAlertTimes st)
  | OfCO2 => lastAlertTimes.co2 (lastAlertTimes st)
  | OfHumidity => lastAlertTimes.humidity (lastAlertTimes st)
  end.

(** The condition under which [checkThresholds] alerts for a metric. *)
Definition fires (k : MetricKind) (st : State) (tk : Tick) (data : Sample) : bool :=
  breaches k data && (now tk - lastFired k st >? ALERT_COOLDOWN).

Definition isOf (k : MetricKind) (a : Alert.t) : bool :=
  String.eqb (Alert.metric a) (metricName k).

(** The alert [checkThresholds] sends for a metric. *)
Definition alertOf (k : MetricKind) (tk : Tick) (data : Sample) : Alert.t :=
  match k with
  | OfTemperature => alertRecord tk "Temperature" (temperature data, "°C") "error"
  | OfCO2 => alertRecord tk "CO2 Level" (carbon data, " ppm") "error"
  | OfHumidity => alertRecord tk "Humidity" (humidity data, "%") "warning"
  end.

(** Two alerts of one metric are more than the cooldown apart. *)
Definition apart (a b : Alert.t) : Prop :=
  Alert.metric a = Alert.metric b ->
  Alert.timestamp b - Alert.timestamp a > ALERT_COOLDOWN.

(** The width of a time filter in milliseconds. *)
Definition rangeMs (timeFilter : TimeFilter) : option Z :=
  match timeFilter with
  | FilterAll => None
  | Filter24h => Some (24 * 60 * 60 * 1000)
  | Filter7d => Some (7 * 24 * 60 * 60 * 1000)
  end.

(** The analytics window as the specification words it: the samples
    whose timestamp lies within [[now - range, now]], both ends
    included, as (timestamp, value) pairs. *)
Definition withinWindow (range nowMs : Z) (d : Sample) : bool :=
  match DateParse (timestamp d) with
  | Some t => (nowMs - range <=? t) && (t <=? nowMs)
  | None => false
  end.

Definition window_spec (history : list Sample) (range : Z)
    (key : DataKey) (nowMs : Z) : list (option Z * jsval) :=
  map (fun d => (DateParse (timestamp d), readKey key d))
      (filter (withinWindow range nowMs) history).

(** The (timestamp, value) pairs of a drawn chart. *)
Definition chartPairs (chart : option (list (option Z) * list jsval))
  : list (option Z * jsval) :=
  match chart with
  | Some (labels, dataPoints) => combine labels dataPoints
  | None => []
  end.

(* ------------------------------------------------------------------ *)
(** *** Activity suggestions *)

Definition updateActivitySuggestions (data : Sample) : Activity :=
  let temperature := temperature data in
  let humidity := humidity data in
  let carbon := carbon data in
  if js_gt carbon 600 || js_gt temperature 38 then StayIndoors carbon temperature
  else if js_gt temperature 20 && js_lt temperature 30
          && js_lt humidity 70 && js_lt carbon 450 then PicnicOrCamping
  else if js_gt carbon 450 then ModerateAirQuality
  else if js_gt temperature 32 || js_gt humidity 75 then HeatAndHumidity
  else AverageConditions.

(* ------------------------------------------------------------------ *)
(** *** Gauges *)

(** [Math.min] and [Math.max] of two numbers. *)
Definition Math_min (a b : number) : number :=
  match a, b with
  | Num x, Num y => if Qle_bool x y then Num x else Num y
  | _, _ => NaN
  end.

Definition Math_max (a b : number) : number :=
  match a, b with
  | Num x, Num y => if Qle_bool x y then Num y else Num x
  | _, _ => NaN
  end.

Definition toFixed_0 (n : number) : FixedText :=
  match n with
  | NaN => TextNaN
  | Num x =>
      if Qle_bool 0 x then Text false (Qfloor (x + (1 # 2)))
      else Text true (Qfloor (- x + (1 # 2)))
  end.

(** [percentage] in [updateGauge]. *)
Definition gaugePercentage (value : jsval) (max : Q) : number :=
  Math_max (Num 0) (Math_min (Num 1) (num_div (ToNumber value) max)).

(** The [color] chosen in [updateGauge]; [None] is undefined. *)
Definition gaugeColor (gaugeType : GaugeType) (value : jsval) : option string :=
  match gaugeType with
  | TemperatureGauge => Some (getTemperatureColor value)
  | CarbonGauge => Some (getCO2Color value)
  | HumidityGauge => None
  end.

(** The part of [updateGauge] that styles the fill element. *)
Definition updateGaugeFill (old : GaugeFill) (value : jsval) (max : Q)
    (gaugeType : GaugeType) : GaugeFill :=
  let color := gaugeColor gaugeType value in
  let percentage := gaugePercentage value max in
  mkFill (match color with
          | Some c => if str_nonempty c then Some c else background old
          | None => background old
          end)
         (num_div percentage 2).

(** The part of [updateGauge] that writes the cover; [startValue] is
    [parseFloat(coverValueEl?.nodeValue) || 0]. *)
Definition updateGaugeCover (startValue : Q) (value : jsval) (unit : string)
  : CoverUpdate :=
  match value with
  | JNum (Num endValue) =>
      if Qeq_bool startValue endValue then WriteNow (toFixed_0 (Num endValue)) unit
      else Animate startValue value unit
  | _ => Animate startValue value unit
  end.

Definition updateGauge (old : GaugeFill) (startValue : Q) (value : jsval)
    (max : Q) (unit : string) (gaugeType : GaugeType) : GaugeFill * CoverUpdate :=
  (updateGaugeFill old value max gaugeType, updateGaugeCover startValue value unit).

(** [progress] in [animationStep], [startTime] already assigned. *)
Definition animationProgress (startTime timestamp : Q) : number :=
  Math_min (Num ((timestamp - startTime) / 800)) (Num 1).

(** [currentValue] in [animationStep]. *)
Definition currentValue (startValue : Q) (endValue : jsval) (progress : number)
  : number :=
  num_add (Num startValue)
          (num_mul (num_sub (ToNumber endValue) (Num startValue)) progress).

(** One call of [animationStep]: the closure's [startTime] afterwards
    ([None] is null), the text written in the cover and whether another
    frame is requested. *)
Definition animationStep (startValue : Q) (endValue : jsval)
    (startTime : option Q) (timestamp : Q) : option Q * FixedText * bool :=
  let startTime' :=
    match startTime with
    | None => timestamp
    | Some t => if Qeq_bool t 0 then timestamp else t
    end in
  let progress := animationProgress startTime' timestamp in
  (Some startTime',
   toFixed_0 (currentValue startValue endValue progress),
   num_lt progress (Num 1)).

(** The texts an animation writes over the frames the browser delivers,
    until it stops asking for one. *)
Fixpoint animation (startValue : Q) (endValue : jsval) (startTime : option Q)
    (frames : list Q) : list FixedText :=
  match frames with
  | [] => []
  | timestamp :: rest =>
      let '(startTime', text, again) :=
        animationStep startValue endValue startTime timestamp in
      text :: (if again then animation startValue endValue startTime' rest else [])
  end.

(* ------------------------------------------------------------------ *)
(** *** Heat maps *)

Definition updateAllHeatmaps (st : State) (layers : HeatLayers) : HeatLayers :=
  if 0 <? Z.of_nat (List.length (historicalData st)) then
    let tempPoints :=
      map (fun d => (latitude d, longitude d, temperature d)) (historicalData st) in
    let humidityPoints :=
      map (fun d => (latitude d, longitude d, humidity d)) (historicalData st) in
    let co2Points :=
      map (fun d => (latitude d, longitude d, carbon d)) (historicalData st) in
    mkHeat tempPoints humidityPoints co2Points
  else layers.

(* ------------------------------------------------------------------ *)
(** *** Alert badge and modal *)

Definition updateAlertBadge (unreadAlertCount : Z) (b : Badge) : Badge :=
  if unreadAlertCount >? 0 then mkBadge (Some unreadAlertCount) false
  else mkBadge (badgeText b) true.

Definition alertDiv (alert : Alert.t) : AlertDiv :=
  mkDiv (if String.eqb (Alert.type alert) "error"
         then "border-red-500" else "border-yellow-500")
        (Alert.metric alert, Alert.value alert)
        (Alert.location alert)
        (Alert.timestamp alert).

Definition renderAlertsInModal (st : State) : ModalList :=
  if (List.length (activeAlerts st) =? 0)%nat then NoAlertsMessage
  else AlertDivs (map alertDiv (activeAlerts st)).

(* ------------------------------------------------------------------ *)
(** *** The functions on the whole page *)

Definition with_globals (pg : Page) (g : State) : Page :=
  mkPage g (display pg) (alertsUi pg) (heatLayers pg) (analytics pg).

Definition with_badge (pg : Page) (b : Badge) : Page :=
  mkPage (globals pg) (display pg)
         (mkAlertsUi b (modalHidden (alertsUi pg)) (alertsList (alertsUi pg)))
         (heatLayers pg) (analytics pg).

Definition with_chart (pg : Page) (chart : option (list (option Z) * list jsval))
  : Page :=
  let a := analytics pg in
  mkPage (globals pg) (display pg) (alertsUi pg) (heatLayers pg)
         (mkAnalytics (gaugeTab a) (analyticsTab a) (chartTimeFilter a)
                      (chartDataFilter a) chart).

(** [sendAlert] with its call of [updateAlertBadge]. *)
Definition sendAlertPage (pg : Page) (tk : Tick) (metric : string)
    (value : jsval * string) (type : string) : Page :=
  let g := sendAlert (globals pg) tk metric value type in
  with_badge (with_globals pg g)
             (updateAlertBadge (unreadAlertCount g) (badge (alertsUi pg))).

Definition checkThresholdsPage (pg : Page) (tk : Tick) (data : Sample) : Page :=
  let pg1 :=
    if js_gt (temperature data) THRESHOLDS.temp
       && (now tk - lastAlertTimes.temp (lastAlertTimes (globals pg)) >? ALERT_COOLDOWN)
    then let p := sendAlertPage pg tk "Temperature" (temperature data, "°C") "error" in
         with_globals p (set_temp (globals p) (now tk))
    else pg in
  let pg2 :=
    if js_gt (carbon data) THRESHOLDS.co2
       && (now tk - lastAlertTimes.co2 (lastAlertTimes (globals pg1)) >? ALERT_COOLDOWN)
    then let p := sendAlertPage pg1 tk "CO2 Level" (carbon data, " ppm") "error" in
         with_globals p (set_co2 (globals p) (now tk))
    else pg1 in
  if js_gt (humidity data) THRESHOLDS.humidity
     && (now tk - lastAlertTimes.humidity (lastAlertTimes (globals pg2)) >? ALERT_COOLDOWN)
  then let p := sendAlertPage pg2 tk "Humidity" (humidity data, "%") "warning" in
       with_globals p (set_humidity (globals p) (now tk))
  else pg2.

(** [updateDashboard] on the page: the three gauges are styled before
    [mainMarker.setLatLng], the status panel and the activity card
    after it; [true] when the marker threw. *)
Definition updateDashboardPage (pg : Page) (data : Sample) : Page * bool :=
  let d := display pg in
  let t := updateGaugeFill (tempGauge d) (temperature data) 100 TemperatureGauge in
  let h := updateGaugeFill (humidityGauge d) (humidity data) 100 HumidityGauge in
  let c := updateGaugeFill (carbonGauge d) (carbon data) 800 CarbonGauge in
  if setLatLng_throws (latitude data) (longitude data) then
    (mkPage (globals pg) (mkDisplay t h c (statusPanel d) (activityCard d))
            (alertsUi pg) (heatLayers pg) (analytics pg), true)
  else
    (mkPage (globals pg)
            (mkDisplay t h c (Some (updateStatusPanel (globals pg) data))
                       (Some (updateActivitySuggestions data)))
            (alertsUi pg) (heatLayers pg) (analytics pg), false).

(** [renderAnalyticsChart] with its assignment to [analyticsChart]. *)
Definition renderAnalyticsChartPage (pg : Page) (nowMs : Z) : Page :=
  match snd (renderAnalyticsChart (globals pg) (chartTimeFilter (analytics pg))
                                  (chartDataFilter (analytics pg)) nowMs) with
  | Some chart => with_chart pg (Some chart)
  | None => pg
  end.

Definition updateAllHeatmapsPage (pg : Page) : Page :=
  mkPage (globals pg) (display pg) (alertsUi pg)
         (updateAllHeatmaps (globals pg) (heatLayers pg)) (analytics pg).

(** [fetchData] with everything it writes. The [new Date()] of the
    chart's redraw, read in the same synchronous piece, is taken to be
    the [Date.now()] of the cycle. *)
Definition fetchDataPage (pg : Page) (tk : Tick) : Page :=
  match response tk with
  | None => pg
  | Some None => pg
  | Some (Some d) =>
      if truthy (liveData.location d) then
        match liveData.location d with
        | JStr loc =>
            let formattedData := formatData d loc tk in
            let '(pg1, threw) := updateDashboardPage pg formattedData in
            if threw then pg1
            else
              let pg2 := checkThresholdsPage pg1 tk formattedData in
              let pg3 := with_globals pg2 (pushHistory (globals pg2) formattedData) in
              let pg4 :=
                if negb (contentHidden (analyticsTab (analytics pg3)))
                then renderAnalyticsChartPage pg3 (now tk) else pg3 in
              updateAllHeatmapsPage pg4
        | _ => pg
        end
      else pg
  end.

(** The click handlers of the alert modal. *)
Definition alertBellBtn_clickPage (pg : Page) : Page :=
  mkPage (alertBellBtn_click (globals pg)) (display pg)
         (mkAlertsUi (updateAlertBadge 0 (badge (alertsUi pg))) false
                     (renderAlertsInModal (globals pg)))
         (heatLayers pg) (analytics pg).

Definition closeAlertModalBtn_clickPage (pg : Page) : Page :=
  mkPage (globals pg) (display pg)
         (mkAlertsUi (badge (alertsUi pg)) true (alertsList (alertsUi pg)))
         (heatLayers pg) (analytics pg).

Definition clearAllAlertsBtn_clickPage (pg : Page) : Page :=
  let g := clearAllAlertsBtn_click (globals pg) in
  mkPage g (display pg)
         (mkAlertsUi (updateAlertBadge 0 (badge (alertsUi pg)))
                     (modalHidden (alertsUi pg)) (renderAlertsInModal g))
         (heatLayers pg) (analytics pg).

(** The click handler of a tab button. *)
Definition tab_clickPage (pg : Page) (key : TabKey) (nowMs : Z) : Page :=
  let a := analytics pg in
  let shown := mkTab true false in
  let other := mkTab false true in
  let pg1 :=
    mkPage (globals pg) (display pg) (alertsUi pg) (heatLayers pg)
           (match key with
            | GaugeTab => mkAnalytics shown other (chartTimeFilter a)
                                      (chartDataFilter a) (analyticsChart a)
            | AnalyticsTab => mkAnalytics other shown (chartTimeFilter a)
                                          (chartDataFilter a) (analyticsChart a)
            end) in
  match key with
  | AnalyticsTab => renderAnalyticsChartPage pg1 nowMs
  | GaugeTab => pg1
  end.

(** The [change] handlers of the two selects, the select holding its
    new value. *)
Definition chartTimeFilter_changePage (pg : Page) (value : TimeFilter) (nowMs : Z)
  : Page :=
  let a := analytics pg in
  renderAnalyticsChartPage
    (mkPage (globals pg) (display pg) (alertsUi pg) (heatLayers pg)
            (mkAnalytics (gaugeTab a) (analyticsTab a) value
                         (chartDataFilter a) (analyticsChart a)))
    nowMs.

Definition chartDataFilter_changePage (pg : Page) (value : DataKey) (nowMs : Z)
  : Page :=
  let a := analytics pg in
  renderAnalyticsChartPage
    (mkPage (globals pg) (display pg) (alertsUi pg) (heatLayers pg)
            (mkAnalytics (gaugeTab a) (analyticsTab a) (chartTimeFilter a)
                         value (analyticsChart a)))
    nowMs.

(** Of [setTheme], the redraw of a chart that exists; the theme
    attribute, the stored theme and the button icon are not part of
    [Page]. *)
Definition setThemePage (pg : Page) (nowMs : Z) : Page :=
  match analyticsChart (analytics pg) with
  | Some _ => renderAnalyticsChartPage pg nowMs
  | None => pg
  end.

Definition pageStep (pg : Page) (e : PageEvent) : Page :=
  match e with
  | PagePoll tk => fetchDataPage pg tk
  | BellClicked => alertBellBtn_clickPage pg
  | CloseModalClicked => closeAlertModalBtn_clickPage pg
  | ClearAllClicked => clearAllAlertsBtn_clickPage pg
  | TabClicked key nowMs => tab_clickPage pg key nowMs
  | TimeFilterChanged value nowMs => chartTimeFilter_changePage pg value nowMs
  | DataFilterChanged value nowMs => chartDataFilter_changePage pg value nowMs
  | ThemeSwitched nowMs => setThemePage pg nowMs
  end.

Definition pageRun (pg : Page) (es : list PageEvent) : Page :=
  fold_left pageStep es pg.

(** The page as the script's declarations leave it: the globals at
    their initial values, the heat layers created empty and
    [analyticsChart] null. What the markup fixes (badge, modal, tabs,
    selects, gauges) is not constrained. *)
Definition freshPage (pg : Page) : Prop :=
  globals pg = initialState
  /\ heatLayers pg = mkHeat [] [] []
  /\ analyticsChart (analytics pg) = None.

(** The event of the globals that a page event carries. *)
Definition globalEvent (e : PageEvent) : option Event :=
  match e with
  | PagePoll tk => Some (Poll tk)
  | BellClicked => Some BellClick
  | ClearAllClicked => Some ClearAllClick
  | _ => None
  end.

(** [parts.join(sep)]. *)
Fixpoint join (sep : ascii) (parts : list string) : string :=
  match parts with
  | [] => EmptyString
  | [p] => p
  | p :: rest => (p ++ String sep (join sep rest))%string
  end.

(** No character of [s] is [c]. *)
Fixpoint lacks (c : ascii) (s : string) : bool :=
  match s with
  | EmptyString => true
  | String x rest => negb (Ascii.eqb x c) && lacks c rest
  end.

(** The badge shows the unread count: hidden at zero, otherwise visible
    with the count as its text. *)
Definition badgeShows (b : Badge) (unread : Z) : Prop :=
  if unread >? 0 then b = mkBadge (Some unread) false
  else badgeHidden b = true.

(** The projections [updateAllHeatmaps] computes from a history. *)
Definition heatOf (history : list Sample) : HeatLayers :=
  mkHeat (map (fun d => (latitude d, longitude d, temperature d)) history)
         (map (fun d => (latitude d, longitude d, humidity d)) history)
         (map (fun d => (latitude d, longitude d, carbon d)) history).

(** Two hexadecimal digits of a channel, as [interpolateColor] writes
    them, and the colour of three channels. *)
Definition hex2 (z : Z) : string := padStart2 (toString16 (Num (inject_Z z))).

Definition hexColor (r g b : Z) : string :=
  String "#" (hex2 r ++ hex2 g ++ hex2 b)%string.

(** A reading that converts to the whole number [n], of magnitude at
    most 2^52: on such readings the script's subtraction, comparison and
    [toFixed(0)] are exact. *)
Definition wholeReading (v : jsval) (n : Z) : Prop :=
  exists q, ToNumber v = Num q /\ (q == inject_Z n)%Q /\ Z.abs n <= 2 ^ 52.

(** A run without a click on "clear all". *)
Definition neverCleared (es : list Event) : Prop :=
  Forall (fun e => e <> ClearAllClick) es.

(** The two digits written for a channel read back as the channel. *)
Definition hexCheck (z : Z) : bool :=
  match hex2 z with
  | String c (String d EmptyString) =>
      match parseHex (String c (String d EmptyString)) None with
      | Some z' => z' =? z
      | None => false
      end
  | _ => false
  end.

End Script.

(* ================================================================== *)
(** ** A host for closed examples

    [Number] on plain decimal literals, [new Date] on numbers and on the
    firmware's [YYYY-MM-DD HH:MM:SS] stamps (read in a UTC time zone),
    and the map library's rule of refusing a coordinate that is NaN.
    Exponents, hexadecimal literals, surrounding blanks and other date
    formats are outside this host. *)

Module ExampleHost.

Definition digit (c : ascii) : option Z :=
  let n := Z.of_nat (nat_of_ascii c) in
  if (48 <=? n) && (n <=? 57) then Some (n - 48) else None.

(** Digits before and after the point: mantissa, number of fraction
    digits, number of digits read. *)
Fixpoint decimal (s : string) (seenPoint : bool) (m : Z) (frac digits : nat)
  : option (Z * nat * nat) :=
  match s with
  | EmptyString => Some (m, frac, digits)
  | String c rest =>
      match digit c with
      | Some d => decimal rest seenPoint (10 * m + d)
                          (if seenPoint then S frac else frac) (S digits)
      | None =>
          if Ascii.eqb c "." && negb seenPoint then decimal rest true m frac digits
          else None
      end
  end.

Definition unsignedLiteral (s : string) : number :=
  match decimal s false 0 0%nat 0%nat with
  | Some (m, frac, S _) => Num (inject_Z m / inject_Z (10 ^ Z.of_nat frac))
  | _ => NaN
  end.

Definition stringToNumber (s : string) : number :=
  match s with
  | EmptyString => Num 0
  | String "-" rest =>
      match unsignedLiteral rest with Num q => Num (- q) | NaN => NaN end
  | String "+" rest => unsignedLiteral rest
  | _ => unsignedLiteral s
  end.

Fixpoint digitsValue (s : string) (acc : Z) : option Z :=
  match s with
  | EmptyString => Some acc
  | String c rest =>
      match digit c with
      | Some d => digitsValue rest (10 * acc + d)
      | None => None
      end
  end.

Definition field (s : string) (start len : nat) : option Z :=
  digitsValue (substring start len s) 0.

(** Days from 1970-01-01 to the given civil date. *)
Definition daysFromCivil (y m d : Z) : Z :=
  let y' := if m <=? 2 then y - 1 else y in
  let era := y' / 400 in
  let yoe := y' - era * 400 in
  let doy := (153 * (if 2 <? m then m - 3 else m + 9) + 2) / 5 + d - 1 in
  let doe := yoe * 365 + yoe / 4 - yoe / 100 + doy in
  era * 146097 + doe - 719468.

Definition stampToMs (s : string) : option Z :=
  match field s 0 4, field s 5 2, field s 8 2,
        field s 11 2, field s 14 2, field s 17 2 with
  | Some y, Some mo, Some d, Some h, Some mi, Some se =>
      if (String.length s =? 19)%nat
         && (substring 4 1 s =? "-")%string && (substring 7 1 s =? "-")%string
         && (substring 10 1 s =? " ")%string
         && (substring 13 1 s =? ":")%string && (substring 16 1 s =? ":")%string
         && (1 <=? mo) && (mo <=? 12) && (1 <=? d) && (d <=? 31)
         && (h <? 24) && (mi <? 60) && (se <? 60)
      then Some ((((daysFromCivil y mo d * 24 + h) * 60 + mi) * 60 + se) * 1000)
      else None
  | _, _, _, _, _, _ => None
  end.

Definition dateParse (v : jsval) : option Z :=
  match v with
  | JUndefined => None
  | JNull => Some 0
  | JBool b => Some (if b then 1 else 0)
  | JNum NaN => None
  | JNum (Num q) => Some (Z.quot (Qnum q) (Zpos (Qden q)))
  | JStr s => stampToMs s
  end.

Definition isNaN (v : jsval) : bool :=
  match v with
  | JUndefined => true
  | JNull | JBool _ => false
  | JNum NaN => true
  | JNum (Num _) => false
  | JStr s => match stringToNumber s with NaN => true | Num _ => false end
  end.

Definition invalidLatLng (lat lng : jsval) : bool := isNaN lat || isNaN lng.

#[export] Instance host : Host := {|
  StringToNumber := stringToNumber;
  DateParse := dateParse;
  setLatLng_throws := invalidLatLng
|}.

End ExampleHost.

(* ================================================================== *)
(** ** Example inputs *)

Module Examples.

(** A payload as the firmware uploads it. *)
Definition payload (t h c : Q) (stamp : string) : liveData.t :=
  liveData.mk (JNum (Num t)) (JNum (Num h)) (JNum (Num c))
              (JStr "10.908500,76.909800") (JStr stamp).

(** 2025-01-01 00:00:00 UTC in milliseconds. *)
Definition t0 : Z := 1735689600000.

Definition tick (d : liveData.t) (nowMs : Z) : Tick :=
  mkTick (Some (Some d)) "Coimbatore, Tamil Nadu, India" nowMs
         "Coimbatore, Tamil Nadu, India".

(** Calm air, carbon [c], at [sec] seconds past 00:00. *)
Definition calm (c : Q) (stamp : string) (sec : Z) : Tick :=
  tick (payload 28 50 c stamp) (t0 + 1000 * sec).

Definition rising6 : list Tick :=
  [ calm 300 "2025-01-01 00:00:00" 0;
    calm 320 "2025-01-01 00:00:15" 15;
    calm 340 "2025-01-01 00:00:30" 30;
    calm 360 "2025-01-01 00:00:45" 45;
    calm 380 "2025-01-01 00:01:00" 60;
    calm 400 "2025-01-01 00:01:15" 75 ].

Definition rising7 : list Tick :=
  [ calm 300 "2025-01-01 00:00:00" 0;
    calm 320 "2025-01-01 00:00:15" 15;
    calm 340 "2025-01-01 00:00:30" 30;
    calm 350 "2025-01-01 00:00:45" 45;
    calm 360 "2025-01-01 00:01:00" 60;
    calm 380 "2025-01-01 00:01:15" 75;
    calm 400 "2025-01-01 00:01:30" 90 ].

Definition rising5 : list Tick := firstn 5 rising6.
Definition sixth : Tick := calm 400 "2025-01-01 00:01:15" 75.

(** Twenty-two ticks, one second apart, carbon 300, 301, ... *)
Definition steady : list Tick :=
  map (fun n => calm (inject_Z (300 + Z.of_nat n)) "2025-01-01 00:00:00" (Z.of_nat n))
      (seq 0 22).

(** A record older than the one fetched before it. *)
Definition fresh : Tick := calm 300 "2025-01-01 00:00:15" 15.
Definition stale : Tick := calm 300 "2025-01-01 00:00:00" 20.

(** A record exactly 24 hours old at [t0], then one stamped 5 seconds
    after [t0]. *)
Definition dayOld : Tick := calm 300 "2024-12-31 00:00:00" 0.
Definition ahead : Tick := calm 310 "2025-01-01 00:00:05" 0.

(** 46 degrees: above the temperature threshold only. *)
Definition hot (sec : Z) : Tick :=
  tick (payload 46 50 300 "2025-01-01 00:00:00") (t0 + 1000 * sec).

Definition hotSample : Sample :=
  mkSample (JNum (Num 46)) (JNum (Num 50)) (JNum (Num 300))
           (JNum (Num 10.9085)) (JNum (Num 76.9098))
           "Coimbatore, Tamil Nadu, India" (JStr "2025-01-01 00:00:00").

Definition sampleWith (t h c : Q) : Sample :=
  mkSample (JNum (Num t)) (JNum (Num h)) (JNum (Num c))
           (JNum (Num 10.9085)) (JNum (Num 76.9098))
           "Coimbatore, Tamil Nadu, India" (JStr "2025-01-01 00:00:00").

(** A payload without [location]. *)
Definition noLocation : Tick :=
  mkTick (Some (Some (liveData.mk (JNum (Num 46)) (JNum (Num 50)) (JNum (Num 300))
                                  JUndefined (JStr "2025-01-01 00:00:00"))))
         "" t0 "Coimbatore".


(** A record over all three thresholds. *)
Definition alarm (sec : Z) : Tick :=
  tick (payload 50 90 600 "2025-01-01 00:00:00") (t0 + 1000 * sec).

(** A record whose location does not parse. *)
Definition badLocation : Tick :=
  tick (liveData.mk (JNum (Num 46)) (JNum (Num 50)) (JNum (Num 300))
                    (JStr "unknown") (JStr "2025-01-01 00:00:00")) t0.

(** A sample none of whose readings is a number. *)
Definition unreadable : Sample :=
  mkSample (JStr "n/a") (JStr "n/a") (JStr "n/a")
           (JNum (Num 10.9085)) (JNum (Num 76.9098))
           "Coimbatore, Tamil Nadu, India" (JStr "2025-01-01 00:00:00").

(** A poll while the location text carries the disclaimer. *)
Definition starred : Tick :=
  mkTick (Some (Some (payload 46 50 300 "2025-01-01 00:00:00")))
         "Coimbatore, Tamil Nadu, India" t0
         "Coimbatore, Tamil Nadu, India*Suggestions use your location".

(** A page before the first poll, the gauge tab on display. *)
Definition page0 : Page :=
  mkPage initialState
         (mkDisplay (mkFill None (Num 0)) (mkFill None (Num 0))
                    (mkFill None (Num 0)) None None)
         (mkAlertsUi (mkBadge None true) true NoAlertsMessage)
         (mkHeat [] [] [])
         (mkAnalytics (mkTab true false) (mkTab false true)
                      Filter24h KeyCarbon None).

(** The same with the analytics tab on display. *)
Definition page0Analytics : Page :=
  mkPage initialState
         (mkDisplay (mkFill None (Num 0)) (mkFill None (Num 0))
                    (mkFill None (Num 0)) None None)
         (mkAlertsUi (mkBadge None true) true NoAlertsMessage)
         (mkHeat [] [] [])
         (mkAnalytics (mkTab false true) (mkTab true false)
                      Filter24h KeyCarbon None).


End Examples.

(* ================================================================== *)
(** ** Properties *)

Section Properties.

Context {host : Host}.

(** *** How a cycle ends *)

Lemma checkThresholds_history (st : State) (tk : Tick) (data : Sample) :
  historicalData (fst (checkThresholds st tk data)) = historicalData st.
Proof.
  unfold checkThresholds.
  destruct (js_gt (temperature data) THRESHOLDS.temp && _);
    destruct (js_gt (carbon data) THRESHOLDS.co2 && _);
    destruct (js_gt (humidity data) THRESHOLDS.humidity && _); reflexivity.
Qed.

Lemma fetchData_accepts (st : State) (tk : Tick) (s : Sample) :
  sampleOf tk = Some s ->
  fetchData st tk =
    (pushHistory (fst (checkThresholds st tk s)) s,
     Accepted (updateStatusPanel st s) (snd (checkThresholds st tk s))).
Proof.
  unfold sampleOf, fetchData.
  destruct (response tk) as [[d|]|]; try discriminate.
  destruct (liveData.location d) as [| |b|n|loc]; try discriminate.
  cbn [truthy].
  destruct (str_nonempty loc); cbn [andb]; try discriminate.
  unfold updateDashboard.
  destruct (setLatLng_throws _ _); cbn [negb]; try discriminate.
  intros [= <-].
  destruct (checkThresholds st tk (formatData d loc tk)); reflexivity.
Qed.

Lemma fetchData_rejects (st : State) (tk : Tick) :
  sampleOf tk = None -> fst (fetchData st tk) = st.
Proof.
  unfold sampleOf, fetchData.
  destruct (response tk) as [[d|]|]; try reflexivity.
  destruct (liveData.location d) as [| |b|n|loc]; cbn [truthy];
    try reflexivity.
  - destruct b; reflexivity.
  - destruct n as [|q]; [reflexivity|]. destruct (negb _); reflexivity.
  - destruct (str_nonempty loc); cbn [andb]; [|reflexivity].
    unfold updateDashboard.
    destruct (setLatLng_throws _ _); cbn [negb]; [reflexivity|discriminate].
Qed.

Lemma pushHistory_history (st : State) (s : Sample) :
  historicalData (pushHistory st s) =
    if 20 <? Z.of_nat (List.length (historicalData st ++ [s]))
    then tl (historicalData st ++ [s]) else historicalData st ++ [s].
Proof. reflexivity. Qed.

Lemma pushHistory_snoc (st : State) (s : Sample) :
  exists older, historicalData (pushHistory st s) = older ++ [s].
Proof.
  rewrite pushHistory_history.
  destruct (20 <? _) eqn:E.
  - destruct (historicalData st) as [|x l] eqn:Hh.
    + cbn in E. discriminate.
    + exists l. reflexivity.
  - exists (historicalData st). reflexivity.
Qed.

(** *** The history buffer *)

Lemma tl_skipn {A : Type} (k : nat) (l : list A) :
  tl (skipn k l) = skipn (S k) l.
Proof.
  revert l; induction k as [|k IH]; intros [|x l]; cbn [skipn tl];
    try reflexivity.
  apply IH.
Qed.

Lemma last20_snoc (l : list Sample) (s : Sample) :
  (if 20 <? Z.of_nat (List.length (last20 l ++ [s]))
   then tl (last20 l ++ [s]) else last20 l ++ [s]) = last20 (l ++ [s]).
Proof.
  unfold last20.
  rewrite !length_app, length_skipn. cbn [List.length].
  destruct (Nat.le_gt_cases (List.length l) 19) as [Hle|Hgt].
  - replace (List.length l - 20)%nat with 0%nat by lia.
    replace (List.length l + 1 - 20)%nat with 0%nat by lia.
    cbn [skipn].
    destruct (Z.ltb_spec 20 (Z.of_nat (List.length l - 0 + 1))); [lia|reflexivity].
  - destruct (Z.ltb_spec 20
               (Z.of_nat (List.length l - (List.length l - 20) + 1))); [|lia].
    replace (List.length l + 1 - 20)%nat with (S (List.length l - 20)) by lia.
    rewrite <- tl_skipn, skipn_app.
    replace (List.length l - 20 - List.length l)%nat with 0%nat by lia.
    cbn [skipn]. reflexivity.
Qed.

Lemma length_last20 (l : list Sample) :
  List.length (last20 l) = Nat.min (List.length l) 20.
Proof. unfold last20. rewrite length_skipn. lia. Qed.

Lemma poll_snoc (st : State) (tks : list Tick) (tk : Tick) :
  poll st (tks ++ [tk]) = fst (fetchData (poll st tks) tk).
Proof. unfold poll. rewrite fold_left_app. reflexivity. Qed.

Lemma map_snoc_inv {A B : Type} (f : A -> option B) (l : list A) (x : A)
    (ys : list B) :
  map f (l ++ [x]) = map Some ys ->
  exists ys' y, ys = ys' ++ [y] /\ map f l = map Some ys' /\ f x = Some y.
Proof.
  rewrite map_app. cbn [map]. intros H.
  destruct (@exists_last _ ys) as (ys' & y & ->).
  - intros ->. destruct (map f l); discriminate.
  - rewrite map_app in H. cbn [map] in H.
    apply app_inj_tail in H. destruct H as [H1 H2].
    exists ys', y. auto.
Qed.

Lemma poll_history (tks : list Tick) (samples : list Sample) :
  map sampleOf tks = map Some samples ->
  historicalData (poll initialState tks) = last20 samples.
Proof.
  revert samples. induction tks as [|tk tks IH] using rev_ind; intros samples H.
  - destruct samples; [reflexivity|discriminate].
  - apply map_snoc_inv in H. destruct H as (ys & y & -> & Hmap & Hy).
    rewrite poll_snoc, (fetchData_accepts _ _ _ Hy). cbn [fst].
    rewrite pushHistory_history, checkThresholds_history, (IH _ Hmap).
    apply last20_snoc.
Qed.

Lemma map_firstn_Some (tks : list Tick) (samples : list Sample) (k : nat) :
  map sampleOf tks = map Some samples ->
  map sampleOf (firstn k tks) = map Some (firstn k samples).
Proof. intros H. rewrite <- !firstn_map, H. reflexivity. Qed.

(** C3: after [N] valid samples, ingested in order from the start, the
    history holds exactly the last [min N 20] of them, oldest first, and
    at no point between two cycles does it hold more than 20. *)
Theorem history_is_last_twenty (tks : list Tick) (samples : list Sample) :
  map sampleOf tks = map Some samples ->
  let history := historicalData (poll initialState tks) in
  List.length history = Nat.min (List.length samples) 20
  /\ history = skipn (List.length samples - Nat.min (List.length samples) 20) samples
  /\ forall k, (List.length (historicalData (poll initialState (firstn k tks))) <= 20)%nat.
Proof.
  intros H history. subst history.
  rewrite (poll_history _ _ H). split; [apply length_last20|]. split.
  - unfold last20. f_equal. lia.
  - intros k.
    rewrite (poll_history _ _ (map_firstn_Some _ _ k H)), length_last20. lia.
Qed.

(** *** Staleness and validation *)

(** C1, amended: ingestion compares no timestamps. Whatever the
    timestamp of a fetched sample that gets past the location guard and
    the map marker (older than, equal to or newer than the latest one
    buffered), the sample is appended, the oldest entry being dropped
    when the length would pass 20, and the status panel and the
    thresholds are evaluated in that cycle. *)
Theorem every_located_sample_is_appended (st : State) (tk : Tick) (s : Sample) :
  sampleOf tk = Some s ->
  historicalData (fst (fetchData st tk)) =
    (if 20 <? Z.of_nat (List.length (historicalData st ++ [s]))
     then tl (historicalData st ++ [s]) else historicalData st ++ [s])
  /\ snd (fetchData st tk) =
       Accepted (updateStatusPanel st s) (snd (checkThresholds st tk s)).
Proof.
  intros H. rewrite (fetchData_accepts _ _ _ H). cbn [fst snd].
  rewrite pushHistory_history, checkThresholds_history. split; reflexivity.
Qed.



(** *** The status panel *)

(** C4: the status is decided by the first check that succeeds, in the
    order carbon > 500, temperature > 45, humidity > 80, otherwise
    normal; so carbon 600 with temperature 50 reads as high CO2. *)
Theorem status_first_match_wins (st : State) (data : Sample) :
  (js_gt (carbon data) 500 = true ->
     statusText (updateStatusPanel st data) = HighCO2)
  /\ (js_gt (carbon data) 500 = false ->
      js_gt (temperature data) 45 = true ->
      statusText (updateStatusPanel st data) = HighTemperature)
  /\ (js_gt (carbon data) 500 = false ->
      js_gt (temperature data) 45 = false ->
      js_gt (humidity data) 80 = true ->
      statusText (updateStatusPanel st data) = ElevatedHumidity)
  /\ (js_gt (carbon data) 500 = false ->
      js_gt (temperature data) 45 = false ->
      js_gt (humidity data) 80 = false ->
      statusText (updateStatusPanel st data) = Normal)
  /\ (carbon data = JNum (Num 600) ->
      temperature data = JNum (Num 50) ->
      statusText (updateStatusPanel st data) = HighCO2).
Proof.
  unfold updateStatusPanel, THRESHOLDS.co2, THRESHOLDS.temp, THRESHOLDS.humidity.
  repeat split.
  - intros ->. reflexivity.
  - intros -> ->. reflexivity.
  - intros -> -> ->. reflexivity.
  - intros -> -> ->. reflexivity.
  - intros -> _. reflexivity.
Qed.

Lemma trend_needs_history (st : State) (data : Sample) :
  (Z.of_nat (List.length (historicalData st)) <= 5) ->
  statusSuggestion (updateStatusPanel st data) <> TrendingDownwards
  /\ forall ppm, statusSuggestion (updateStatusPanel st data) <> TrendingUpwards ppm.
Proof.
  intros Hlen. unfold updateStatusPanel.
  destruct (Z.ltb_spec 5 (Z.of_nat (List.length (historicalData st)))); [lia|].
  destruct (js_gt (carbon data) THRESHOLDS.co2);
    [|destruct (js_gt (temperature data) THRESHOLDS.temp);
      [|destruct (js_gt (humidity data) THRESHOLDS.humidity)]];
    cbn [statusSuggestion]; split; try intros ppm; discriminate.
Qed.

Lemma trend_upwards_inv (st : State) (data : Sample) (ppm : Z) :
  statusSuggestion (updateStatusPanel st data) = TrendingUpwards ppm ->
  exists oldest rest,
    historicalData st = oldest :: rest
    /\ ppm = trendShown (num_sub (ToNumber (carbon data)) (ToNumber (carbon oldest)))
    /\ num_gt (num_sub (ToNumber (carbon data)) (ToNumber (carbon oldest))) (Num 50) = true.
Proof.
  unfold updateStatusPanel.
  destruct (js_gt (carbon data) THRESHOLDS.co2); [discriminate|].
  destruct (js_gt (temperature data) THRESHOLDS.temp); [discriminate|].
  destruct (js_gt (humidity data) THRESHOLDS.humidity); [discriminate|].
  cbn [statusSuggestion].
  destruct (5 <? _); [|discriminate].
  destruct (historicalData st) as [|oldest rest]; [discriminate|].
  cbv zeta.
  destruct (num_gt _ (Num 50)) eqn:Hgt.
  - intros [= <-]. exists oldest, rest. auto.
  - destruct (num_lt _ _); discriminate.
Qed.

Lemma checkThresholds_quiet (st : State) (tk : Tick) (data : Sample) :
  js_gt (temperature data) 45 = false ->
  js_gt (carbon data) 500 = false ->
  js_gt (humidity data) 80 = false ->
  checkThresholds st tk data = (st, []).
Proof.
  unfold checkThresholds, THRESHOLDS.co2, THRESHOLDS.temp, THRESHOLDS.humidity.
  intros -> -> ->. reflexivity.
Qed.

(** C5, amended: with carbon rising from 300 to 400 and the current
    sample under every threshold, the cycle reports Normal with an
    upward trend of 100 ppm once more than 5 samples were buffered
    before the current one, that is from the 7th sample on (and while
    the first sample is still the oldest in the buffer); on the 6th
    sample's cycle, with 5 samples buffered, it reports stable
    conditions. *)
Theorem upward_trend_from_seventh_sample
    (tks : list Tick) (first : Sample) (rest : list Sample)
    (tk : Tick) (s : Sample) :
  map sampleOf tks = map Some (first :: rest) ->
  sampleOf tk = Some s ->
  carbon first = JNum (Num 300) ->
  carbon s = JNum (Num 400) ->
  js_gt (temperature s) 45 = false ->
  js_gt (humidity s) 80 = false ->
  let outcome := snd (fetchData (poll initialState tks) tk) in
  ((5 < List.length (first :: rest) <= 20)%nat ->
     outcome = Accepted (mkPanel Normal (TrendingUpwards 100)) [])
  /\ ((List.length (first :: rest) <= 5)%nat ->
      outcome = Accepted (mkPanel Normal Stable) []).
Proof.
  intros Hmap Hs Hfirst Hlast Htemp Hhum outcome. subst outcome.
  rewrite (fetchData_accepts _ _ _ Hs). cbn [snd].
  assert (Hco2 : js_gt (carbon s) 500 = false) by (rewrite Hlast; reflexivity).
  rewrite (checkThresholds_quiet _ _ _ Htemp Hco2 Hhum). cbn [snd].
  pose proof (poll_history _ _ Hmap) as Hhist.
  unfold updateStatusPanel, THRESHOLDS.co2, THRESHOLDS.temp, THRESHOLDS.humidity.
  rewrite Hco2, Htemp, Hhum, Hhist.
  split; intros Hlen.
  - unfold last20.
    replace (List.length (first :: rest) - 20)%nat with 0%nat by lia.
    cbn [skipn].
    destruct (Z.ltb_spec 5 (Z.of_nat (List.length (first :: rest)))); [|lia].
    rewrite Hfirst, Hlast. reflexivity.
  - rewrite length_last20.
    destruct (Z.ltb_spec 5
                (Z.of_nat (Nat.min (List.length (first :: rest)) 20))); [lia|].
    reflexivity.
Qed.

(** *** The alert log *)

Lemma checkThresholds_spec (st : State) (tk : Tick) (data : Sample) :
  snd (checkThresholds st tk data) =
    (if fires OfTemperature st tk data then [alertOf OfTemperature tk data] else [])
    ++ (if fires OfCO2 st tk data then [alertOf OfCO2 tk data] else [])
    ++ (if fires OfHumidity st tk data then [alertOf OfHumidity tk data] else [])
  /\ (forall k, lastFired k (fst (checkThresholds st tk data)) =
                if fires k st tk data then now tk else lastFired k st)
  /\ activeAlerts (fst (checkThresholds st tk data)) =
       rev (snd (checkThresholds st tk data)) ++ activeAlerts st
  /\ unreadAlertCount (fst (checkThresholds st tk data)) =
       unreadAlertCount st
       + Z.of_nat (List.length (snd (checkThresholds st tk data))).
Proof.
  destruct st as [h a u [lt lc lh]].
  unfold checkThresholds, fires, breaches, lastFired.
  cbn -[js_gt Z.gtb Z.sub Z.add Z.of_nat rev].
  destruct (js_gt (temperature data) THRESHOLDS.temp && _) eqn:E1;
    cbn -[js_gt Z.gtb Z.sub Z.add Z.of_nat rev];
    destruct (js_gt (carbon data) THRESHOLDS.co2 && _) eqn:E2;
    cbn -[js_gt Z.gtb Z.sub Z.add Z.of_nat rev];
    destruct (js_gt (humidity data) THRESHOLDS.humidity && _) eqn:E3;
    cbn -[js_gt Z.gtb Z.sub Z.add Z.of_nat rev];
    (split; [reflexivity|]); (split; [|split; cbn; try reflexivity; lia]);
    intros [| |]; cbn -[js_gt Z.gtb Z.sub]; rewrite ?E1, ?E2, ?E3; reflexivity.
Qed.

Lemma run_snoc (st : State) (es : list Event) (e : Event) :
  run st (es ++ [e]) = step (run st es) e.
Proof. unfold run. rewrite fold_left_app. reflexivity. Qed.

Lemma step_unread_bounded (st : State) (e : Event) :
  0 <= unreadAlertCount st <= Z.of_nat (List.length (activeAlerts st)) ->
  0 <= unreadAlertCount (step st e)
    <= Z.of_nat (List.length (activeAlerts (step st e))).
Proof.
  intros Hinv. destruct e as [tk| |]; cbn [step].
  - destruct (sampleOf tk) as [s|] eqn:Hs.
    + rewrite (fetchData_accepts _ _ _ Hs). cbn [fst].
      destruct (checkThresholds_spec st tk s) as (_ & _ & Hlog & Hcount).
      unfold pushHistory. cbn [unreadAlertCount activeAlerts].
      rewrite Hlog, Hcount, length_app, length_rev. lia.
    + rewrite (fetchData_rejects _ _ Hs). assumption.
  - cbn. lia.
  - cbn. lia.
Qed.

(** C10: in every reachable state the unread counter lies between 0 and
    the length of the alert log. Sending an alert puts exactly one
    record in front of the log and adds one to the counter; opening the
    alert modal zeroes the counter and leaves the log as it is; clearing
    empties the log and zeroes the counter. *)
Theorem unread_count_bounded_by_log :
  (forall st, reachable st ->
     0 <= unreadAlertCount st <= Z.of_nat (List.length (activeAlerts st)))
  /\ (forall st tk metric value type,
       activeAlerts (sendAlert st tk metric value type) =
         alertRecord tk metric value type :: activeAlerts st
       /\ unreadAlertCount (sendAlert st tk metric value type) =
           unreadAlertCount st + 1)
  /\ (forall st,
       unreadAlertCount (alertBellBtn_click st) = 0
       /\ activeAlerts (alertBellBtn_click st) = activeAlerts st)
  /\ (forall st,
       activeAlerts (clearAllAlertsBtn_click st) = []
       /\ unreadAlertCount (clearAllAlertsBtn_click st) = 0).
Proof.
  split; [|repeat split].
  intros st [es ->].
  induction es as [|e es IH] using rev_ind.
  - cbn. lia.
  - rewrite run_snoc. apply step_unread_bounded, IH.
Qed.

(** *** The cooldown *)

Lemma metricName_inj (k k' : MetricKind) :
  metricName k = metricName k' -> k = k'.
Proof. destruct k, k'; cbn; intros E; try reflexivity; discriminate E. Qed.

Lemma alertOf_metric (k : MetricKind) (tk : Tick) (data : Sample) :
  Alert.metric (alertOf k tk data) = metricName k
  /\ Alert.timestamp (alertOf k tk data) = now tk.
Proof. destruct k; split; reflexivity. Qed.

Lemma isOf_alertOf (k k' : MetricKind) (tk : Tick) (data : Sample) :
  isOf k (alertOf k' tk data) = true <-> k = k'.
Proof. destruct k, k'; cbn; split; intros E; try reflexivity; discriminate E. Qed.

Lemma fires_gap (k : MetricKind) (st : State) (tk : Tick) (data : Sample) :
  fires k st tk data = true ->
  breaches k data = true /\ now tk - lastFired k st > ALERT_COOLDOWN.
Proof.
  unfold fires. intros E. apply andb_true_iff in E. destruct E as [Hb Hg].
  split; [assumption|].
  destruct (Z.gtb_spec (now tk - lastFired k st) ALERT_COOLDOWN); [lia|discriminate].
Qed.

Lemma sent_member (st : State) (tk : Tick) (data : Sample) (a : Alert.t) :
  In a (snd (checkThresholds st tk data)) ->
  exists k, a = alertOf k tk data /\ fires k st tk data = true.
Proof.
  destruct (checkThresholds_spec st tk data) as (-> & _).
  rewrite !in_app_iff.
  intros [H | [H | H]].
  - exists OfTemperature.
    destruct (fires OfTemperature st tk data); [|destruct H].
    destruct H as [<- | []]. auto.
  - exists OfCO2.
    destruct (fires OfCO2 st tk data); [|destruct H].
    destruct H as [<- | []]. auto.
  - exists OfHumidity.
    destruct (fires OfHumidity st tk data); [|destruct H].
    destruct H as [<- | []]. auto.
Qed.

Lemma sent_filter (k : MetricKind) (st : State) (tk : Tick) (data : Sample) :
  filter (isOf k) (snd (checkThresholds st tk data)) =
    if fires k st tk data then [alertOf k tk data] else [].
Proof.
  destruct (checkThresholds_spec st tk data) as (-> & _).
  destruct k;
    destruct (fires OfTemperature st tk data), (fires OfCO2 st tk data),
      (fires OfHumidity st tk data); reflexivity.
Qed.

Lemma sent_apart (st : State) (tk : Tick) (data : Sample) :
  ForallOrdPairs apart (snd (checkThresholds st tk data)).
Proof.
  destruct (checkThresholds_spec st tk data) as (-> & _).
  destruct (fires OfTemperature st tk data), (fires OfCO2 st tk data),
    (fires OfHumidity st tk data); cbn [app];
    repeat constructor; intros E; discriminate E.
Qed.

Lemma lastFired_grows (k : MetricKind) (st : State) (tk : Tick) (data : Sample) :
  lastFired k st <= lastFired k (fst (checkThresholds st tk data)).
Proof.
  destruct (checkThresholds_spec st tk data) as (_ & -> & _).
  destruct (fires k st tk data) eqn:E; [|lia].
  apply fires_gap in E. unfold ALERT_COOLDOWN in E. lia.
Qed.

Lemma evaluations_cons (st : State) (tk : Tick) (data : Sample)
    (rest : list (Tick * Sample)) :
  evaluations st ((tk, data) :: rest) =
    (fst (evaluations (fst (checkThresholds st tk data)) rest),
     snd (checkThresholds st tk data)
     ++ snd (evaluations (fst (checkThresholds st tk data)) rest)).
Proof.
  cbn [evaluations].
  destruct (checkThresholds st tk data) as [st1 sent]. cbn [fst snd].
  destruct (evaluations st1 rest). reflexivity.
Qed.

Lemma evaluations_app (st : State) (l1 l2 : list (Tick * Sample)) :
  evaluations st (l1 ++ l2) =
    (fst (evaluations (fst (evaluations st l1)) l2),
     snd (evaluations st l1) ++ snd (evaluations (fst (evaluations st l1)) l2)).
Proof.
  revert st. induction l1 as [|[tk data] l1 IH]; intros st.
  - cbn. destruct (evaluations st l2); reflexivity.
  - rewrite <- app_comm_cons, !evaluations_cons, IH. cbn [fst snd].
    rewrite app_assoc. reflexivity.
Qed.

Lemma later_after (calls : list (Tick * Sample)) (st : State) (a : Alert.t) :
  In a (snd (evaluations st calls)) ->
  exists k, Alert.metric a = metricName k
            /\ Alert.timestamp a - lastFired k st > ALERT_COOLDOWN.
Proof.
  revert st. induction calls as [|[tk data] rest IH]; intros st.
  - intros [].
  - rewrite evaluations_cons. cbn [snd]. rewrite in_app_iff. intros [H | H].
    + apply sent_member in H. destruct H as (k & -> & Hf).
      exists k. destruct (alertOf_metric k tk data) as [-> ->].
      split; [reflexivity|]. apply (fires_gap _ _ _ _ Hf).
    + apply IH in H. destruct H as (k & Hm & Hgap).
      exists k. split; [assumption|].
      pose proof (lastFired_grows k st tk data). lia.
Qed.

Lemma ForallOrdPairs_app {A : Type} (R : A -> A -> Prop) (l1 l2 : list A) :
  ForallOrdPairs R l1 -> ForallOrdPairs R l2 ->
  (forall a b, In a l1 -> In b l2 -> R a b) ->
  ForallOrdPairs R (l1 ++ l2).
Proof.
  intros H1 H2 Hx. induction H1 as [|a l Ha Hl IH]; [assumption|].
  cbn [app]. constructor.
  - apply Forall_app. split; [assumption|].
    apply Forall_forall. intros b Hb. apply Hx; [left; reflexivity|assumption].
  - apply IH. intros a' b Ha' Hb. apply Hx; [right|]; assumption.
Qed.

Lemma evaluations_apart (calls : list (Tick * Sample)) (st : State) :
  ForallOrdPairs apart (snd (evaluations st calls)).
Proof.
  revert st. induction calls as [|[tk data] rest IH]; intros st.
  - constructor.
  - rewrite evaluations_cons. cbn [snd].
    apply ForallOrdPairs_app; [apply sent_apart|apply IH|].
    intros a b Ha Hb Hm.
    apply sent_member in Ha. destruct Ha as (k & -> & Hf).
    apply later_after in Hb. destruct Hb as (k' & Hm' & Hgap).
    destruct (alertOf_metric k tk data) as [Ea Et].
    rewrite Ea, Hm' in Hm. apply metricName_inj in Hm. subst k'.
    destruct (checkThresholds_spec st tk data) as (_ & Hlast & _).
    rewrite Hlast, Hf in Hgap. rewrite Et. assumption.
Qed.

Lemma quiet_within_cooldown (k : MetricKind) (calls : list (Tick * Sample))
    (st : State) :
  (forall c, In c calls -> now (fst c) - lastFired k st <= ALERT_COOLDOWN) ->
  filter (isOf k) (snd (evaluations st calls)) = []
  /\ lastFired k (fst (evaluations st calls)) = lastFired k st.
Proof.
  revert st. induction calls as [|[tk data] rest IH]; intros st Hin.
  - split; reflexivity.
  - rewrite evaluations_cons. cbn [fst snd].
    assert (Hno : fires k st tk data = false).
    { unfold fires. specialize (Hin (tk, data) (or_introl eq_refl)). cbn [fst] in Hin.
      destruct (Z.gtb_spec (now tk - lastFired k st) ALERT_COOLDOWN); [lia|].
      apply andb_false_r. }
    destruct (checkThresholds_spec st tk data) as (Hsent & Hlast & _).
    specialize (Hlast k). rewrite Hno in Hlast.
    destruct (IH (fst (checkThresholds st tk data))) as [Hq Hl].
    { intros c Hc. rewrite Hlast. apply Hin. right. assumption. }
    rewrite filter_app, Hq, app_nil_r, Hl, Hlast, sent_filter, Hno.
    split; reflexivity.
Qed.

(** C2: over any sequence of alert evaluations, two alerts of one metric
    are more than 300000 ms apart (for every ordered pair of alerts
    sent). And the cooldown runs from the time the metric last fired:
    with that metric over its threshold at every evaluation, those made
    within 300000 ms of the last firing send no alert for it and the
    first one made later sends exactly one, which restarts the
    cooldown. *)
Theorem one_alert_per_cooldown :
  (forall st calls, ForallOrdPairs apart (snd (evaluations st calls)))
  /\ (forall k st within tk data,
       (forall c, In c (within ++ [(tk, data)]) -> breaches k (snd c) = true) ->
       (forall c, In c within ->
          now (fst c) - lastFired k st <= ALERT_COOLDOWN) ->
       now tk - lastFired k st > ALERT_COOLDOWN ->
       filter (isOf k) (snd (evaluations st (within ++ [(tk, data)])))
         = [alertOf k tk data]
       /\ lastFired k (fst (evaluations st (within ++ [(tk, data)]))) = now tk).
Proof.
  split; [intros st calls; apply evaluations_apart|].
  intros k st within tk data Hbreach Hin Hlate.
  destruct (quiet_within_cooldown k within st Hin) as [Hq Hl].
  rewrite evaluations_app. cbn [fst snd].
  rewrite filter_app, Hq, app_nil_l.
  rewrite evaluations_cons. cbn [evaluations fst snd]. rewrite app_nil_r.
  set (st' := fst (evaluations st within)) in *.
  assert (Hf : fires k st' tk data = true).
  { unfold fires. rewrite Hl.
    assert (Hb : breaches k data = true)
      by (apply (Hbreach (tk, data)), in_app_iff; right; left; reflexivity).
    rewrite Hb.
    destruct (Z.gtb_spec (now tk - lastFired k st) ALERT_COOLDOWN); [reflexivity|lia]. }
  destruct (checkThresholds_spec st' tk data) as (Hsent & Hlast & _).
  rewrite Hlast, sent_filter, Hf. split; reflexivity.
Qed.

(** *** The analytics filter *)

Lemma combine_map {A B C : Type} (f : A -> B) (g : A -> C) (l : list A) :
  combine (map f l) (map g l) = map (fun x => (f x, g x)) l.
Proof. induction l as [|x l IH]; cbn; [|rewrite IH]; reflexivity. Qed.

Lemma laterThan_spec (bound : Z) (d : Sample) :
  laterThan bound d =
    match DateParse (timestamp d) with
    | Some t => bound <? t
    | None => false
    end.
Proof.
  unfold laterThan. destruct (DateParse (timestamp d)); [|reflexivity].
  apply Z.gtb_ltb.
Qed.

(** C8, amended: for a time range of 24h or 7d the chart receives
    exactly the buffered samples whose timestamp is a valid date
    strictly later than now minus the range, with no upper bound at now,
    in buffer order, as (timestamp, value) pairs of the chosen metric;
    the history buffer is left as it is. *)
Theorem analytics_window_has_no_upper_bound
    (st : State) (timeFilter : TimeFilter) (range : Z) (key : DataKey) (nowMs : Z) :
  rangeMs timeFilter = Some range ->
  fst (renderAnalyticsChart st timeFilter key nowMs) = st
  /\ chartPairs (snd (renderAnalyticsChart st timeFilter key nowMs)) =
       map (fun d => (DateParse (timestamp d), readKey key d))
           (filter (fun d => match DateParse (timestamp d) with
                             | Some t => nowMs - range <? t
                             | None => false
                             end)
                   (historicalData st)).
Proof.
  intros Hrange. unfold renderAnalyticsChart.
  destruct (historicalData st) as [|d0 l] eqn:Hh;
    [split; reflexivity|].
  cbn [List.length Nat.eqb fst snd chartPairs]. split; [reflexivity|].
  rewrite combine_map.
  destruct timeFilter; cbn in Hrange; inversion Hrange; subst range;
    f_equal; apply filter_ext; intros d; apply laterThan_spec.
Qed.

(** *** The colour helpers *)

Lemma getTemperatureColor_band (value : jsval) :
  getTemperatureColor value =
    let '(color1, color2, factor) := temperatureBand value in
    interpolateColor color1 color2 factor.
Proof.
  unfold getTemperatureColor, temperatureBand.
  destruct (js_le value 25); [reflexivity|].
  destruct (js_le value 40); [reflexivity|].
  destruct (js_le value 50); [reflexivity|].
  destruct (js_le value 70); reflexivity.
Qed.

Lemma floor_in_byte (x : Q) :
  (0 <= x)%Q -> (x <= 255 + (1 # 2))%Q -> 0 <= Qfloor x <= 255.
Proof.
  intros H0 H1. split.
  - change 0 with (Qfloor 0). apply Qfloor_resp_le. assumption.
  - change 255 with (Qfloor (255 + (1 # 2))). apply Qfloor_resp_le. assumption.
Qed.

Lemma mix_in_byte (c1 c2 : number) (q : Q) :
  isByte c1 = true -> isByte c2 = true -> (0 <= q <= 1)%Q ->
  exists z, mix c1 c2 (Num q) = Num (inject_Z z) /\ 0 <= z <= 255.
Proof.
  destruct c1 as [|x1]; [discriminate|]. destruct c2 as [|x2]; [discriminate|].
  cbn [isByte]. intros H1 H2 Hq.
  apply andb_true_iff in H1, H2.
  destruct H1 as [L1 U1], H2 as [L2 U2].
  apply Qle_bool_iff in L1, U1, L2, U2.
  eexists. split; [reflexivity|].
  apply floor_in_byte; nra.
Qed.

Lemma unit_fraction (x w : Q) :
  (0 < w)%Q -> (0 <= x)%Q -> (x <= w)%Q -> (0 <= x / w <= 1)%Q.
Proof.
  intros Hw H0 H1. split.
  - apply Qle_shift_div_l; [assumption|]. lra.
  - apply Qle_shift_div_r; [assumption|]. lra.
Qed.

Lemma Qle_bool_false (x y : Q) : Qle_bool x y = false -> (y < x)%Q.
Proof.
  intros E. apply Qnot_le_lt. intros H. apply Qle_bool_iff in H. congruence.
Qed.

Lemma channels_in_byte (color1 color2 : string) (q : Q) :
  isByte (parseInt16 (substring 1 2 color1)) = true ->
  isByte (parseInt16 (substring 3 2 color1)) = true ->
  isByte (parseInt16 (substring 5 2 color1)) = true ->
  isByte (parseInt16 (substring 1 2 color2)) = true ->
  isByte (parseInt16 (substring 3 2 color2)) = true ->
  isByte (parseInt16 (substring 5 2 color2)) = true ->
  (0 <= q <= 1)%Q ->
  exists r g b,
    channels color1 color2 (Num q)
      = (Num (inject_Z r), Num (inject_Z g), Num (inject_Z b))
    /\ 0 <= r <= 255 /\ 0 <= g <= 255 /\ 0 <= b <= 255.
Proof.
  intros E1 E2 E3 E4 E5 E6 Hq.
  unfold channels.
  destruct (mix_in_byte _ _ q E1 E4 Hq) as (r & -> & Hr).
  destruct (mix_in_byte _ _ q E2 E5 Hq) as (g & -> & Hg).
  destruct (mix_in_byte _ _ q E3 E6 Hq) as (b & -> & Hb).
  exists r, g, b. auto.
Qed.

(** Within the gauge's range, 0 to 100 degrees, every band's factor lies
    in [0, 1] and the three channels in [0, 255]. *)
Lemma temperature_color_in_band (v : Q) :
  (0 <= v <= 100)%Q ->
  exists color1 color2 q r g b,
    temperatureBand (JNum (Num v)) = (color1, color2, Num q)
    /\ (0 <= q <= 1)%Q
    /\ channels color1 color2 (Num q)
       = (Num (inject_Z r), Num (inject_Z g), Num (inject_Z b))
    /\ 0 <= r <= 255 /\ 0 <= g <= 255 /\ 0 <= b <= 255.
Proof.
  intros Hv. unfold temperatureBand, js_le, ToNumber, num_le, num_div, num_sub.
  destruct (Qle_bool v 25) eqn:E25;
    [apply Qle_bool_iff in E25|apply Qle_bool_false in E25;
     destruct (Qle_bool v 40) eqn:E40;
     [apply Qle_bool_iff in E40|apply Qle_bool_false in E40;
      destruct (Qle_bool v 50) eqn:E50;
      [apply Qle_bool_iff in E50|apply Qle_bool_false in E50;
       destruct (Qle_bool v 70) eqn:E70;
       [apply Qle_bool_iff in E70|apply Qle_bool_false in E70]]]].
  all: match goal with
       | |- exists c1 c2 q r g b, (?a, ?b', Num ?f) = _ /\ _ =>
           assert (Hf : (0 <= f <= 1)%Q) by (apply unit_fraction; lra);
           destruct (channels_in_byte a b' f
                       eq_refl eq_refl eq_refl eq_refl eq_refl eq_refl Hf)
             as (r & g & b & Hc & Hr & Hg & Hb);
           exists a, b', f, r, g, b;
           split; [reflexivity|]; split; [exact Hf|]; split; [exact Hc|];
           split; [exact Hr|]; split; [exact Hg|exact Hb]
       end.
Qed.

(** C6, as the code runs: nothing clamps the interpolation factor. At
    -2 degrees the factor is -2/25, the blue channel comes out as 258
    and the colour has seven hexadecimal digits; at 130 degrees the
    factor is 2 and the green and blue channels are negative. *)
Theorem temperature_color_out_of_band :
  temperatureBand (JNum (Num (-2))) = (blue, green, Num (-2 / 25))
  /\ channels blue green (Num (-2 / 25)) = (Num 61, Num 125, Num 258)
  /\ getTemperatureColor (JNum (Num (-2))) = "#3d7d102"
  /\ temperatureBand (JNum (Num 130)) = (midRed, darkRed, Num ((130 - 70) / 30))
  /\ channels midRed darkRed (Num ((130 - 70) / 30)) = (Num 131, Num (-12), Num (-12))
  /\ getTemperatureColor (JNum (Num 130)) = "#83-c-c".
Proof. repeat split; reflexivity. Qed.

End Properties.

(* ================================================================== *)
(** ** Further properties of the script *)

Section MoreProperties.

Context {host : Host}.

(** *** Cycles *)

Lemma fetchData_rejects_whole (st : State) (tk : Tick) :
  sampleOf tk = None ->
  fetchData st tk = (st, Failed) \/ fetchData st tk = (st, Skipped).
Proof.
  unfold sampleOf, fetchData.
  destruct (response tk) as [[d|]|]; auto.
  destruct (liveData.location d) as [| |b|n|loc]; cbn [truthy]; auto.
  - destruct b; auto.
  - destruct n as [|q]; auto. destruct (negb _); auto.
  - destruct (str_nonempty loc); cbn [andb]; auto.
    unfold updateDashboard.
    destruct (setLatLng_throws _ _); cbn [negb]; auto. discriminate.
Qed.

Lemma sampleOf_fields (tk : Tick) (s : Sample) :
  sampleOf tk = Some s ->
  exists d, response tk = Some (Some d)
            /\ temperature s = liveData.temperature d
            /\ humidity s = liveData.humidity d
            /\ carbon s = liveData.carbon d
            /\ timestamp s = liveData.timestamp d
            /\ locationName s = address tk.
Proof.
  unfold sampleOf.
  destruct (response tk) as [[d|]|]; try discriminate.
  destruct (liveData.location d) as [| |b|n|loc]; try discriminate.
  destruct (_ && _); [|discriminate].
  intros [= <-]. exists d. repeat split; reflexivity.
Qed.

(** X1: a cycle either ingests or changes nothing. When it ingests, the
    newest entry of the history is the fetched record with its three
    readings and its timestamp exactly as they arrived and the resolved
    address as its name; otherwise (failed fetch, missing location,
    location that is not a string, coordinates the marker refuses) every
    global is as before. *)
Theorem cycle_ingests_or_changes_nothing (st : State) (tk : Tick) :
  (exists panel sent older s d,
     snd (fetchData st tk) = Accepted panel sent
     /\ response tk = Some (Some d)
     /\ historicalData (fst (fetchData st tk)) = older ++ [s]
     /\ temperature s = liveData.temperature d
     /\ humidity s = liveData.humidity d
     /\ carbon s = liveData.carbon d
     /\ timestamp s = liveData.timestamp d
     /\ locationName s = address tk)
  \/ fetchData st tk = (st, Failed)
  \/ fetchData st tk = (st, Skipped).
Proof.
  destruct (sampleOf tk) as [s|] eqn:Hs.
  - left. rewrite (fetchData_accepts _ _ _ Hs). cbn [fst snd].
    destruct (pushHistory_snoc (fst (checkThresholds st tk s)) s) as [older Ho].
    destruct (sampleOf_fields _ _ Hs) as (d & Hd & Ht & Hh & Hc & Hts & Hn).
    exists (updateStatusPanel st s), (snd (checkThresholds st tk s)), older, s, d.
    repeat split; assumption.
  - right. apply fetchData_rejects_whole. assumption.
Qed.

Lemma step_history_length (st : State) (e : Event) :
  (List.length (historicalData st) <= 20)%nat ->
  (List.length (historicalData (step st e)) <= 20)%nat
  /\ (List.length (historicalData (step st e)) = List.length (historicalData st)
      \/ List.length (historicalData (step st e)) = S (List.length (historicalData st))).
Proof.
  intros Hb. destruct e as [tk| |]; cbn [step]; try (split; [assumption|left; reflexivity]).
  destruct (sampleOf tk) as [s|] eqn:Hs.
  - rewrite (fetchData_accepts _ _ _ Hs). cbn [fst].
    rewrite pushHistory_history, checkThresholds_history, length_app.
    cbn [List.length].
    destruct (Z.ltb_spec 20 (Z.of_nat (List.length (historicalData st) + 1))).
    + destruct (historicalData st) as [|x l]; cbn [List.length app tl] in *; [lia|].
      rewrite length_app. cbn [List.length]. lia.
    + rewrite length_app. cbn [List.length]. lia.
  - rewrite (fetchData_rejects _ _ Hs). split; [assumption|left; reflexivity].
Qed.

(** X2: in every state reached from the start by polls and clicks, the
    history holds at most 20 samples, and no event ever makes it
    shorter: each one leaves its length as it is or adds one. *)
Theorem history_is_bounded_and_never_shrinks (es : list Event) (e : Event) :
  let st := run initialState es in
  (List.length (historicalData st) <= 20)%nat
  /\ (List.length (historicalData (step st e)) = List.length (historicalData st)
      \/ List.length (historicalData (step st e)) = S (List.length (historicalData st))).
Proof.
  cbv zeta.
  assert (Hb : (List.length (historicalData (run initialState es)) <= 20)%nat).
  { induction es as [|e' es IH] using rev_ind.
    - cbn. lia.
    - rewrite run_snoc. apply step_history_length, IH. }
  split; [exact Hb|]. apply step_history_length, Hb.
Qed.

(** *** Alerts *)

Lemma alertOf_inj (k k' : MetricKind) (tk : Tick) (data : Sample) :
  alertOf k tk data = alertOf k' tk data -> k = k'.
Proof.
  intros E. apply metricName_inj.
  rewrite <- (proj1 (alertOf_metric k tk data)),
          <- (proj1 (alertOf_metric k' tk data)), E.
  reflexivity.
Qed.

Lemma fires_iff (k : MetricKind) (st : State) (tk : Tick) (data : Sample) :
  fires k st tk data = true <->
  breaches k data = true /\ now tk - lastFired k st > ALERT_COOLDOWN.
Proof.
  split; [apply fires_gap|].
  intros [Hb Hg]. unfold fires. rewrite Hb.
  destruct (Z.gtb_spec (now tk - lastFired k st) ALERT_COOLDOWN); [reflexivity|lia].
Qed.

Lemma sent_has (k : MetricKind) (st : State) (tk : Tick) (data : Sample) :
  In (alertOf k tk data) (snd (checkThresholds st tk data)) <->
  fires k st tk data = true.
Proof.
  split.
  - intros H. apply sent_member in H. destruct H as (k' & E & Hf).
    apply alertOf_inj in E. subst k'. assumption.
  - intros Hf.
    assert (Hin : In (alertOf k tk data)
                     (filter (isOf k) (snd (checkThresholds st tk data)))).
    { rewrite sent_filter, Hf. left. reflexivity. }
    apply filter_In in Hin. tauto.
Qed.

(** X3: each metric is decided on its own. An evaluation alerts for a
    metric exactly when that metric's reading exceeds its threshold and
    more than 300000 ms have passed since that metric last fired,
    whatever the other two do, and only then is that metric's cooldown
    time set to now. A sample over all three thresholds with all three
    cooldowns over sends three alerts, for temperature, CO2 and
    humidity in this order; the log receives them newest first and the
    unread counter grows by 3. *)
Theorem alerts_are_decided_per_metric (st : State) (tk : Tick) (data : Sample) :
  (forall k,
     In (alertOf k tk data) (snd (checkThresholds st tk data)) <->
     breaches k data = true /\ now tk - lastFired k st > ALERT_COOLDOWN)
  /\ (forall k,
       (In (alertOf k tk data) (snd (checkThresholds st tk data)) ->
        lastFired k (fst (checkThresholds st tk data)) = now tk)
       /\ (~ In (alertOf k tk data) (snd (checkThresholds st tk data)) ->
           lastFired k (fst (checkThresholds st tk data)) = lastFired k st))
  /\ ((forall k, breaches k data = true
                 /\ now tk - lastFired k st > ALERT_COOLDOWN) ->
      snd (checkThresholds st tk data) =
        [alertOf OfTemperature tk data; alertOf OfCO2 tk data;
         alertOf OfHumidity tk data]
      /\ activeAlerts (fst (checkThresholds st tk data)) =
           alertOf OfHumidity tk data :: alertOf OfCO2 tk data
           :: alertOf OfTemperature tk data :: activeAlerts st
      /\ unreadAlertCount (fst (checkThresholds st tk data)) =
           unreadAlertCount st + 3).
Proof.
  destruct (checkThresholds_spec st tk data) as (Hsent & Hlast & Hlog & Hcount).
  split; [|split].
  - intros k. rewrite sent_has. apply fires_iff.
  - intros k. rewrite sent_has, Hlast. split.
    + intros ->. reflexivity.
    + intros Hn. destruct (fires k st tk data); [contradiction Hn|]; reflexivity.
  - intros Hall.
    assert (Hf : forall k, fires k st tk data = true)
      by (intros k; apply fires_iff, Hall).
    rewrite Hlog, Hcount, Hsent, !Hf. cbn. split; [reflexivity|].
    split; [reflexivity|]. lia.
Qed.

(** X4: over any sequence of evaluations the alert log is the former
    log with every alert sent put in front of it, the newest first; the
    unread counter has grown by the number of alerts sent, and the
    history is untouched. *)
Theorem log_is_the_trace_newest_first (st : State) (calls : list (Tick * Sample)) :
  activeAlerts (fst (evaluations st calls)) =
    rev (snd (evaluations st calls)) ++ activeAlerts st
  /\ unreadAlertCount (fst (evaluations st calls)) =
       unreadAlertCount st + Z.of_nat (List.length (snd (evaluations st calls)))
  /\ historicalData (fst (evaluations st calls)) = historicalData st.
Proof.
  revert st. induction calls as [|[tk data] rest IH]; intros st.
  - cbn. split; [reflexivity|]. split; [lia|reflexivity].
  - rewrite evaluations_cons. cbn [fst snd].
    destruct (IH (fst (checkThresholds st tk data))) as (Hl & Hc & Hh).
    destruct (checkThresholds_spec st tk data) as (_ & _ & Hlog & Hcount).
    rewrite Hl, Hc, Hh, Hlog, Hcount, checkThresholds_history.
    rewrite rev_app_distr, length_app, <- app_assoc.
    split; [reflexivity|]. split; [lia|reflexivity].
Qed.

(** The cooldown time of a metric and the alerts of that metric in a
    log. *)
Lemma step_keeps_cooldown_mark (st : State) (e : Event) (k : MetricKind) :
  e <> ClearAllClick ->
  (lastFired k st = 0
   /\ forall a, In a (activeAlerts st) -> Alert.metric a <> metricName k)
  \/ (lastFired k st > ALERT_COOLDOWN
      /\ exists a, In a (activeAlerts st) /\ Alert.metric a = metricName k) ->
  (lastFired k (step st e) = 0
   /\ forall a, In a (activeAlerts (step st e)) -> Alert.metric a <> metricName k)
  \/ (lastFired k (step st e) > ALERT_COOLDOWN
      /\ exists a, In a (activeAlerts (step st e))
                   /\ Alert.metric a = metricName k).
Proof.
  intros Hne Hinv. destruct e as [tk| |]; cbn [step].
  - destruct (sampleOf tk) as [s|] eqn:Hs.
    + rewrite (fetchData_accepts _ _ _ Hs). cbn [fst].
      change (lastFired k (pushHistory (fst (checkThresholds st tk s)) s))
        with (lastFired k (fst (checkThresholds st tk s))).
      change (activeAlerts (pushHistory (fst (checkThresholds st tk s)) s))
        with (activeAlerts (fst (checkThresholds st tk s))).
      destruct (checkThresholds_spec st tk s) as (_ & Hlast & Hlog & _).
      rewrite Hlast, Hlog.
      destruct (fires k st tk s) eqn:Hf.
      * right. split.
        -- apply fires_gap in Hf. destruct Hf as [_ Hgap].
           unfold ALERT_COOLDOWN in *.
           destruct Hinv as [[H0 _] | [Hgt _]]; lia.
        -- exists (alertOf k tk s). split.
           ++ apply in_or_app. left. apply -> in_rev.
              apply sent_has. exact Hf.
           ++ apply alertOf_metric.
      * destruct Hinv as [[H0 Hnone] | [Hgt (a & Ha & Hm)]].
        -- left. split; [exact H0|].
           intros a Ha Hm. apply in_app_or in Ha. destruct Ha as [Ha | Ha].
           ++ apply in_rev in Ha. apply sent_member in Ha.
              destruct Ha as (k' & -> & Hf').
              rewrite (proj1 (alertOf_metric k' tk s)) in Hm.
              apply metricName_inj in Hm. subst k'. congruence.
           ++ exact (Hnone a Ha Hm).
        -- right. split; [exact Hgt|].
           exists a. split; [apply in_or_app; right; exact Ha | exact Hm].
    + rewrite (fetchData_rejects _ _ Hs). exact Hinv.
  - exact Hinv.
  - contradiction Hne. reflexivity.
Qed.

(** X5: as long as the log has never been cleared, the cooldown time of
    a metric tells whether the metric has alerted: it is 0 while the log
    holds no alert of that metric, and once the log holds one it is a
    clock reading beyond 300000 ms. *)
Theorem cooldown_is_set_once_the_metric_alerted (es : list Event) (k : MetricKind) :
  neverCleared es ->
  let st := run initialState es in
  (lastFired k st = 0
   /\ forall a, In a (activeAlerts st) -> Alert.metric a <> metricName k)
  \/ (lastFired k st > ALERT_COOLDOWN
      /\ exists a, In a (activeAlerts st) /\ Alert.metric a = metricName k).
Proof.
  intros Hnc. cbv zeta.
  induction es as [|e es IH] using rev_ind.
  - left. split; [destruct k; reflexivity|]. intros a [].
  - apply Forall_app in Hnc. destruct Hnc as [Hes He].
    rewrite run_snoc. apply step_keeps_cooldown_mark.
    + exact (Forall_inv He).
    + apply IH. assumption.
Qed.

Lemma checkThresholds_idle (st : State) (tk : Tick) (data : Sample) :
  (forall k, now tk - lastFired k st <= ALERT_COOLDOWN) ->
  checkThresholds st tk data = (st, []).
Proof.
  intros Hin. unfold checkThresholds.
  pose proof (Hin OfTemperature) as Ht. pose proof (Hin OfCO2) as Hc.
  pose proof (Hin OfHumidity) as Hh. cbn [lastFired] in Ht, Hc, Hh.
  destruct (Z.gtb_spec (now tk - lastAlertTimes.temp (lastAlertTimes st))
                       ALERT_COOLDOWN); [lia|].
  rewrite andb_false_r.
  destruct (Z.gtb_spec (now tk - lastAlertTimes.co2 (lastAlertTimes st))
                       ALERT_COOLDOWN); [lia|].
  rewrite andb_false_r.
  destruct (Z.gtb_spec (now tk - lastAlertTimes.humidity (lastAlertTimes st))
                       ALERT_COOLDOWN); [lia|].
  rewrite andb_false_r. reflexivity.
Qed.

Lemma poll_within_cooldown (tks : list Tick) (st : State) :
  (forall tk k, In tk tks -> now tk - lastFired k st <= ALERT_COOLDOWN) ->
  activeAlerts (poll st tks) = activeAlerts st
  /\ unreadAlertCount (poll st tks) = unreadAlertCount st
  /\ lastAlertTimes (poll st tks) = lastAlertTimes st.
Proof.
  revert st. induction tks as [|tk tks IH]; intros st Hin.
  - repeat split; reflexivity.
  - change (poll st (tk :: tks)) with (poll (fst (fetchData st tk)) tks).
    assert (Hstep : activeAlerts (fst (fetchData st tk)) = activeAlerts st
                    /\ unreadAlertCount (fst (fetchData st tk)) = unreadAlertCount st
                    /\ lastAlertTimes (fst (fetchData st tk)) = lastAlertTimes st).
    { destruct (sampleOf tk) as [s|] eqn:Hs.
      - rewrite (fetchData_accepts _ _ _ Hs). cbn [fst].
        rewrite (checkThresholds_idle st tk s)
          by (intros k; apply Hin; left; reflexivity).
        repeat split; reflexivity.
      - rewrite (fetchData_rejects _ _ Hs). repeat split; reflexivity. }
    destruct Hstep as (Ha & Hu & Hl).
    destruct (IH (fst (fetchData st tk))) as (Ha' & Hu' & Hl').
    { intros tk' k Hin'. unfold lastFired. rewrite Hl. apply Hin. right. assumption. }
    rewrite Ha', Hu', Hl'. auto.
Qed.

(** X6: clearing the log does not restart the alerts. After "clear
    all", the cooldown times are as before, and however many polls
    follow within 300000 ms of each metric's last firing, and whatever
    they read, the log stays empty and the unread counter stays 0. *)
Theorem clearing_does_not_rearm (st : State) (tks : list Tick) :
  (forall tk k, In tk tks -> now tk - lastFired k st <= ALERT_COOLDOWN) ->
  lastAlertTimes (clearAllAlertsBtn_click st) = lastAlertTimes st
  /\ activeAlerts (poll (clearAllAlertsBtn_click st) tks) = []
  /\ unreadAlertCount (poll (clearAllAlertsBtn_click st) tks) = 0.
Proof.
  intros Hin. split; [reflexivity|].
  destruct (poll_within_cooldown tks (clearAllAlertsBtn_click st)) as (Ha & Hu & _).
  - intros tk k Htk. exact (Hin tk k Htk).
  - rewrite Ha, Hu. split; reflexivity.
Qed.

Lemma accepted_inv (st : State) (tk : Tick) (panel : StatusPanel)
    (sent : list Alert.t) :
  snd (fetchData st tk) = Accepted panel sent ->
  exists s, sampleOf tk = Some s
            /\ panel = updateStatusPanel st s
            /\ sent = snd (checkThresholds st tk s).
Proof.
  destruct (sampleOf tk) as [s|] eqn:Hs.
  - rewrite (fetchData_accepts _ _ _ Hs). cbn [snd]. intros [= <- <-].
    exists s. auto.
  - destruct (fetchData_rejects_whole st tk Hs) as [-> | ->]; discriminate.
Qed.

(** X7: the status panel and the alerts of one cycle agree. A cycle
    whose status is Normal sends no alert; a CO2 alert comes with the
    High-CO2 status, a temperature alert with High-CO2 or
    High-Temperature, and no alert at all with Normal. *)
Theorem alerts_come_with_abnormal_status
    (st : State) (tk : Tick) (panel : StatusPanel) (sent : list Alert.t) :
  snd (fetchData st tk) = Accepted panel sent ->
  (statusText panel = Normal -> sent = [])
  /\ (forall a, In a sent -> Alert.metric a = "CO2 Level" ->
       statusText panel = HighCO2)
  /\ (forall a, In a sent -> Alert.metric a = "Temperature" ->
       statusText panel = HighCO2 \/ statusText panel = HighTemperature)
  /\ (forall a, In a sent -> statusText panel <> Normal).
Proof.
  intros Hacc. apply accepted_inv in Hacc. destruct Hacc as (s & _ & -> & ->).
  assert (Hmem : forall a, In a (snd (checkThresholds st tk s)) ->
                 exists k, Alert.metric a = metricName k /\ breaches k s = true).
  { intros a Ha. apply sent_member in Ha. destruct Ha as (k & -> & Hf).
    exists k. split; [apply alertOf_metric|apply (fires_gap _ _ _ _ Hf)]. }
  unfold updateStatusPanel.
  destruct (js_gt (carbon s) THRESHOLDS.co2) eqn:Ec;
    [|destruct (js_gt (temperature s) THRESHOLDS.temp) eqn:Et;
      [|destruct (js_gt (humidity s) THRESHOLDS.humidity) eqn:Eh]];
    cbn [statusText].
  - repeat split; try discriminate; auto.
  - repeat split; try discriminate; auto.
    intros a Ha Hm. destruct (Hmem a Ha) as (k & Hk & Hb).
    rewrite Hm in Hk. destruct k; try discriminate Hk.
    cbn [breaches] in Hb. congruence.
  - repeat split; try discriminate.
    + intros a Ha Hm. destruct (Hmem a Ha) as (k & Hk & Hb).
      rewrite Hm in Hk. destruct k; try discriminate Hk.
      cbn [breaches] in Hb. congruence.
    + intros a Ha Hm. destruct (Hmem a Ha) as (k & Hk & Hb).
      rewrite Hm in Hk. destruct k; try discriminate Hk.
      cbn [breaches] in Hb. congruence.
  - assert (Hq : snd (checkThresholds st tk s) = []).
    { rewrite (checkThresholds_quiet st tk s Et Ec Eh). reflexivity. }
    rewrite Hq. repeat split; try (intros a []); reflexivity.
Qed.

(** *** Status, activity and readings *)

Lemma Qle_bool_true_false (x a b : Q) :
  Qle_bool x a = false -> (b <= a)%Q -> Qle_bool x b = false.
Proof.
  intros E Hba. destruct (Qle_bool x b) eqn:E'; [|reflexivity].
  apply Qle_bool_iff in E'. apply Qle_bool_false in E. lra.
Qed.

Lemma js_gt_weaken (v : jsval) (a b : Q) :
  js_gt v a = true -> (b <= a)%Q -> js_gt v b = true.
Proof.
  unfold js_gt, num_gt. destruct (ToNumber v) as [|x]; [discriminate|].
  intros E Hba. apply negb_true_iff in E. apply negb_true_iff.
  apply (Qle_bool_true_false x a b E Hba).
Qed.

Lemma js_gt_not_lt (v : jsval) (a b : Q) :
  js_gt v a = true -> (b <= a)%Q -> js_lt v b = false.
Proof.
  unfold js_gt, js_lt, num_lt, num_gt. destruct (ToNumber v) as [|x]; [discriminate|].
  intros E Hba. apply negb_true_iff in E. apply Qle_bool_false in E.
  apply negb_false_iff. apply Qle_bool_iff. lra.
Qed.

Lemma js_lt_not_gt (v : jsval) (a b : Q) :
  js_lt v a = true -> (a <= b)%Q -> js_gt v b = false.
Proof.
  unfold js_gt, js_lt, num_lt, num_gt. destruct (ToNumber v) as [|x]; [discriminate|].
  intros E Hab. apply negb_true_iff in E. apply Qle_bool_false in E.
  apply negb_false_iff. apply Qle_bool_iff. lra.
Qed.

Lemma status_inv (st : State) (data : Sample) :
  match statusText (updateStatusPanel st data) with
  | HighCO2 => js_gt (carbon data) 500 = true
  | HighTemperature =>
      js_gt (carbon data) 500 = false /\ js_gt (temperature data) 45 = true
  | ElevatedHumidity =>
      js_gt (carbon data) 500 = false /\ js_gt (temperature data) 45 = false
      /\ js_gt (humidity data) 80 = true
  | Normal =>
      js_gt (carbon data) 500 = false /\ js_gt (temperature data) 45 = false
      /\ js_gt (humidity data) 80 = false
  end.
Proof.
  unfold updateStatusPanel, THRESHOLDS.co2, THRESHOLDS.temp, THRESHOLDS.humidity.
  destruct (js_gt (carbon data) 500); [reflexivity|].
  destruct (js_gt (temperature data) 45); [split; reflexivity|].
  destruct (js_gt (humidity data) 80); repeat split; reflexivity.
Qed.

(** X8: the activity card goes with the status panel. With the status
    High-Temperature the card says to stay indoors; with High-CO2 it
    says to stay indoors or that air quality is moderate; and the card
    recommends a picnic only when the status is Normal, in which case
    no alert is sent either. *)
Theorem activity_goes_with_status (st : State) (data : Sample) :
  (statusText (updateStatusPanel st data) = HighTemperature ->
     updateActivitySuggestions data = StayIndoors (carbon data) (temperature data))
  /\ (statusText (updateStatusPanel st data) = HighCO2 ->
      updateActivitySuggestions data = StayIndoors (carbon data) (temperature data)
      \/ updateActivitySuggestions data = ModerateAirQuality)
  /\ (updateActivitySuggestions data = PicnicOrCamping ->
      statusText (updateStatusPanel st data) = Normal
      /\ forall st' tk, checkThresholds st' tk data = (st', [])).
Proof.
  pose proof (status_inv st data) as Hst.
  split; [|split].
  - intros E. rewrite E in Hst. destruct Hst as [_ Ht].
    unfold updateActivitySuggestions.
    rewrite (js_gt_weaken _ 45 38 Ht) by lra.
    rewrite orb_true_r. reflexivity.
  - intros E. rewrite E in Hst.
    unfold updateActivitySuggestions.
    destruct (js_gt (carbon data) 600 || js_gt (temperature data) 38);
      [left; reflexivity|right].
    rewrite (js_gt_not_lt _ 500 450 Hst) by lra.
    rewrite !andb_false_r.
    rewrite (js_gt_weaken _ 500 450 Hst) by lra. reflexivity.
  - unfold updateActivitySuggestions.
    destruct (js_gt (carbon data) 600 || js_gt (temperature data) 38);
      [discriminate|].
    destruct (js_gt (temperature data) 20 && js_lt (temperature data) 30
              && js_lt (humidity data) 70 && js_lt (carbon data) 450) eqn:Ep.
    + intros _.
      apply andb_true_iff in Ep. destruct Ep as [Ep Hc].
      apply andb_true_iff in Ep. destruct Ep as [Ep Hh].
      apply andb_true_iff in Ep. destruct Ep as [_ Ht].
      assert (Ec' : js_gt (carbon data) 500 = false)
        by (apply (js_lt_not_gt _ 450 500 Hc); lra).
      assert (Et' : js_gt (temperature data) 45 = false)
        by (apply (js_lt_not_gt _ 30 45 Ht); lra).
      assert (Eh' : js_gt (humidity data) 80 = false)
        by (apply (js_lt_not_gt _ 70 80 Hh); lra).
      split.
      * unfold updateStatusPanel, THRESHOLDS.co2, THRESHOLDS.temp,
          THRESHOLDS.humidity.
        rewrite Ec', Et', Eh'. reflexivity.
      * intros st' tk. apply checkThresholds_quiet; assumption.
    + destruct (js_gt (carbon data) 450); [discriminate|].
      destruct (js_gt (temperature data) 32 || js_gt (humidity data) 75);
        discriminate.
Qed.

(** X9: readings that are not numbers pass for calm air. When none of
    the three readings of a sample converts to a number, the status is
    Normal with the stable suggestion whatever the history, the
    activity card reads average conditions, no alert is sent whatever
    the cooldown times, and the gauges turn by NaN. *)
Theorem unreadable_readings_look_normal (st : State) (tk : Tick) (data : Sample) :
  ToNumber (temperature data) = NaN ->
  ToNumber (humidity data) = NaN ->
  ToNumber (carbon data) = NaN ->
  updateStatusPanel st data = mkPanel Normal Stable
  /\ updateActivitySuggestions data = AverageConditions
  /\ checkThresholds st tk data = (st, [])
  /\ (forall max, gaugePercentage (temperature data) max = NaN
                  /\ gaugePercentage (humidity data) max = NaN
                  /\ gaugePercentage (carbon data) max = NaN).
Proof.
  intros Ht Hh Hc.
  assert (G : forall v k, ToNumber v = NaN -> js_gt v k = false)
    by (intros v k E; unfold js_gt; rewrite E; reflexivity).
  assert (L : forall v k, ToNumber v = NaN -> js_lt v k = false)
    by (intros v k E; unfold js_lt, num_lt; rewrite E; reflexivity).
  split; [|split; [|split]].
  - unfold updateStatusPanel.
    rewrite !G by assumption. rewrite Hc.
    destruct (5 <? _); [|reflexivity].
    destruct (historicalData st); reflexivity.
  - unfold updateActivitySuggestions. rewrite !G, !L by assumption. reflexivity.
  - apply checkThresholds_quiet; apply G; assumption.
  - intros max. unfold gaugePercentage. rewrite Ht, Hh, Hc. repeat split; reflexivity.
Qed.

Lemma trend_downwards_inv (st : State) (data : Sample) :
  statusSuggestion (updateStatusPanel st data) = TrendingDownwards ->
  exists oldest rest,
    historicalData st = oldest :: rest
    /\ num_lt (num_sub (ToNumber (carbon data)) (ToNumber (carbon oldest)))
              (Num (-50)) = true.
Proof.
  unfold updateStatusPanel.
  destruct (js_gt (carbon data) THRESHOLDS.co2); [discriminate|].
  destruct (js_gt (temperature data) THRESHOLDS.temp); [discriminate|].
  destruct (js_gt (humidity data) THRESHOLDS.humidity); [discriminate|].
  cbn [statusSuggestion].
  destruct (5 <? _); [|discriminate].
  destruct (historicalData st) as [|oldest rest]; [discriminate|].
  cbv zeta.
  destruct (num_gt _ (Num 50)); [discriminate|].
  destruct (num_lt _ _) eqn:Hlt; [|discriminate].
  intros _. exists oldest, rest. auto.
Qed.

Lemma suggestion_status (st : State) (data : Sample) :
  statusText (updateStatusPanel st data) = Normal
  \/ statusSuggestion (updateStatusPanel st data) = SuggestVentilation
  \/ statusSuggestion (updateStatusPanel st data) = SuggestFireHazards
  \/ statusSuggestion (updateStatusPanel st data) = SuggestMoldMonitoring.
Proof.
  unfold updateStatusPanel.
  destruct (js_gt (carbon data) THRESHOLDS.co2); [auto|].
  destruct (js_gt (temperature data) THRESHOLDS.temp); [auto|].
  destruct (js_gt (humidity data) THRESHOLDS.humidity); auto.
Qed.

(** X10: a trend is reported only between two numeric carbon readings
    and only with the status Normal. The upward suggestion means the
    new reading exceeds the oldest buffered one by more than 50, and the
    figure it cites, rounded to a whole number, is at least 50; the
    downward suggestion means the new reading is lower by more than
    50. *)
Theorem trend_suggestions_are_founded (st : State) (data : Sample) :
  (forall ppm,
     statusSuggestion (updateStatusPanel st data) = TrendingUpwards ppm ->
     statusText (updateStatusPanel st data) = Normal
     /\ 50 <= ppm
     /\ exists oldest rest c c0,
          historicalData st = oldest :: rest
          /\ ToNumber (carbon data) = Num c
          /\ ToNumber (carbon oldest) = Num c0
          /\ (50 < c - c0)%Q)
  /\ (statusSuggestion (updateStatusPanel st data) = TrendingDownwards ->
      statusText (updateStatusPanel st data) = Normal
      /\ exists oldest rest c c0,
           historicalData st = oldest :: rest
           /\ ToNumber (carbon data) = Num c
           /\ ToNumber (carbon oldest) = Num c0
           /\ (c - c0 < -50)%Q).
Proof.
  split.
  - intros ppm Hs.
    split.
    { destruct (suggestion_status st data) as [H | [H | [H | H]]];
        [assumption| | |]; rewrite Hs in H; discriminate H. }
    apply trend_upwards_inv in Hs.
    destruct Hs as (oldest & rest & Hh & -> & Hgt).
    destruct (ToNumber (carbon data)) as [|c] eqn:Ec; [discriminate|].
    destruct (ToNumber (carbon oldest)) as [|c0] eqn:Ec0; [discriminate|].
    cbn [num_sub num_gt] in Hgt. apply negb_true_iff, Qle_bool_false in Hgt.
    split.
    + cbn [num_sub trendShown]. unfold toFixed0.
      change 50 with (Qfloor 50). apply Qfloor_resp_le. lra.
    + exists oldest, rest, c, c0. auto.
  - intros Hs.
    split.
    { destruct (suggestion_status st data) as [H | [H | [H | H]]];
        [assumption| | |]; rewrite Hs in H; discriminate H. }
    apply trend_downwards_inv in Hs.
    destruct Hs as (oldest & rest & Hh & Hlt).
    destruct (ToNumber (carbon data)) as [|c] eqn:Ec; [discriminate|].
    destruct (ToNumber (carbon oldest)) as [|c0] eqn:Ec0; [discriminate|].
    cbn [num_sub num_lt num_gt] in Hlt. apply negb_true_iff, Qle_bool_false in Hlt.
    exists oldest, rest, c, c0. auto.
Qed.

(** *** Splitting the location *)

Lemma split_not_nil (sep : ascii) (s : string) : split sep s <> [].
Proof.
  destruct s as [|c rest]; cbn [split]; [discriminate|].
  destruct (Ascii.eqb c sep); [discriminate|].
  destruct (split sep rest); discriminate.
Qed.

Lemma split_lacks (sep : ascii) (s : string) :
  lacks sep s = true -> split sep s = [s].
Proof.
  induction s as [|c rest IH]; cbn [lacks split]; [reflexivity|].
  intros H. apply andb_true_iff in H. destruct H as [Hc Hr].
  apply negb_true_iff in Hc. rewrite Hc, (IH Hr). reflexivity.
Qed.

Lemma split_app (sep : ascii) (a b : string) :
  lacks sep a = true ->
  split sep (a ++ String sep b) = a :: split sep b.
Proof.
  induction a as [|c rest IH]; cbn [lacks split append].
  - intros _. rewrite Ascii.eqb_refl. reflexivity.
  - intros H. apply andb_true_iff in H. destruct H as [Hc Hr].
    apply negb_true_iff in Hc. rewrite Hc, (IH Hr). reflexivity.
Qed.

Lemma split_join (sep : ascii) (s : string) : join sep (split sep s) = s.
Proof.
  induction s as [|c rest IH]; [reflexivity|].
  cbn [split]. destruct (Ascii.eqb_spec c sep) as [->|Hne].
  - cbn [join]. pose proof (split_not_nil sep rest) as Hn.
    destruct (split sep rest) as [|w ws] eqn:E; [contradiction Hn; reflexivity|].
    rewrite IH. reflexivity.
  - pose proof (split_not_nil sep rest) as Hn.
    destruct (split sep rest) as [|w ws] eqn:E; [contradiction Hn; reflexivity|].
    cbn [join] in *. destruct ws as [|w' ws'].
    + rewrite IH. reflexivity.
    + cbn [append]. rewrite IH. reflexivity.
Qed.

Lemma hd_split (sep : ascii) (s : string) :
  lacks sep (hd EmptyString (split sep s)) = true
  /\ exists rest,
       s = (hd EmptyString (split sep s) ++ rest)%string
       /\ (rest = EmptyString \/ exists r, rest = String sep r).
Proof.
  induction s as [|c s' IH]; cbn [split].
  - split; [reflexivity|]. exists EmptyString. auto.
  - destruct (Ascii.eqb_spec c sep) as [->|Hne].
    + cbn [hd]. split; [reflexivity|]. exists (String sep s'). eauto.
    + destruct IH as [Hl (rest & Hs & Hrest)].
      pose proof (split_not_nil sep s') as Hn.
      destruct (split sep s') as [|w ws]; [contradiction Hn; reflexivity|].
      cbn [hd] in *. split.
      * cbn [lacks]. rewrite Hl.
        destruct (Ascii.eqb_spec c sep); [contradiction|reflexivity].
      * exists rest. cbn [append]. rewrite <- Hs. auto.
Qed.

(** X11: the coordinates of a sample are the first two comma-separated
    fields of [location], each converted with [Number]; further fields
    are ignored, and a location without a comma leaves the longitude
    undefined. *)
Theorem coordinates_are_the_first_two_fields (d : liveData.t) (tk : Tick) :
  (forall loc,
     lacks "," loc = true ->
     latitude (formatData d loc tk) = JNum (StringToNumber loc)
     /\ longitude (formatData d loc tk) = JUndefined)
  /\ (forall a b,
       lacks "," a = true -> lacks "," b = true ->
       latitude (formatData d (a ++ String "," b) tk) = JNum (StringToNumber a)
       /\ longitude (formatData d (a ++ String "," b) tk) = JNum (StringToNumber b))
  /\ (forall a b more,
       lacks "," a = true -> lacks "," b = true ->
       latitude (formatData d (a ++ String "," (b ++ String "," more)) tk)
         = JNum (StringToNumber a)
       /\ longitude (formatData d (a ++ String "," (b ++ String "," more)) tk)
           = JNum (StringToNumber b)).
Proof.
  unfold formatData. cbn [latitude longitude].
  split; [|split].
  - intros loc Hl. rewrite (split_lacks _ _ Hl). split; reflexivity.
  - intros a b Ha Hb. rewrite (split_app _ _ _ Ha), (split_lacks _ _ Hb).
    split; reflexivity.
  - intros a b more Ha Hb. rewrite (split_app _ _ _ Ha), (split_app _ _ _ Hb).
    split; reflexivity.
Qed.

(** X12: every alert carries as its location the text of the
    [sensorLocationName] element up to its first asterisk: a prefix of
    that text that holds no asterisk and is followed by nothing or by
    an asterisk. *)
Theorem alert_location_stops_at_the_asterisk
    (st : State) (tk : Tick) (data : Sample) (a : Alert.t) :
  In a (snd (checkThresholds st tk data)) ->
  lacks "*" (Alert.location a) = true
  /\ exists rest,
       sensorLocationName tk = (Alert.location a ++ rest)%string
       /\ (rest = EmptyString \/ exists r, rest = String "*" r).
Proof.
  intros Ha. apply sent_member in Ha. destruct Ha as (k & -> & _).
  replace (Alert.location (alertOf k tk data))
    with (hd EmptyString (split "*" (sensorLocationName tk)))
    by (destruct k; reflexivity).
  apply hd_split.
Qed.

(** *** Colours as text *)

Lemma byte_cases (P : Z -> bool) :
  forallb P (map Z.of_nat (seq 0 256)) = true ->
  forall z, 0 <= z <= 255 -> P z = true.
Proof.
  intros H z Hz. rewrite forallb_forall in H. apply H.
  apply in_map_iff. exists (Z.to_nat z). split; [lia|].
  apply in_seq. lia.
Qed.

Lemma hex2_shape (z : Z) :
  0 <= z <= 255 ->
  exists c d,
    hex2 z = String c (String d EmptyString)
    /\ parseInt16 (String c (String d EmptyString)) = Num (inject_Z z).
Proof.
  intros Hz.
  assert (H : hexCheck z = true)
    by (apply byte_cases; [vm_compute; reflexivity|assumption]).
  unfold hexCheck in H.
  destruct (hex2 z) as [|c [|d [|e rest]]]; try discriminate H.
  exists c, d. split; [reflexivity|].
  unfold parseInt16.
  destruct (parseHex (String c (String d EmptyString)) None) as [z'|];
    [|discriminate H].
  apply Z.eqb_eq in H. subst z'. reflexivity.
Qed.

Lemma hexColor_length (r g b : Z) :
  0 <= r <= 255 -> 0 <= g <= 255 -> 0 <= b <= 255 ->
  String.length (hexColor r g b) = 7%nat.
Proof.
  intros Hr Hg Hb. unfold hexColor.
  destruct (hex2_shape r Hr) as (r1 & r2 & -> & _).
  destruct (hex2_shape g Hg) as (g1 & g2 & -> & _).
  destruct (hex2_shape b Hb) as (b1 & b2 & -> & _).
  reflexivity.
Qed.

Lemma channels_hexColor (r1 g1 b1 r2 g2 b2 : Z) (factor : number) :
  0 <= r1 <= 255 -> 0 <= g1 <= 255 -> 0 <= b1 <= 255 ->
  0 <= r2 <= 255 -> 0 <= g2 <= 255 -> 0 <= b2 <= 255 ->
  channels (hexColor r1 g1 b1) (hexColor r2 g2 b2) factor =
    (mix (Num (inject_Z r1)) (Num (inject_Z r2)) factor,
     mix (Num (inject_Z g1)) (Num (inject_Z g2)) factor,
     mix (Num (inject_Z b1)) (Num (inject_Z b2)) factor).
Proof.
  intros Hr1 Hg1 Hb1 Hr2 Hg2 Hb2. unfold channels, hexColor.
  destruct (hex2_shape r1 Hr1) as (? & ? & -> & E1).
  destruct (hex2_shape g1 Hg1) as (? & ? & -> & E2).
  destruct (hex2_shape b1 Hb1) as (? & ? & -> & E3).
  destruct (hex2_shape r2 Hr2) as (? & ? & -> & E4).
  destruct (hex2_shape g2 Hg2) as (? & ? & -> & E5).
  destruct (hex2_shape b2 Hb2) as (? & ? & -> & E6).
  cbn [append substring]. rewrite E1, E2, E3, E4, E5, E6. reflexivity.
Qed.

Lemma Qfloor_half (z : Z) : Qfloor (inject_Z z + (1 # 2)) = z.
Proof.
  unfold Qfloor, Qplus, inject_Z. cbn [Qnum Qden].
  symmetry. apply Z.div_unique with (r := 1); lia.
Qed.

Lemma mix_at_ends (c1 c2 : Z) (q : Q) :
  ((q == 0)%Q -> mix (Num (inject_Z c1)) (Num (inject_Z c2)) (Num q)
                 = Num (inject_Z c1))
  /\ ((q == 1)%Q -> mix (Num (inject_Z c1)) (Num (inject_Z c2)) (Num q)
                    = Num (inject_Z c2)).
Proof.
  unfold mix. cbn [num_sub num_mul num_add Math_round].
  split; intros Hq; do 2 f_equal.
  - transitivity (Qfloor (inject_Z c1 + (1 # 2))); [|apply Qfloor_half].
    apply Qfloor_comp. rewrite Hq. ring.
  - transitivity (Qfloor (inject_Z c2 + (1 # 2))); [|apply Qfloor_half].
    apply Qfloor_comp. rewrite Hq. ring.
Qed.

(** X13: interpolation reaches both ends. For two colours written as
    a hash sign and six lower-case hexadecimal digits, [interpolateColor]
    returns the first colour itself at factor 0 and the second at factor
    1, so that parsing what it writes gives back the channels it wrote
    and adjacent bands meet in the same colour. *)
Theorem interpolation_reaches_both_ends (r1 g1 b1 r2 g2 b2 : Z) (q : Q) :
  0 <= r1 <= 255 -> 0 <= g1 <= 255 -> 0 <= b1 <= 255 ->
  0 <= r2 <= 255 -> 0 <= g2 <= 255 -> 0 <= b2 <= 255 ->
  ((q == 0)%Q ->
     interpolateColor (hexColor r1 g1 b1) (hexColor r2 g2 b2) (Num q)
       = hexColor r1 g1 b1)
  /\ ((q == 1)%Q ->
      interpolateColor (hexColor r1 g1 b1) (hexColor r2 g2 b2) (Num q)
        = hexColor r2 g2 b2).
Proof.
  intros Hr1 Hg1 Hb1 Hr2 Hg2 Hb2. unfold interpolateColor.
  rewrite channels_hexColor by assumption.
  split; intros Hq.
  - rewrite (proj1 (mix_at_ends r1 r2 q) Hq), (proj1 (mix_at_ends g1 g2 q) Hq),
      (proj1 (mix_at_ends b1 b2 q) Hq). reflexivity.
  - rewrite (proj2 (mix_at_ends r1 r2 q) Hq), (proj2 (mix_at_ends g1 g2 q) Hq),
      (proj2 (mix_at_ends b1 b2 q) Hq). reflexivity.
Qed.

Lemma interpolateColor_bytes (color1 color2 : string) (q : Q) (r g b : Z) :
  channels color1 color2 (Num q)
    = (Num (inject_Z r), Num (inject_Z g), Num (inject_Z b)) ->
  interpolateColor color1 color2 (Num q) = hexColor r g b.
Proof. unfold interpolateColor. intros ->. reflexivity. Qed.

(** X14: between 0 and 100 degrees [getTemperatureColor] returns a
    well-formed colour: a hash sign followed by the two hexadecimal
    digits of each of three channels that lie in [0, 255], seven
    characters in all. *)
Theorem temperature_color_is_well_formed (v : Q) :
  (0 <= v <= 100)%Q ->
  exists r g b,
    0 <= r <= 255 /\ 0 <= g <= 255 /\ 0 <= b <= 255
    /\ getTemperatureColor (JNum (Num v)) = hexColor r g b
    /\ String.length (getTemperatureColor (JNum (Num v))) = 7%nat.
Proof.
  intros Hv.
  destruct (temperature_color_in_band v Hv)
    as (c1 & c2 & q & r & g & b & Hband & _ & Hch & Hr & Hg & Hb).
  exists r, g, b.
  assert (E : getTemperatureColor (JNum (Num v)) = hexColor r g b).
  { rewrite getTemperatureColor_band, Hband.
    apply interpolateColor_bytes. assumption. }
  rewrite E. repeat split; try tauto. apply hexColor_length; assumption.
Qed.

(** X15: up to 800 ppm [getCO2Color] returns a well-formed colour: the
    constant green below 350, and from 350 to 800 a hash sign followed
    by the two hexadecimal digits of each of three channels that lie in
    [0, 255]. *)
Theorem co2_color_is_well_formed (v : Q) :
  (v <= 800)%Q ->
  ((v < 350)%Q -> getCO2Color (JNum (Num v)) = green)
  /\ exists r g b,
       0 <= r <= 255 /\ 0 <= g <= 255 /\ 0 <= b <= 255
       /\ getCO2Color (JNum (Num v)) = hexColor r g b
       /\ String.length (getCO2Color (JNum (Num v))) = 7%nat.
Proof.
  intros Hv.
  assert (W : forall c, (exists r g b,
                 0 <= r <= 255 /\ 0 <= g <= 255 /\ 0 <= b <= 255
                 /\ c = hexColor r g b) ->
              exists r g b,
                 0 <= r <= 255 /\ 0 <= g <= 255 /\ 0 <= b <= 255
                 /\ c = hexColor r g b /\ String.length c = 7%nat).
  { intros c (r & g & b & Hr & Hg & Hb & ->). exists r, g, b.
    repeat split; try tauto. apply hexColor_length; assumption. }
  assert (B : forall c1 c2 f,
            isByte (parseInt16 (substring 1 2 c1)) = true ->
            isByte (parseInt16 (substring 3 2 c1)) = true ->
            isByte (parseInt16 (substring 5 2 c1)) = true ->
            isByte (parseInt16 (substring 1 2 c2)) = true ->
            isByte (parseInt16 (substring 3 2 c2)) = true ->
            isByte (parseInt16 (substring 5 2 c2)) = true ->
            (0 <= f <= 1)%Q ->
            exists r g b,
              0 <= r <= 255 /\ 0 <= g <= 255 /\ 0 <= b <= 255
              /\ interpolateColor c1 c2 (Num f) = hexColor r g b).
  { intros c1 c2 f E1 E2 E3 E4 E5 E6 Hf.
    destruct (channels_in_byte c1 c2 f E1 E2 E3 E4 E5 E6 Hf)
      as (r & g & b & Hc & Hr & Hg & Hb).
    exists r, g, b. repeat split; try tauto.
    apply interpolateColor_bytes. assumption. }
  unfold getCO2Color, js_lt, js_le, ToNumber, num_lt, num_gt, num_le,
    num_div, num_sub.
  destruct (Qle_bool 350 v) eqn:E350; cbn [negb].
  - apply Qle_bool_iff in E350. split; [intros Hlt; lra|].
    apply W.
    destruct (Qle_bool v 450) eqn:E450;
      [apply Qle_bool_iff in E450|apply Qle_bool_false in E450;
       destruct (Qle_bool v 500) eqn:E500;
       [apply Qle_bool_iff in E500|apply Qle_bool_false in E500;
        destruct (Qle_bool v 700) eqn:E700;
        [apply Qle_bool_iff in E700|apply Qle_bool_false in E700]]];
      (apply B; [reflexivity..|apply unit_fraction; lra]).
  - split; [reflexivity|]. apply W.
    exists 34, 197, 94.
    split; [lia|]. split; [lia|]. split; [lia|]. reflexivity.
Qed.

(** *** Gauges *)

Lemma Qdiv_scaled (v w : Q) : (0 < w)%Q -> (v / w * w == v)%Q.
Proof. intros Hw. field. lra. Qed.

(** X16: the gauge needle stays on the dial. For a numeric reading and
    a positive full-scale value, [updateGauge] turns the fill by half
    the fraction reading/max clamped to [0, 1]: nothing for a reading
    of 0 or less, half a turn for a reading at or beyond full scale,
    and never outside these two. *)
Theorem gauge_fraction_is_clamped
    (old : GaugeFill) (value : jsval) (v max : Q) (gaugeType : GaugeType) :
  (0 < max)%Q ->
  ToNumber value = Num v ->
  exists p,
    gaugePercentage value max = Num p
    /\ turn (updateGaugeFill old value max gaugeType) = Num (p / 2)
    /\ (0 <= p <= 1)%Q
    /\ ((v <= 0)%Q -> (p == 0)%Q)
    /\ ((max <= v)%Q -> (p == 1)%Q)
    /\ ((0 <= v <= max)%Q -> (p == v / max)%Q).
Proof.
  intros Hmax Hv. unfold updateGaugeFill, gaugePercentage. cbn [turn].
  rewrite Hv. cbn [num_div Math_min Math_max].
  pose proof (Qdiv_scaled v max Hmax) as Hx.
  set (x := (v / max)%Q) in *.
  destruct (Qle_bool 1 x) eqn:E1;
    [apply Qle_bool_iff in E1|apply Qle_bool_false in E1].
  - cbn [Math_max]. change (Qle_bool 0 1) with true. cbv iota.
    exists 1%Q. split; [reflexivity|]. split; [reflexivity|].
    split; [lra|]. split; [intros; nra|]. split; [reflexivity|].
    intros; nra.
  - cbn [Math_max].
    destruct (Qle_bool 0 x) eqn:E0;
      [apply Qle_bool_iff in E0|apply Qle_bool_false in E0].
    + exists x. split; [reflexivity|]. split; [reflexivity|].
      split; [lra|]. split; [intros; nra|]. split; [intros; nra|].
      intros; reflexivity.
    + exists 0%Q. split; [reflexivity|]. split; [reflexivity|].
      split; [lra|]. split; [reflexivity|]. split; [intros; nra|].
      intros; nra.
Qed.

Lemma toFixed_0_comp (x y : Q) : (x == y)%Q -> toFixed_0 (Num x) = toFixed_0 (Num y).
Proof.
  intros E. unfold toFixed_0.
  assert (Hb : Qle_bool 0 x = Qle_bool 0 y).
  { destruct (Qle_bool 0 x) eqn:Ex, (Qle_bool 0 y) eqn:Ey; try reflexivity.
    - apply Qle_bool_iff in Ex. apply Qle_bool_false in Ey. lra.
    - apply Qle_bool_iff in Ey. apply Qle_bool_false in Ex. lra. }
  rewrite Hb. destruct (Qle_bool 0 y); f_equal; apply Qfloor_comp;
    rewrite E; reflexivity.
Qed.

Lemma progress_running (t1 t : Q) :
  (t - t1 < 800)%Q ->
  num_lt (animationProgress t1 t) (Num 1) = true.
Proof.
  intros Ht. unfold animationProgress, Math_min.
  assert (Hx : ((t - t1) / 800 < 1)%Q) by (apply Qlt_shift_div_r; lra).
  destruct (Qle_bool ((t - t1) / 800) 1) eqn:E;
    [|apply Qle_bool_false in E; lra].
  cbn [num_lt num_gt]. apply negb_true_iff.
  destruct (Qle_bool 1 ((t - t1) / 800)) eqn:E'; [|reflexivity].
  apply Qle_bool_iff in E'. lra.
Qed.

Lemma progress_done (t1 t : Q) :
  (800 <= t - t1)%Q ->
  exists p, animationProgress t1 t = Num p /\ (p == 1)%Q
            /\ num_lt (Num p) (Num 1) = false.
Proof.
  intros Ht. unfold animationProgress, Math_min.
  assert (Hx : (1 <= (t - t1) / 800)%Q) by (apply Qle_shift_div_l; lra).
  destruct (Qle_bool ((t - t1) / 800) 1) eqn:E.
  - apply Qle_bool_iff in E. exists ((t - t1) / 800)%Q.
    split; [reflexivity|]. split; [lra|].
    cbn [num_lt num_gt]. apply negb_false_iff, Qle_bool_iff. assumption.
  - exists 1%Q. split; [reflexivity|]. split; [reflexivity|]. reflexivity.
Qed.

Lemma animation_from_started (startValue e t1 : Q) (mid : list Q) (tn : Q)
    (rest : list Q) :
  ~ (t1 == 0)%Q ->
  (forall t, In t mid -> (t - t1 < 800)%Q) ->
  (800 <= tn - t1)%Q ->
  animation startValue (JNum (Num e)) (Some t1) (mid ++ tn :: rest) =
    map (fun t => toFixed_0 (currentValue startValue (JNum (Num e))
                                          (animationProgress t1 t))) mid
    ++ [toFixed_0 (Num e)].
Proof.
  intros Ht1 Hmid Htn.
  assert (Hz : Qeq_bool t1 0 = false).
  { destruct (Qeq_bool t1 0) eqn:E; [|reflexivity].
    apply Qeq_bool_iff in E. contradiction. }
  induction mid as [|t mid IH]; cbn [app map animation animationStep].
  - rewrite Hz.
    destruct (progress_done t1 tn Htn) as (p & -> & Hp & ->).
    f_equal. cbn [currentValue ToNumber num_sub num_mul num_add].
    apply toFixed_0_comp. rewrite Hp. ring.
  - rewrite Hz, (progress_running t1 t) by (apply Hmid; left; reflexivity).
    f_equal. apply IH. intros t' Ht'. apply Hmid. right. assumption.
Qed.

(** X17: the cover animation ends on the reading. Started on a frame
    whose timestamp is not 0, [animationStep] writes one text per frame
    while less than 800 ms have passed since that first frame, each the
    rounded value at the frame's progress; on the first frame at 800 ms
    or later it writes the reading itself, rounded, and asks for no
    further frame. Every value on the way lies between the start value
    and the reading. *)
Theorem gauge_animation_ends_on_the_reading
    (startValue e t1 : Q) (mid : list Q) (tn : Q) (rest : list Q) :
  ~ (t1 == 0)%Q ->
  (forall t, In t mid -> (t - t1 < 800)%Q) ->
  (800 <= tn - t1)%Q ->
  animation startValue (JNum (Num e)) None (t1 :: mid ++ tn :: rest) =
    map (fun t => toFixed_0 (currentValue startValue (JNum (Num e))
                                          (animationProgress t1 t))) (t1 :: mid)
    ++ [toFixed_0 (Num e)]
  /\ forall t, (t1 <= t)%Q ->
       exists c,
         currentValue startValue (JNum (Num e)) (animationProgress t1 t) = Num c
         /\ ((startValue <= e)%Q -> (startValue <= c <= e)%Q)
         /\ ((e <= startValue)%Q -> (e <= c <= startValue)%Q).
Proof.
  intros Ht1 Hmid Htn. split.
  - cbn [animation animationStep map app].
    rewrite (progress_running t1 t1) by lra.
    f_equal. apply animation_from_started; assumption.
  - intros t Ht. unfold animationProgress, Math_min.
    assert (Hx : (0 <= (t - t1) / 800)%Q) by (apply Qle_shift_div_l; lra).
    destruct (Qle_bool ((t - t1) / 800) 1) eqn:E;
      [apply Qle_bool_iff in E|];
      cbn [currentValue ToNumber num_sub num_mul num_add];
      eexists; (split; [reflexivity|]); split; intros; nra.
Qed.

(** *** The page *)

Lemma updateAlertBadge_shows (unread : Z) (b : Badge) :
  badgeShows (updateAlertBadge unread b) unread.
Proof.
  unfold badgeShows, updateAlertBadge. destruct (unread >? 0); reflexivity.
Qed.

Lemma with_globals_proj (pg : Page) (g : State) :
  globals (with_globals pg g) = g
  /\ display (with_globals pg g) = display pg
  /\ alertsUi (with_globals pg g) = alertsUi pg
  /\ heatLayers (with_globals pg g) = heatLayers pg
  /\ analytics (with_globals pg g) = analytics pg.
Proof. repeat split; reflexivity. Qed.

Lemma sendAlertPage_proj (pg : Page) (tk : Tick) (metric : string)
    (value : jsval * string) (type : string) :
  let pg' := sendAlertPage pg tk metric value type in
  globals pg' = sendAlert (globals pg) tk metric value type
  /\ display pg' = display pg
  /\ heatLayers pg' = heatLayers pg
  /\ analytics pg' = analytics pg
  /\ modalHidden (alertsUi pg') = modalHidden (alertsUi pg)
  /\ alertsList (alertsUi pg') = alertsList (alertsUi pg)
  /\ badge (alertsUi pg') =
       updateAlertBadge (unreadAlertCount (globals pg) + 1) (badge (alertsUi pg)).
Proof. repeat split; reflexivity. Qed.

(** What one firing branch of [checkThresholdsPage] does to a page. *)
Lemma fire_proj (pg : Page) (tk : Tick) (metric : string)
    (value : jsval * string) (type : string) (set : State -> Z -> State) :
  (forall g t, unreadAlertCount (set g t) = unreadAlertCount g) ->
  let p := sendAlertPage pg tk metric value type in
  let pg' := with_globals p (set (globals p) (now tk)) in
  globals pg' = set (sendAlert (globals pg) tk metric value type) (now tk)
  /\ display pg' = display pg
  /\ heatLayers pg' = heatLayers pg
  /\ analytics pg' = analytics pg
  /\ modalHidden (alertsUi pg') = modalHidden (alertsUi pg)
  /\ alertsList (alertsUi pg') = alertsList (alertsUi pg)
  /\ badgeShows (badge (alertsUi pg')) (unreadAlertCount (globals pg')).
Proof.
  intros Hset. cbv zeta.
  destruct (with_globals_proj
              (sendAlertPage pg tk metric value type)
              (set (globals (sendAlertPage pg tk metric value type)) (now tk)))
    as (-> & -> & -> & -> & ->).
  destruct (sendAlertPage_proj pg tk metric value type)
    as (-> & -> & -> & -> & -> & -> & ->).
  repeat (split; [reflexivity|]).
  rewrite Hset. apply updateAlertBadge_shows.
Qed.

(** A page that has gone through some of the branches of
    [checkThresholdsPage], against the state and the alerts of
    [checkThresholds] at the same point. *)
Lemma checkThresholdsPage_spec (pg : Page) (tk : Tick) (data : Sample) :
  let pg' := checkThresholdsPage pg tk data in
  globals pg' = fst (checkThresholds (globals pg) tk data)
  /\ display pg' = display pg
  /\ heatLayers pg' = heatLayers pg
  /\ analytics pg' = analytics pg
  /\ modalHidden (alertsUi pg') = modalHidden (alertsUi pg)
  /\ alertsList (alertsUi pg') = alertsList (alertsUi pg)
  /\ match snd (checkThresholds (globals pg) tk data) with
     | [] => badge (alertsUi pg') = badge (alertsUi pg)
     | _ :: _ => badgeShows (badge (alertsUi pg')) (unreadAlertCount (globals pg'))
     end.
Proof.
  set (R := fun (q : Page) (st : State) (sent : list Alert.t) =>
              globals q = st
              /\ display q = display pg
              /\ heatLayers q = heatLayers pg
              /\ analytics q = analytics pg
              /\ modalHidden (alertsUi q) = modalHidden (alertsUi pg)
              /\ alertsList (alertsUi q) = alertsList (alertsUi pg)
              /\ match sent with
                 | [] => badge (alertsUi q) = badge (alertsUi pg)
                 | _ :: _ => badgeShows (badge (alertsUi q)) (unreadAlertCount (globals q))
                 end).
  assert (Rfire : forall q st sent metric value type set,
            (forall g t, unreadAlertCount (set g t) = unreadAlertCount g) ->
            R q st sent ->
            R (with_globals (sendAlertPage q tk metric value type)
                 (set (globals (sendAlertPage q tk metric value type)) (now tk)))
              (set (sendAlert st tk metric value type) (now tk))
              (sent ++ [alertRecord tk metric value type])).
  { intros q st sent metric value type set Hset (Hg & Hd & Hh & Ha & Hm & Hl & _).
    destruct (fire_proj q tk metric value type set Hset)
      as (Fg & Fd & Fh & Fa & Fm & Fl & Fb).
    unfold R. rewrite Fg, Fd, Fh, Fa, Fm, Fl, Hg, Hd, Hh, Ha, Hm, Hl.
    repeat (split; [reflexivity|]).
    rewrite <- Hg, <- Fg. destruct sent; exact Fb. }
  assert (R0 : R pg (globals pg) []) by (unfold R; repeat split; reflexivity).
  change (R (checkThresholdsPage pg tk data)
            (fst (checkThresholds (globals pg) tk data))
            (snd (checkThresholds (globals pg) tk data))).
  unfold checkThresholdsPage, checkThresholds.
  set (c1 := js_gt (temperature data) THRESHOLDS.temp && _).
  set (pg1 := if c1 then _ else pg).
  set (r1 := if c1 then _ else (globals pg, [])).
  assert (H1 : R pg1 (fst r1) ([] ++ snd r1) /\ globals pg1 = fst r1).
  { subst pg1 r1. destruct c1; cbn [fst snd].
    - pose proof (Rfire pg (globals pg) [] "Temperature" (temperature data, "°C")
                    "error" set_temp (fun _ _ => eq_refl) R0) as H.
      split; [exact H|apply H].
    - split; [exact R0|reflexivity]. }
  clearbody pg1 r1. destruct r1 as [st1 sent1]. cbn [fst snd app] in H1.
  destruct H1 as [H1 G1]. cbv beta iota zeta.
  set (c2 := js_gt (carbon data) THRESHOLDS.co2
             && (now tk - lastAlertTimes.co2 (lastAlertTimes (globals pg1))
                 >? ALERT_COOLDOWN)).
  replace (js_gt (carbon data) THRESHOLDS.co2
           && (now tk - lastAlertTimes.co2 (lastAlertTimes st1) >? ALERT_COOLDOWN))
    with c2 by (subst c2; rewrite G1; reflexivity).
  set (pg2 := if c2 then _ else pg1).
  set (r2 := if c2 then _ else (st1, [])).
  assert (H2 : R pg2 (fst r2) (sent1 ++ snd r2) /\ globals pg2 = fst r2).
  { subst pg2 r2. destruct c2; cbn [fst snd].
    - pose proof (Rfire pg1 st1 sent1 "CO2 Level" (carbon data, " ppm")
                    "error" set_co2 (fun _ _ => eq_refl) H1) as H.
      split; [exact H|apply H].
    - rewrite app_nil_r. split; [exact H1|exact G1]. }
  clearbody pg2 r2. destruct r2 as [st2 sent2]. cbn [fst snd] in H2.
  destruct H2 as [H2 G2]. cbv beta iota zeta.
  set (c3 := js_gt (humidity data) THRESHOLDS.humidity
             && (now tk - lastAlertTimes.humidity (lastAlertTimes (globals pg2))
                 >? ALERT_COOLDOWN)).
  replace (js_gt (humidity data) THRESHOLDS.humidity
           && (now tk - lastAlertTimes.humidity (lastAlertTimes st2) >? ALERT_COOLDOWN))
    with c3 by (subst c3; rewrite G2; reflexivity).
  destruct c3; cbn [fst snd].
  - rewrite app_assoc.
    exact (Rfire pg2 st2 (sent1 ++ sent2) "Humidity" (humidity data, "%")
             "warning" set_humidity (fun _ _ => eq_refl) H2).
  - rewrite app_nil_r. exact H2.
Qed.

Lemma fetchDataPage_rejects (pg : Page) (tk : Tick) :
  sampleOf tk = None ->
  let pg' := fetchDataPage pg tk in
  globals pg' = globals pg
  /\ alertsUi pg' = alertsUi pg
  /\ heatLayers pg' = heatLayers pg
  /\ analytics pg' = analytics pg
  /\ statusPanel (display pg') = statusPanel (display pg)
  /\ activityCard (display pg') = activityCard (display pg).
Proof.
  unfold sampleOf, fetchDataPage.
  destruct (response tk) as [[d|]|]; try (intros; cbv zeta; tauto).
  destruct (liveData.location d) as [| |b|n|loc]; cbn [truthy];
    try (intros; cbv zeta; tauto).
  - destruct b; intros; cbv zeta; tauto.
  - destruct n as [|q]; [intros; cbv zeta; tauto|].
    destruct (negb _); intros; cbv zeta; tauto.
  - destruct (str_nonempty loc); cbn [andb]; [|intros; cbv zeta; tauto].
    unfold updateDashboardPage.
    destruct (setLatLng_throws _ _); cbn [negb]; [|discriminate].
    intros _. cbv zeta. cbn. tauto.
Qed.

Lemma fetchDataPage_accepts (pg : Page) (tk : Tick) (s : Sample) :
  sampleOf tk = Some s ->
  let pg' := fetchDataPage pg tk in
  let g' := fst (fetchData (globals pg) tk) in
  globals pg' = g'
  /\ heatLayers pg' = heatOf (historicalData g')
  /\ statusPanel (display pg') = Some (updateStatusPanel (globals pg) s)
  /\ activityCard (display pg') = Some (updateActivitySuggestions s)
  /\ modalHidden (alertsUi pg') = modalHidden (alertsUi pg)
  /\ alertsList (alertsUi pg') = alertsList (alertsUi pg)
  /\ match snd (checkThresholds (globals pg) tk s) with
     | [] => badge (alertsUi pg') = badge (alertsUi pg)
     | _ :: _ => badgeShows (badge (alertsUi pg')) (unreadAlertCount g')
     end
  /\ gaugeTab (analytics pg') = gaugeTab (analytics pg)
  /\ analyticsTab (analytics pg') = analyticsTab (analytics pg)
  /\ chartTimeFilter (analytics pg') = chartTimeFilter (analytics pg)
  /\ chartDataFilter (analytics pg') = chartDataFilter (analytics pg)
  /\ analyticsChart (analytics pg') =
       if contentHidden (analyticsTab (analytics pg))
       then analyticsChart (analytics pg)
       else snd (renderAnalyticsChart g' (chartTimeFilter (analytics pg))
                                      (chartDataFilter (analytics pg)) (now tk)).
Proof.
  intros Hs. cbv zeta. rewrite (fetchData_accepts _ _ _ Hs). cbn [fst].
  revert Hs. unfold sampleOf, fetchDataPage.
  destruct (response tk) as [[d|]|]; try discriminate.
  destruct (liveData.location d) as [| |b|n|loc]; try discriminate.
  cbn [truthy].
  destruct (str_nonempty loc); cbn [andb]; try discriminate.
  unfold updateDashboardPage.
  destruct (setLatLng_throws _ _); cbn [negb]; try discriminate.
  intros [= <-].
  set (s := formatData d loc tk).
  set (pg1 := mkPage (globals pg) _ (alertsUi pg) (heatLayers pg) (analytics pg)).
  assert (P1 : globals pg1 = globals pg /\ alertsUi pg1 = alertsUi pg
               /\ heatLayers pg1 = heatLayers pg /\ analytics pg1 = analytics pg
               /\ statusPanel (display pg1) = Some (updateStatusPanel (globals pg) s)
               /\ activityCard (display pg1) = Some (updateActivitySuggestions s))
    by (repeat split; reflexivity).
  clearbody pg1. destruct P1 as (G1 & U1 & L1 & A1 & S1 & C1).
  pose proof (checkThresholdsPage_spec pg1 tk s) as P2. cbv zeta in P2.
  set (pg2 := checkThresholdsPage pg1 tk s) in *. clearbody pg2.
  rewrite G1 in P2. destruct P2 as (G2 & D2 & L2 & A2 & M2 & I2 & B2).
  pose proof (with_globals_proj pg2 (pushHistory (globals pg2) s)) as P3.
  set (pg3 := with_globals pg2 (pushHistory (globals pg2) s)) in *. clearbody pg3.
  destruct P3 as (G3 & D3 & U3 & L3 & A3).
  rewrite G2 in G3.
  set (g' := pushHistory (fst (checkThresholds (globals pg) tk s)) s) in *.
  assert (Hne : historicalData g' <> []).
  { subst g'.
    destruct (pushHistory_snoc (fst (checkThresholds (globals pg) tk s)) s)
      as [older ->].
    destruct older; discriminate. }
  assert (Hheat : forall layers, updateAllHeatmaps g' layers = heatOf (historicalData g')).
  { intros layers. unfold updateAllHeatmaps.
    destruct (historicalData g') as [|x l]; [contradiction Hne; reflexivity|].
    reflexivity. }
  assert (Hdraw : forall tf key n, exists chart,
            snd (renderAnalyticsChart g' tf key n) = Some chart).
  { intros tf key n. unfold renderAnalyticsChart.
    destruct (historicalData g') as [|x l]; [contradiction Hne; reflexivity|].
    cbn [List.length Nat.eqb snd]. eexists. reflexivity. }
  rewrite A3, A2, A1.
  assert (E : forall pg4,
            globals pg4 = g' -> display pg4 = display pg3 ->
            alertsUi pg4 = alertsUi pg3 ->
            gaugeTab (analytics pg4) = gaugeTab (analytics pg) ->
            analyticsTab (analytics pg4) = analyticsTab (analytics pg) ->
            chartTimeFilter (analytics pg4) = chartTimeFilter (analytics pg) ->
            chartDataFilter (analytics pg4) = chartDataFilter (analytics pg) ->
            forall chart, analyticsChart (analytics pg4) = chart ->
            globals (updateAllHeatmapsPage pg4) = g'
            /\ heatLayers (updateAllHeatmapsPage pg4) = heatOf (historicalData g')
            /\ statusPanel (display (updateAllHeatmapsPage pg4))
               = Some (updateStatusPanel (globals pg) s)
            /\ activityCard (display (updateAllHeatmapsPage pg4))
               = Some (updateActivitySuggestions s)
            /\ modalHidden (alertsUi (updateAllHeatmapsPage pg4))
               = modalHidden (alertsUi pg)
            /\ alertsList (alertsUi (updateAllHeatmapsPage pg4))
               = alertsList (alertsUi pg)
            /\ match snd (checkThresholds (globals pg) tk s) with
               | [] => badge (alertsUi (updateAllHeatmapsPage pg4)) = badge (alertsUi pg)
               | _ :: _ => badgeShows (badge (alertsUi (updateAllHeatmapsPage pg4)))
                                      (unreadAlertCount g')
               end
            /\ gaugeTab (analytics (updateAllHeatmapsPage pg4)) = gaugeTab (analytics pg)
            /\ analyticsTab (analytics (updateAllHeatmapsPage pg4))
               = analyticsTab (analytics pg)
            /\ chartTimeFilter (analytics (updateAllHeatmapsPage pg4))
               = chartTimeFilter (analytics pg)
            /\ chartDataFilter (analytics (updateAllHeatmapsPage pg4))
               = chartDataFilter (analytics pg)
            /\ analyticsChart (analytics (updateAllHeatmapsPage pg4)) = chart).
  { intros pg4 G4 D4 U4 T1 T2 T3 T4 chart T5.
    unfold updateAllHeatmapsPage.
    cbn [globals display alertsUi heatLayers analytics].
    rewrite G4, D4, U4, D3, U3, D2, M2, I2, S1, C1, U1, Hheat.
    repeat (split; [reflexivity|]).
    split; [|repeat split; assumption].
    destruct (snd (checkThresholds (globals pg) tk s)); [rewrite B2, U1; reflexivity|].
    rewrite G2 in B2. exact B2. }
  destruct (contentHidden (analyticsTab (analytics pg))) eqn:Hhid; cbn [negb].
  - apply E; try assumption; try reflexivity; rewrite A3, A2, A1; reflexivity.
  - unfold renderAnalyticsChartPage. rewrite G3, A3, A2, A1.
    destruct (Hdraw (chartTimeFilter (analytics pg)) (chartDataFilter (analytics pg))
                    (now tk)) as [chart Hc].
    rewrite Hc. unfold with_chart.
    apply E; cbn [globals display alertsUi analytics gaugeTab analyticsTab
                  chartTimeFilter chartDataFilter analyticsChart];
      try assumption; try reflexivity; rewrite ?A3, ?A2, ?A1; reflexivity.
Qed.

Lemma pageRun_snoc (pg : Page) (es : list PageEvent) (e : PageEvent) :
  pageRun pg (es ++ [e]) = pageStep (pageRun pg es) e.
Proof. unfold pageRun. rewrite fold_left_app. reflexivity. Qed.

Lemma renderAnalyticsChartPage_keeps (pg : Page) (nowMs : Z) :
  let pg' := renderAnalyticsChartPage pg nowMs in
  globals pg' = globals pg /\ alertsUi pg' = alertsUi pg
  /\ heatLayers pg' = heatLayers pg /\ display pg' = display pg.
Proof.
  unfold renderAnalyticsChartPage.
  destruct (snd (renderAnalyticsChart _ _ _ _)); cbv zeta; cbn; tauto.
Qed.

Lemma pageStep_globals (pg : Page) (e : PageEvent) :
  globals (pageStep pg e) =
    match globalEvent e with
    | Some ge => step (globals pg) ge
    | None => globals pg
    end.
Proof.
  assert (K : forall q n, globals (renderAnalyticsChartPage q n) = globals q)
    by (intros q n; apply renderAnalyticsChartPage_keeps).
  destruct e as [tk| | | |key nowMs|v nowMs|v nowMs|nowMs]; cbn [pageStep globalEvent step];
    try reflexivity.
  - destruct (sampleOf tk) as [s|] eqn:Hs.
    + apply (fetchDataPage_accepts pg tk s Hs).
    + rewrite (fetchData_rejects _ _ Hs). apply (fetchDataPage_rejects pg tk Hs).
  - destruct key; cbn [tab_clickPage]; [reflexivity|]. rewrite K. reflexivity.
  - unfold chartTimeFilter_changePage. rewrite K. reflexivity.
  - unfold chartDataFilter_changePage. rewrite K. reflexivity.
  - unfold setThemePage. destruct (analyticsChart (analytics pg)); [|reflexivity].
    apply K.
Qed.

Lemma pageStep_heat (pg : Page) (e : PageEvent) :
  heatLayers pg = heatOf (historicalData (globals pg)) ->
  heatLayers (pageStep pg e) = heatOf (historicalData (globals (pageStep pg e))).
Proof.
  intros Hinv.
  destruct e as [tk| | | |key nowMs|v nowMs|v nowMs|nowMs]; cbn [pageStep];
    try exact Hinv.
  - destruct (sampleOf tk) as [s|] eqn:Hs.
    + destruct (fetchDataPage_accepts pg tk s Hs) as (-> & -> & _). reflexivity.
    + destruct (fetchDataPage_rejects pg tk Hs) as (-> & _ & -> & _). exact Hinv.
  - destruct key; cbn [tab_clickPage]; [exact Hinv|].
    match goal with
    | |- context [renderAnalyticsChartPage ?q ?n] =>
        destruct (renderAnalyticsChartPage_keeps q n) as (-> & _ & -> & _)
    end. exact Hinv.
  - unfold chartTimeFilter_changePage.
    match goal with
    | |- context [renderAnalyticsChartPage ?q ?n] =>
        destruct (renderAnalyticsChartPage_keeps q n) as (-> & _ & -> & _)
    end. exact Hinv.
  - unfold chartDataFilter_changePage.
    match goal with
    | |- context [renderAnalyticsChartPage ?q ?n] =>
        destruct (renderAnalyticsChartPage_keeps q n) as (-> & _ & -> & _)
    end. exact Hinv.
  - unfold setThemePage. destruct (analyticsChart (analytics pg)); [|exact Hinv].
    destruct (renderAnalyticsChartPage_keeps pg nowMs) as (-> & _ & -> & _).
    exact Hinv.
Qed.

Lemma pageStep_history_bound (pg : Page) (e : PageEvent) :
  (List.length (historicalData (globals pg)) <= 20)%nat ->
  (List.length (historicalData (globals (pageStep pg e))) <= 20)%nat.
Proof.
  intros Hb. rewrite pageStep_globals.
  destruct (globalEvent e); [|exact Hb]. apply step_history_length, Hb.
Qed.

(** X18: the heat layers mirror the history. From a page whose globals
    and heat layers are as the script creates them, after any sequence
    of polls, clicks and changes each of the three heat layers lists
    exactly the buffered samples, in order, as (latitude, longitude,
    reading) points, so none ever holds more than 20 points. *)
Theorem heat_layers_mirror_the_history (pg : Page) (es : list PageEvent) :
  freshPage pg ->
  let pg' := pageRun pg es in
  heatLayers pg' = heatOf (historicalData (globals pg'))
  /\ (List.length (tempHeatLayer (heatLayers pg')) <= 20)%nat
  /\ (List.length (humidityHeatLayer (heatLayers pg')) <= 20)%nat
  /\ (List.length (co2HeatLayer (heatLayers pg')) <= 20)%nat.
Proof.
  intros (Hg & Hh & _). cbv zeta.
  assert (Hinv : heatLayers (pageRun pg es)
                   = heatOf (historicalData (globals (pageRun pg es)))
                 /\ (List.length (historicalData (globals (pageRun pg es))) <= 20)%nat).
  { induction es as [|e es IH] using rev_ind.
    - cbn. rewrite Hh, Hg. split; [reflexivity|]. cbn. lia.
    - rewrite pageRun_snoc. destruct IH as [IH1 IH2]. split.
      + apply pageStep_heat, IH1.
      + apply pageStep_history_bound, IH2. }
  destruct Hinv as [-> Hb]. split; [reflexivity|].
  unfold heatOf. cbn [tempHeatLayer humidityHeatLayer co2HeatLayer].
  rewrite !length_map. auto.
Qed.

Lemma pageStep_badge (pg : Page) (e : PageEvent) :
  badgeShows (badge (alertsUi pg)) (unreadAlertCount (globals pg)) ->
  badgeShows (badge (alertsUi (pageStep pg e)))
             (unreadAlertCount (globals (pageStep pg e))).
Proof.
  intros Hinv.
  destruct e as [tk| | | |key nowMs|v nowMs|v nowMs|nowMs]; cbn [pageStep].
  - destruct (sampleOf tk) as [s|] eqn:Hs.
    + destruct (fetchDataPage_accepts pg tk s Hs)
        as (Hg & _ & _ & _ & _ & _ & Hb & _).
      rewrite Hg.
      destruct (snd (checkThresholds (globals pg) tk s)) as [|a sent] eqn:Hsent;
        [|exact Hb].
      rewrite Hb, (fetchData_accepts _ _ _ Hs). cbn [fst].
      destruct (checkThresholds_spec (globals pg) tk s) as (_ & _ & _ & Hc).
      change (unreadAlertCount (pushHistory (fst (checkThresholds (globals pg) tk s)) s))
        with (unreadAlertCount (fst (checkThresholds (globals pg) tk s))).
      rewrite Hc, Hsent. cbn [List.length Z.of_nat]. rewrite Z.add_0_r. exact Hinv.
    + destruct (fetchDataPage_rejects pg tk Hs) as (-> & -> & _). exact Hinv.
  - apply updateAlertBadge_shows.
  - exact Hinv.
  - apply updateAlertBadge_shows.
  - destruct key; cbn [tab_clickPage]; [exact Hinv|].
    match goal with
    | |- context [renderAnalyticsChartPage ?q ?n] =>
        destruct (renderAnalyticsChartPage_keeps q n) as (-> & -> & _)
    end. exact Hinv.
  - unfold chartTimeFilter_changePage.
    match goal with
    | |- context [renderAnalyticsChartPage ?q ?n] =>
        destruct (renderAnalyticsChartPage_keeps q n) as (-> & -> & _)
    end. exact Hinv.
  - unfold chartDataFilter_changePage.
    match goal with
    | |- context [renderAnalyticsChartPage ?q ?n] =>
        destruct (renderAnalyticsChartPage_keeps q n) as (-> & -> & _)
    end. exact Hinv.
  - unfold setThemePage. destruct (analyticsChart (analytics pg)); [|exact Hinv].
    destruct (renderAnalyticsChartPage_keeps pg nowMs) as (-> & -> & _).
    exact Hinv.
Qed.

(** X19: the badge shows the unread count. If the badge agrees with the
    counter (hidden at 0, otherwise visible with the count as its text),
    it still does after any sequence of polls, clicks and changes; and
    whatever it showed before, it agrees after a click on the bell or on
    "clear all", which both hide it. *)
Theorem badge_shows_the_unread_count :
  (forall pg es,
     badgeShows (badge (alertsUi pg)) (unreadAlertCount (globals pg)) ->
     badgeShows (badge (alertsUi (pageRun pg es)))
                (unreadAlertCount (globals (pageRun pg es))))
  /\ (forall pg,
       badgeHidden (badge (alertsUi (pageStep pg BellClicked))) = true
       /\ unreadAlertCount (globals (pageStep pg BellClicked)) = 0)
  /\ (forall pg,
       badgeHidden (badge (alertsUi (pageStep pg ClearAllClicked))) = true
       /\ unreadAlertCount (globals (pageStep pg ClearAllClicked)) = 0).
Proof.
  split; [|split; intros pg; split; reflexivity].
  intros pg es Hinv.
  induction es as [|e es IH] using rev_ind; [exact Hinv|].
  rewrite pageRun_snoc. apply pageStep_badge, IH.
Qed.

Lemma fetchDataPage_modal (pg : Page) (tk : Tick) :
  alertsList (alertsUi (fetchDataPage pg tk)) = alertsList (alertsUi pg)
  /\ modalHidden (alertsUi (fetchDataPage pg tk)) = modalHidden (alertsUi pg).
Proof.
  destruct (sampleOf tk) as [s|] eqn:Hs.
  - destruct (fetchDataPage_accepts pg tk s Hs) as (_ & _ & _ & _ & -> & -> & _).
    split; reflexivity.
  - destruct (fetchDataPage_rejects pg tk Hs) as (_ & -> & _). split; reflexivity.
Qed.

Lemma renderAlertsInModal_length (st : State) :
  match renderAlertsInModal st with
  | NoAlertsMessage => activeAlerts st = []
  | AlertDivs divs => List.length divs = List.length (activeAlerts st)
                      /\ activeAlerts st <> []
  end.
Proof.
  unfold renderAlertsInModal.
  destruct (activeAlerts st) as [|a l]; cbn [List.length Nat.eqb]; [reflexivity|].
  split; [|discriminate]. cbn [map List.length]. rewrite length_map. reflexivity.
Qed.

(** X20: the list in the alert modal is drawn on a click and not kept
    up to date. A poll never touches the list or the modal's
    visibility; a click on the bell opens the modal with one entry per
    logged alert, the newest first, bordered red for an error and yellow
    otherwise, or with the no-alerts message for an empty log; so an
    alert sent by a later poll is missing from the list that is on
    display. *)
Theorem open_modal_misses_new_alerts :
  (forall pg tk,
     alertsList (alertsUi (fetchDataPage pg tk)) = alertsList (alertsUi pg)
     /\ modalHidden (alertsUi (fetchDataPage pg tk)) = modalHidden (alertsUi pg))
  /\ (forall pg,
       let pg' := alertBellBtn_clickPage pg in
       modalHidden (alertsUi pg') = false
       /\ activeAlerts (globals pg') = activeAlerts (globals pg)
       /\ alertsList (alertsUi pg') =
           match activeAlerts (globals pg) with
           | [] => NoAlertsMessage
           | log => AlertDivs (map alertDiv log)
           end
       /\ forall a, border (alertDiv a) = "border-red-500"
                    <-> Alert.type a = "error")
  /\ (forall pg tk panel a sent,
       snd (fetchData (globals pg) tk) = Accepted panel (a :: sent) ->
       alertsList (alertsUi pg) = renderAlertsInModal (globals pg) ->
       alertsList (alertsUi (fetchDataPage pg tk))
         <> renderAlertsInModal (globals (fetchDataPage pg tk))).
Proof.
  split; [exact fetchDataPage_modal|]. split.
  - intros pg. cbv zeta. split; [reflexivity|]. split; [reflexivity|]. split.
    + cbn [alertBellBtn_clickPage alertsUi alertsList]. unfold renderAlertsInModal.
      destruct (activeAlerts (globals pg)); reflexivity.
    + intros a. unfold alertDiv. cbn [border].
      destruct (String.eqb_spec (Alert.type a) "error") as [E|E].
      * split; [intros _; exact E|reflexivity].
      * split; [discriminate|intros E'; contradiction].
  - intros pg tk panel a sent Hacc Hsync.
    apply accepted_inv in Hacc. destruct Hacc as (s & Hs & _ & Hsent).
    destruct (fetchDataPage_accepts pg tk s Hs) as (Hg & _).
    rewrite (proj1 (fetchDataPage_modal pg tk)), Hsync, Hg,
      (fetchData_accepts _ _ _ Hs).
    cbn [fst].
    pose proof (renderAlertsInModal_length (globals pg)) as Hold.
    pose proof (renderAlertsInModal_length
                  (pushHistory (fst (checkThresholds (globals pg) tk s)) s)) as Hnew.
    change (activeAlerts (pushHistory (fst (checkThresholds (globals pg) tk s)) s))
      with (activeAlerts (fst (checkThresholds (globals pg) tk s))) in Hnew.
    destruct (checkThresholds_spec (globals pg) tk s) as (_ & _ & Hlog & _).
    rewrite Hlog, <- Hsent in Hnew.
    intros E. rewrite E in Hold.
    destruct (renderAlertsInModal
                (pushHistory (fst (checkThresholds (globals pg) tk s)) s))
      as [|divs].
    + apply (f_equal (@List.length Alert.t)) in Hnew.
      rewrite length_app, length_rev in Hnew. cbn [List.length] in Hnew. lia.
    + destruct Hold as [Hold _], Hnew as [Hnew _].
      rewrite Hold, length_app, length_rev in Hnew. cbn [List.length] in Hnew. lia.
Qed.

(** X21: the chart is redrawn by a poll only while the analytics tab is
    on display. With the tab hidden an ingesting poll leaves the chart,
    the tabs and the selects as they are; with the tab visible it
    redraws the chart from the history that already holds the new
    sample, under the selected range and metric. *)
Theorem hidden_chart_is_not_redrawn (pg : Page) (tk : Tick) :
  (contentHidden (analyticsTab (analytics pg)) = true ->
   analytics (fetchDataPage pg tk) = analytics pg)
  /\ (forall s,
       contentHidden (analyticsTab (analytics pg)) = false ->
       sampleOf tk = Some s ->
       exists older labels dataPoints,
         historicalData (globals (fetchDataPage pg tk)) = older ++ [s]
         /\ analyticsChart (analytics (fetchDataPage pg tk)) = Some (labels, dataPoints)
         /\ snd (renderAnalyticsChart (globals (fetchDataPage pg tk))
                   (chartTimeFilter (analytics pg)) (chartDataFilter (analytics pg))
                   (now tk)) = Some (labels, dataPoints)).
Proof.
  split.
  - intros Hhid. destruct (sampleOf tk) as [s|] eqn:Hs.
    + destruct (fetchDataPage_accepts pg tk s Hs)
        as (_ & _ & _ & _ & _ & _ & _ & T1 & T2 & T3 & T4 & T5).
      rewrite Hhid in T5.
      destruct (analytics (fetchDataPage pg tk)), (analytics pg).
      cbn in *. congruence.
    + apply (fetchDataPage_rejects pg tk Hs).
  - intros s Hvis Hs.
    destruct (fetchDataPage_accepts pg tk s Hs)
      as (Hg & _ & _ & _ & _ & _ & _ & _ & _ & _ & _ & T5).
    rewrite Hvis in T5. rewrite Hg, T5, (fetchData_accepts _ _ _ Hs). cbn [fst].
    destruct (pushHistory_snoc (fst (checkThresholds (globals pg) tk s)) s)
      as [older Ho].
    assert (Hlen : (List.length (older ++ [s]) =? 0)%nat = false)
      by (rewrite length_app; cbn [List.length]; rewrite Nat.add_1_r; reflexivity).
    unfold renderAnalyticsChart. rewrite Ho, Hlen. cbn [snd].
    eexists older, _, _.
    split; [reflexivity|]. split; reflexivity.
Qed.

(** X22: a poll that does not ingest. When the fetch fails, the body
    is not an object or the location is missing, null or empty, nothing
    on the page changes. When the record is fetched but [setLatLng]
    throws on its coordinates, the three gauge fills are already styled
    for the new readings, while the status panel, the activity card, the
    history, the alerts and their cooldown, the heat layers and the
    chart stay as they were. *)
Theorem polls_that_do_not_ingest (pg : Page) (tk : Tick) :
  (response tk = None \/ lacksLocation tk -> fetchDataPage pg tk = pg)
  /\ (forall d loc,
       response tk = Some (Some d) ->
       liveData.location d = JStr loc ->
       str_nonempty loc = true ->
       setLatLng_throws (latitude (formatData d loc tk))
                        (longitude (formatData d loc tk)) = true ->
       let pg' := fetchDataPage pg tk in
       globals pg' = globals pg
       /\ alertsUi pg' = alertsUi pg
       /\ heatLayers pg' = heatLayers pg
       /\ analytics pg' = analytics pg
       /\ statusPanel (display pg') = statusPanel (display pg)
       /\ activityCard (display pg') = activityCard (display pg)
       /\ tempGauge (display pg') =
            updateGaugeFill (tempGauge (display pg)) (liveData.temperature d)
                            100 TemperatureGauge
       /\ humidityGauge (display pg') =
            updateGaugeFill (humidityGauge (display pg)) (liveData.humidity d)
                            100 HumidityGauge
       /\ carbonGauge (display pg') =
            updateGaugeFill (carbonGauge (display pg)) (liveData.carbon d)
                            800 CarbonGauge).
Proof.
  split.
  - unfold lacksLocation, fetchDataPage.
    intros [-> | [-> | (d & -> & Hloc)]]; try reflexivity.
    rewrite Hloc. reflexivity.
  - intros d loc Hr Hl Hn Hthrow. cbv zeta. unfold fetchDataPage.
    rewrite Hr, Hl. cbn [truthy]. rewrite Hn.
    unfold updateDashboardPage. rewrite Hthrow.
    repeat split; reflexivity.
Qed.

(** *** The analytics series *)

Lemma chartPairs_render (st : State) (timeFilter : TimeFilter) (key : DataKey)
    (nowMs : Z) :
  chartPairs (snd (renderAnalyticsChart st timeFilter key nowMs)) =
    map (fun d => (DateParse (timestamp d), readKey key d))
        (match rangeMs timeFilter with
         | Some range => filter (laterThan (nowMs - range)) (historicalData st)
         | None => historicalData st
         end).
Proof.
  unfold renderAnalyticsChart.
  destruct (historicalData st) as [|d0 l] eqn:Hh.
  - destruct timeFilter; reflexivity.
  - cbn [List.length Nat.eqb snd chartPairs]. rewrite combine_map.
    destruct timeFilter; reflexivity.
Qed.

Lemma filter_map_comm {A B : Type} (f : A -> B) (p : B -> bool) (l : list A) :
  filter p (map f l) = map f (filter (fun x => p (f x)) l).
Proof.
  induction l as [|x l IH]; [reflexivity|].
  cbn [map filter]. destruct (p (f x)); cbn [map]; rewrite IH; reflexivity.
Qed.

Lemma filter_filter {A : Type} (p q : A -> bool) (l : list A) :
  (forall x, p x = true -> q x = true) ->
  filter p (filter q l) = filter p l.
Proof.
  intros Hpq. induction l as [|x l IH]; [reflexivity|].
  cbn [filter]. destruct (q x) eqn:Eq; cbn [filter].
  - rewrite IH. reflexivity.
  - destruct (p x) eqn:Ep; [|exact IH].
    rewrite (Hpq x Ep) in Eq. discriminate.
Qed.

(** X23: the time ranges nest. For the same history, metric and clock,
    the 24h series is the 7d series restricted to the timestamps later
    than now minus 24 hours, and the 7d series is the unfiltered series
    restricted to those later than now minus 7 days (pairs without a
    valid date dropped), order kept; so the three series never grow as
    the range narrows, and none is longer than the history. *)
Theorem analytics_ranges_nest (st : State) (key : DataKey) (nowMs : Z) :
  let series := fun timeFilter =>
    chartPairs (snd (renderAnalyticsChart st timeFilter key nowMs)) in
  let since := fun (bound : Z) (pair : option Z * jsval) =>
    match fst pair with Some t => bound <? t | None => false end in
  series Filter24h = filter (since (nowMs - 86400000)) (series Filter7d)
  /\ series Filter7d = filter (since (nowMs - 604800000)) (series FilterAll)
  /\ (List.length (series Filter24h) <= List.length (series Filter7d)
      <= List.length (series FilterAll))%nat
  /\ List.length (series FilterAll) = List.length (historicalData st).
Proof.
  cbv beta zeta. rewrite !chartPairs_render. cbn [rangeMs].
  change (24 * 60 * 60 * 1000) with 86400000.
  change (7 * 24 * 60 * 60 * 1000) with 604800000.
  assert (E24 : map (fun d => (DateParse (timestamp d), readKey key d))
                    (filter (laterThan (nowMs - 86400000)) (historicalData st))
                = filter (fun pair : option Z * jsval =>
                            match fst pair with
                            | Some t => nowMs - 86400000 <? t
                            | None => false
                            end)
                    (map (fun d => (DateParse (timestamp d), readKey key d))
                         (filter (laterThan (nowMs - 604800000)) (historicalData st)))).
  { rewrite filter_map_comm. cbn [fst]. f_equal.
    rewrite <- (filter_filter (laterThan (nowMs - 86400000))
                             (laterThan (nowMs - 604800000))).
    - apply filter_ext. intros d. apply laterThan_spec.
    - intros d. rewrite !laterThan_spec.
      destruct (DateParse (timestamp d)); [|discriminate].
      intros H. apply Z.ltb_lt in H. apply Z.ltb_lt. lia. }
  assert (E7 : map (fun d => (DateParse (timestamp d), readKey key d))
                   (filter (laterThan (nowMs - 604800000)) (historicalData st))
               = filter (fun pair : option Z * jsval =>
                           match fst pair with
                           | Some t => nowMs - 604800000 <? t
                           | None => false
                           end)
                   (map (fun d => (DateParse (timestamp d), readKey key d))
                        (historicalData st))).
  { rewrite filter_map_comm. cbn [fst]. f_equal.
    apply filter_ext. intros d. apply laterThan_spec. }
  split; [exact E24|]. split; [exact E7|]. split.
  - split.
    + rewrite E24. apply filter_length_le.
    + rewrite E7. apply filter_length_le.
  - apply length_map.
Qed.

(** X24: with a recent buffer the range does not matter. When every
    buffered sample carries a valid timestamp later than now minus 24
    hours, the three settings of the time filter draw the same chart:
    every buffered sample, in buffer order. *)
Theorem recent_history_is_charted_whole
    (st : State) (timeFilter : TimeFilter) (key : DataKey) (nowMs : Z) :
  historicalData st <> [] ->
  (forall d, In d (historicalData st) ->
     exists t, DateParse (timestamp d) = Some t /\ nowMs - 86400000 < t) ->
  snd (renderAnalyticsChart st timeFilter key nowMs) =
    Some (map (fun d => DateParse (timestamp d)) (historicalData st),
          map (readKey key) (historicalData st)).
Proof.
  intros Hne Hrecent.
  assert (Hall : forall bound, bound <= nowMs - 86400000 ->
            filter (laterThan bound) (historicalData st) = historicalData st).
  { intros bound Hb. apply forallb_filter_id. apply forallb_forall.
    intros d Hd. destruct (Hrecent d Hd) as (t & Ht & Hlt).
    rewrite laterThan_spec, Ht. apply Z.ltb_lt. lia. }
  unfold renderAnalyticsChart.
  destruct (historicalData st) as [|d0 l] eqn:Hh; [contradiction Hne; reflexivity|].
  cbn [List.length Nat.eqb snd].
  destruct timeFilter; try rewrite Hall by lia; reflexivity.
Qed.

(** *** The history a cycle reads *)

Lemma panel_when_normal (st : State) (data : Sample) :
  js_gt (carbon data) 500 = false ->
  js_gt (temperature data) 45 = false ->
  js_gt (humidity data) 80 = false ->
  statusText (updateStatusPanel st data) = Normal
  /\ statusSuggestion (updateStatusPanel st data) =
       (if (5 <? Z.of_nat (List.length (historicalData st))) then
          match historicalData st with
          | oldest :: _ =>
              let trend := num_sub (ToNumber (carbon data))
                                   (ToNumber (carbon oldest)) in
              if num_gt trend (Num 50) then TrendingUpwards (trendShown trend)
              else if num_lt trend (Num (-50)) then TrendingDownwards
              else Stable
          | [] => Stable
          end
        else Stable).
Proof.
  unfold updateStatusPanel, THRESHOLDS.co2, THRESHOLDS.temp, THRESHOLDS.humidity.
  intros -> -> ->. split; reflexivity.
Qed.

Lemma trend_of_whole_readings (v v0 : jsval) (n n0 : Z) :
  wholeReading v n -> wholeReading v0 n0 ->
  exists d, num_sub (ToNumber v) (ToNumber v0) = Num d
            /\ (d == inject_Z (n - n0))%Q.
Proof.
  intros (q & Eq & Hq & _) (q0 & Eq0 & Hq0 & _).
  exists (q - q0)%Q. rewrite Eq, Eq0. split; [reflexivity|].
  rewrite Hq, Hq0. unfold Z.sub. rewrite inject_Z_plus, inject_Z_opp. ring.
Qed.

Lemma suggestion_on_whole_readings (d : Q) (m : Z) :
  (d == inject_Z m)%Q ->
  (if num_gt (Num d) (Num 50) then TrendingUpwards (trendShown (Num d))
   else if num_lt (Num d) (Num (-50)) then TrendingDownwards
   else Stable)
  = (if 50 <? m then TrendingUpwards m
     else if m <? -50 then TrendingDownwards else Stable).
Proof.
  intros Hd. cbn [num_gt num_lt trendShown].
  destruct (Z.ltb_spec 50 m) as [Hup|Hup].
  - destruct (Qle_bool d 50) eqn:E.
    + apply Qle_bool_iff in E. rewrite Hd in E.
      change 50%Q with (inject_Z 50) in E. rewrite <- Zle_Qle in E. lia.
    + cbn [negb]. f_equal. unfold toFixed0.
      rewrite (Qfloor_comp _ (inject_Z m + (1 # 2)))
        by (rewrite Hd; reflexivity).
      apply Qfloor_half.
  - destruct (Qle_bool d 50) eqn:E.
    + cbn [negb].
      destruct (Z.ltb_spec m (-50)) as [Hdn|Hdn].
      * destruct (Qle_bool (-50) d) eqn:E'; [|reflexivity].
        apply Qle_bool_iff in E'. rewrite Hd in E'.
        change (-50)%Q with (inject_Z (-50)) in E'. rewrite <- Zle_Qle in E'. lia.
      * destruct (Qle_bool (-50) d) eqn:E'; [reflexivity|].
        apply Qle_bool_false in E'. rewrite Hd in E'.
        change (-50)%Q with (inject_Z (-50)) in E'. rewrite <- Zlt_Qlt in E'. lia.
    + apply Qle_bool_false in E. rewrite Hd in E.
      change 50%Q with (inject_Z 50) in E. rewrite <- Zlt_Qlt in E. lia.
Qed.

Lemma suggestion_within_band (d : Q) :
  (-50 <= d <= 50)%Q ->
  (if num_gt (Num d) (Num 50) then TrendingUpwards (trendShown (Num d))
   else if num_lt (Num d) (Num (-50)) then TrendingDownwards
   else Stable) = Stable.
Proof.
  intros [Hlo Hhi]. cbn [num_gt num_lt].
  apply Qle_bool_iff in Hlo. apply Qle_bool_iff in Hhi.
  rewrite Hlo, Hhi. reflexivity.
Qed.

(** C9: in a cycle that ingests a sample, the status panel and the
    thresholds are evaluated on the globals as they are before the
    sample is pushed, and the sample is appended after. The alerts are
    decided against the cooldown times from before the cycle. A trend is
    reported only with more than 5 samples buffered before the current
    one, and only when the new carbon reading differs by more than 50
    from that of the oldest sample buffered before it. Conversely, for a
    sample under every threshold: with at most 5 samples buffered before
    it the suggestion is the stable one; with more than 5 and whole
    readings [n] now and [n0] in the oldest buffered sample, it is the
    upward trend citing [n - n0] when [n - n0 > 50], the downward trend
    when [n - n0 < -50] and the stable one otherwise; and for any
    numeric readings that differ by at most 50 it is the stable one. *)
Theorem status_uses_history_before_push (st : State) (tk : Tick) (s : Sample) :
  sampleOf tk = Some s ->
  exists panel sent,
    snd (fetchData st tk) = Accepted panel sent
    /\ panel = updateStatusPanel st s
    /\ sent = snd (checkThresholds st tk s)
    /\ historicalData (fst (fetchData st tk)) =
         (if 20 <? Z.of_nat (List.length (historicalData st ++ [s]))
          then tl (historicalData st ++ [s]) else historicalData st ++ [s])
    /\ (forall k, In (alertOf k tk s) sent <->
                  breaches k s = true
                  /\ now tk - lastFired k st > ALERT_COOLDOWN)
    /\ (statusSuggestion panel = TrendingDownwards ->
        statusText panel = Normal
        /\ (5 < List.length (historicalData st))%nat
        /\ exists oldest rest c c0,
             historicalData st = oldest :: rest
             /\ ToNumber (carbon s) = Num c
             /\ ToNumber (carbon oldest) = Num c0
             /\ (c - c0 < -50)%Q)
    /\ (forall ppm, statusSuggestion panel = TrendingUpwards ppm ->
        statusText panel = Normal
        /\ (5 < List.length (historicalData st))%nat
        /\ 50 <= ppm
        /\ exists oldest rest c c0,
             historicalData st = oldest :: rest
             /\ ToNumber (carbon s) = Num c
             /\ ToNumber (carbon oldest) = Num c0
             /\ (50 < c - c0)%Q)
    /\ (js_gt (carbon s) 500 = false ->
        js_gt (temperature s) 45 = false ->
        js_gt (humidity s) 80 = false ->
        statusText panel = Normal
        /\ ((List.length (historicalData st) <= 5)%nat ->
            statusSuggestion panel = Stable)
        /\ (forall oldest rest n n0,
              historicalData st = oldest :: rest ->
              (5 < List.length (historicalData st))%nat ->
              wholeReading (carbon s) n ->
              wholeReading (carbon oldest) n0 ->
              statusSuggestion panel =
                if 50 <? n - n0 then TrendingUpwards (n - n0)
                else if n - n0 <? -50 then TrendingDownwards
                else Stable)
        /\ (forall oldest rest c c0,
              historicalData st = oldest :: rest ->
              ToNumber (carbon s) = Num c ->
              ToNumber (carbon oldest) = Num c0 ->
              (-50 <= c - c0 <= 50)%Q ->
              statusSuggestion panel = Stable)).
Proof.
  intros H.
  exists (updateStatusPanel st s), (snd (checkThresholds st tk s)).
  rewrite (fetchData_accepts _ _ _ H). cbn [fst snd].
  rewrite pushHistory_history, checkThresholds_history.
  split; [reflexivity|]. split; [reflexivity|]. split; [reflexivity|].
  split; [reflexivity|].
  split; [intros k; rewrite sent_has; apply fires_iff|].
  assert (Hfew : (List.length (historicalData st) <= 5)%nat ->
                 Z.of_nat (List.length (historicalData st)) <= 5) by lia.
  assert (Hmany : forall sg,
            statusSuggestion (updateStatusPanel st s) = sg ->
            (sg = TrendingDownwards \/ exists ppm, sg = TrendingUpwards ppm) ->
            statusText (updateStatusPanel st s) = Normal
            /\ (5 < List.length (historicalData st))%nat).
  { intros sg Hs Hsg. split.
    - destruct (suggestion_status st s) as [Hn | [Hn | [Hn | Hn]]];
        [assumption| | |]; rewrite Hs in Hn;
        destruct Hsg as [-> | [ppm ->]]; discriminate Hn.
    - destruct (Nat.le_gt_cases (List.length (historicalData st)) 5) as [Hle|];
        [|assumption].
      destruct (trend_needs_history st s (Hfew Hle)) as [Hd Hu].
      rewrite Hs in Hd, Hu.
      destruct Hsg as [-> | [ppm ->]];
        [contradiction Hd; reflexivity | contradiction (Hu ppm); reflexivity]. }
  split; [|split].
  - intros Hs.
    destruct (Hmany _ Hs (or_introl eq_refl)) as [Hn Hlen].
    split; [exact Hn|]. split; [exact Hlen|].
    apply trend_downwards_inv in Hs.
    destruct Hs as (oldest & rest & Hh & Hlt).
    destruct (ToNumber (carbon s)) as [|c] eqn:Ec; [discriminate|].
    destruct (ToNumber (carbon oldest)) as [|c0] eqn:Ec0; [discriminate|].
    cbn [num_sub num_lt num_gt] in Hlt.
    apply negb_true_iff, Qle_bool_false in Hlt.
    exists oldest, rest, c, c0. auto.
  - intros ppm Hs.
    destruct (Hmany _ Hs (or_intror (ex_intro _ ppm eq_refl))) as [Hn Hlen].
    split; [exact Hn|]. split; [exact Hlen|].
    apply trend_upwards_inv in Hs.
    destruct Hs as (oldest & rest & Hh & -> & Hgt).
    destruct (ToNumber (carbon s)) as [|c] eqn:Ec; [discriminate|].
    destruct (ToNumber (carbon oldest)) as [|c0] eqn:Ec0; [discriminate|].
    cbn [num_sub num_gt] in Hgt. apply negb_true_iff, Qle_bool_false in Hgt.
    split.
    + cbn [num_sub trendShown]. unfold toFixed0.
      change 50 with (Qfloor 50). apply Qfloor_resp_le. lra.
    + exists oldest, rest, c, c0. auto.
  - intros Hc Ht Hh.
    destruct (panel_when_normal st s Hc Ht Hh) as [Hn Hsg].
    split; [exact Hn|]. rewrite Hsg. split; [|split].
    + intros Hle.
      destruct (Z.ltb_spec 5 (Z.of_nat (List.length (historicalData st))));
        [lia|reflexivity].
    + intros oldest rest n n0 Hh' Hlen Hw Hw0.
      destruct (Z.ltb_spec 5 (Z.of_nat (List.length (historicalData st))));
        [|lia].
      rewrite Hh'. cbv zeta.
      destruct (trend_of_whole_readings _ _ _ _ Hw Hw0) as (d & -> & Hd).
      apply suggestion_on_whole_readings. exact Hd.
    + intros oldest rest c c0 Hh' Ec Ec0 Hband.
      destruct (5 <? _); [|reflexivity].
      rewrite Hh'. cbv zeta. rewrite Ec, Ec0. cbn [num_sub].
      apply suggestion_within_band. exact Hband.
Qed.

End MoreProperties.

(* ================================================================== *)
(** ** The properties on the example inputs *)

Import ExampleHost.

(** C1, counterexample: a record stamped 00:00:00 fetched after one
    stamped 00:00:15 is not rejected; the history grows from one entry
    to two and the status panel is evaluated for it. *)
Lemma stale_sample_is_appended :
  let st := poll initialState [Examples.fresh] in
  let cycle := fetchData st Examples.stale in
  map (fun d => DateParse (timestamp d)) (historicalData st)
    = [Some (Examples.t0 + 15000)]
  /\ option_map (fun d => DateParse (timestamp d)) (sampleOf Examples.stale)
     = Some (Some Examples.t0)
  /\ Examples.t0 <= Examples.t0 + 15000
  /\ List.length (historicalData st) = 1%nat
  /\ List.length (historicalData (fst cycle)) = 2%nat
  /\ snd cycle = Accepted (mkPanel Normal Stable) [].
Proof.
  cbv zeta. split; [reflexivity|]. split; [reflexivity|].
  split; [unfold Examples.t0; lia|].
  split; [reflexivity|]. split; reflexivity.
Qed.

Lemma every_located_sample_is_appended_witness :
  let st := poll initialState [Examples.fresh] in
  exists s,
    sampleOf Examples.stale = Some s
    /\ historicalData (fst (fetchData st Examples.stale)) =
         (if 20 <? Z.of_nat (List.length (historicalData st ++ [s]))
          then tl (historicalData st ++ [s]) else historicalData st ++ [s])
    /\ snd (fetchData st Examples.stale) =
         Accepted (updateStatusPanel st s) (snd (checkThresholds st Examples.stale s)).
Proof.
  cbv zeta. eexists. split; [reflexivity|].
  apply every_located_sample_is_appended. reflexivity.
Defined.

Lemma history_is_last_twenty_witness :
  let tks := Examples.steady in
  let samples := samplesOf tks in
  let history := historicalData (poll initialState tks) in
  map sampleOf tks = map Some samples
  /\ List.length samples = 22%nat
  /\ List.length history = 20%nat
  /\ history = skipn 2 samples
  /\ forall k, (List.length (historicalData (poll initialState (firstn k tks))) <= 20)%nat.
Proof.
  cbv zeta.
  assert (H : map sampleOf Examples.steady = map Some (samplesOf Examples.steady))
    by (vm_compute; reflexivity).
  split; [exact H|]. split; [vm_compute; reflexivity|].
  exact (history_is_last_twenty Examples.steady (samplesOf Examples.steady) H).
Defined.

Lemma status_first_match_wins_witness :
  statusText (updateStatusPanel initialState (Examples.sampleWith 50 90 600)) = HighCO2
  /\ statusText (updateStatusPanel initialState (Examples.sampleWith 50 90 400))
     = HighTemperature
  /\ statusText (updateStatusPanel initialState (Examples.sampleWith 30 90 400))
     = ElevatedHumidity
  /\ statusText (updateStatusPanel initialState (Examples.sampleWith 30 50 400))
     = Normal.
Proof.
  split; [|split; [|split]].
  - exact (proj1 (status_first_match_wins initialState
                    (Examples.sampleWith 50 90 600)) eq_refl).
  - exact (proj1 (proj2 (status_first_match_wins initialState
                           (Examples.sampleWith 50 90 400))) eq_refl eq_refl).
  - exact (proj1 (proj2 (proj2 (status_first_match_wins initialState
                                  (Examples.sampleWith 30 90 400))))
             eq_refl eq_refl eq_refl).
  - exact (proj1 (proj2 (proj2 (proj2 (status_first_match_wins initialState
                                         (Examples.sampleWith 30 50 400)))))
             eq_refl eq_refl eq_refl).
Defined.

(** C5, counterexample: six samples with carbon 300, 320, 340, 360, 380
    and 400, all under the thresholds; on the sixth cycle five samples
    are buffered and the panel reads Normal with the stable suggestion,
    not an upward trend of 100 ppm. *)
Lemma sixth_sample_reports_stable :
  let outcome := snd (fetchData (poll initialState Examples.rising5) Examples.sixth) in
  Examples.rising6 = Examples.rising5 ++ [Examples.sixth]
  /\ map carbon (samplesOf Examples.rising6)
     = [JNum (Num 300); JNum (Num 320); JNum (Num 340);
        JNum (Num 360); JNum (Num 380); JNum (Num 400)]
  /\ List.length (historicalData (poll initialState Examples.rising5)) = 5%nat
  /\ outcome = Accepted (mkPanel Normal Stable) []
  /\ outcome <> Accepted (mkPanel Normal (TrendingUpwards 100)) [].
Proof.
  cbv zeta. split; [reflexivity|]. split; [reflexivity|]. split; [reflexivity|].
  split; [reflexivity|]. vm_compute. discriminate.
Qed.

Lemma upward_trend_from_seventh_sample_witness :
  let tks := firstn 6 Examples.rising7 in
  let tk := Examples.calm 400 "2025-01-01 00:01:30" 90 in
  Examples.rising7 = tks ++ [tk]
  /\ snd (fetchData (poll initialState tks) tk)
     = Accepted (mkPanel Normal (TrendingUpwards 100)) [].
Proof.
  cbv zeta. split; [reflexivity|].
  refine (proj1 (upward_trend_from_seventh_sample
                   (firstn 6 Examples.rising7)
                   (hd Examples.hotSample (samplesOf (firstn 6 Examples.rising7)))
                   (tl (samplesOf (firstn 6 Examples.rising7)))
                   (Examples.calm 400 "2025-01-01 00:01:30" 90)
                   _ _ _ _ _ _ _) _).
  - vm_compute; reflexivity.
  - reflexivity.
  - reflexivity.
  - reflexivity.
  - reflexivity.
  - reflexivity.
  - vm_compute. lia.
Defined.



(** C8, counterexample: with a record exactly 24 hours old and a record
    stamped 5 seconds after now in the buffer, the 24h chart shows the
    second and not the first, where the interval [now - 24h, now] holds
    the first and not the second. *)
Lemma analytics_window_is_not_the_closed_interval :
  let st := poll initialState [Examples.dayOld; Examples.ahead] in
  chartPairs (snd (renderAnalyticsChart st Filter24h KeyCarbon Examples.t0))
    = [(Some (Examples.t0 + 5000), JNum (Num 310))]
  /\ window_spec (historicalData st) (24 * 60 * 60 * 1000) KeyCarbon Examples.t0
     = [(Some (Examples.t0 - 24 * 60 * 60 * 1000), JNum (Num 300))]
  /\ chartPairs (snd (renderAnalyticsChart st Filter24h KeyCarbon Examples.t0))
     <> window_spec (historicalData st) (24 * 60 * 60 * 1000) KeyCarbon Examples.t0.
Proof.
  cbv zeta. split; [reflexivity|]. split; [reflexivity|].
  vm_compute. discriminate.
Qed.

Lemma analytics_window_has_no_upper_bound_witness :
  let st := poll initialState [Examples.dayOld; Examples.ahead] in
  rangeMs Filter24h = Some 86400000
  /\ fst (renderAnalyticsChart st Filter24h KeyCarbon Examples.t0) = st
  /\ chartPairs (snd (renderAnalyticsChart st Filter24h KeyCarbon Examples.t0)) =
       map (fun d => (DateParse (timestamp d), readKey KeyCarbon d))
           (filter (fun d => match DateParse (timestamp d) with
                             | Some t => Examples.t0 - 86400000 <? t
                             | None => false
                             end)
                   (historicalData st)).
Proof.
  cbv zeta. split; [reflexivity|].
  exact (analytics_window_has_no_upper_bound _ Filter24h 86400000 KeyCarbon
           Examples.t0 eq_refl).
Defined.

Lemma status_uses_history_before_push_witness :
  let st := poll initialState (firstn 6 Examples.rising7) in
  let tk := Examples.calm 400 "2025-01-01 00:01:30" 90 in
  let st5 := poll initialState Examples.rising5 in
  (map carbon (historicalData st)
     = [JNum (Num 300); JNum (Num 320); JNum (Num 340);
        JNum (Num 350); JNum (Num 360); JNum (Num 380)]
   /\ exists panel sent,
        snd (fetchData st tk) = Accepted panel sent
        /\ statusText panel = Normal
        /\ statusSuggestion panel = TrendingUpwards 100
        /\ List.length (historicalData (fst (fetchData st tk))) = 7%nat)
  /\ (List.length (historicalData st5) = 5%nat
      /\ exists panel sent,
           snd (fetchData st5 Examples.sixth) = Accepted panel sent
           /\ statusText panel = Normal
           /\ statusSuggestion panel = Stable
           /\ List.length (historicalData (fst (fetchData st5 Examples.sixth)))
              = 6%nat).
Proof.
  cbv zeta. split; (split; [reflexivity|]).
  - pose (st := poll initialState (firstn 6 Examples.rising7)).
    pose (tk := Examples.calm 400 "2025-01-01 00:01:30" 90).
    pose (s := formatData (Examples.payload 28 50 400 "2025-01-01 00:01:30")
                          "10.908500,76.909800" tk).
    assert (Hs : sampleOf tk = Some s) by (vm_compute; reflexivity).
    destruct (status_uses_history_before_push st tk s Hs)
      as (panel & sent & Hacc & _ & _ & Hhist & _ & _ & _ & Hnormal).
    destruct (Hnormal eq_refl eq_refl eq_refl) as (Hn & _ & Hwhole & _).
    exists panel, sent. split; [exact Hacc|]. split; [exact Hn|]. split.
    + refine (Hwhole (hd s (historicalData st)) (tl (historicalData st))
                     400 300 eq_refl _ _ _).
      * vm_compute. lia.
      * exists 400%Q. split; [reflexivity|]. split; [reflexivity|].
        vm_compute. discriminate.
      * exists 300%Q. split; [reflexivity|]. split; [reflexivity|].
        vm_compute. discriminate.
    + fold st tk. rewrite Hhist. reflexivity.
  - pose (st5 := poll initialState Examples.rising5).
    pose (s := formatData (Examples.payload 28 50 400 "2025-01-01 00:01:15")
                          "10.908500,76.909800" Examples.sixth).
    assert (Hs : sampleOf Examples.sixth = Some s) by (vm_compute; reflexivity).
    destruct (status_uses_history_before_push st5 Examples.sixth s Hs)
      as (panel & sent & Hacc & _ & _ & Hhist & _ & _ & _ & Hnormal).
    destruct (Hnormal eq_refl eq_refl eq_refl) as (Hn & Hfew & _).
    exists panel, sent. split; [exact Hacc|]. split; [exact Hn|]. split.
    + apply Hfew. vm_compute. lia.
    + fold st5. rewrite Hhist. reflexivity.
Defined.

Lemma unread_count_bounded_by_log_witness :
  let st := run initialState [Poll (Examples.hot 0); BellClick; Poll (Examples.hot 400)] in
  reachable st
  /\ List.length (activeAlerts st) = 2%nat
  /\ 0 <= unreadAlertCount st <= Z.of_nat (List.length (activeAlerts st)).
Proof.
  cbv zeta.
  assert (H : reachable (run initialState
                [Poll (Examples.hot 0); BellClick; Poll (Examples.hot 400)]))
    by (eexists; reflexivity).
  split; [exact H|]. split; [reflexivity|].
  exact (proj1 unread_count_bounded_by_log _ H).
Defined.

Lemma one_alert_per_cooldown_witness :
  let s := Examples.hotSample in
  let st := fst (evaluations initialState [(Examples.hot 0, s)]) in
  let within := [(Examples.hot 10, s); (Examples.hot 300, s)] in
  let tk := Examples.hot 301 in
  lastFired OfTemperature st = Examples.t0
  /\ ForallOrdPairs apart
       (snd (evaluations initialState ((Examples.hot 0, s) :: within ++ [(tk, s)])))
  /\ filter (isOf OfTemperature) (snd (evaluations st (within ++ [(tk, s)])))
     = [alertOf OfTemperature tk s]
  /\ lastFired OfTemperature (fst (evaluations st (within ++ [(tk, s)]))) = now tk.
Proof.
  cbv zeta. split; [reflexivity|].
  split; [exact (proj1 one_alert_per_cooldown _ _)|].
  apply (proj2 one_alert_per_cooldown).
  - intros c [<- | [<- | [<- | []]]]; reflexivity.
  - intros c [<- | [<- | []]]; vm_compute; discriminate.
  - vm_compute. reflexivity.
Defined.

(** *** The further properties on the example inputs *)

Lemma alerts_are_decided_per_metric_witness :
  let data := Examples.sampleWith 50 90 600 in
  let tk := Examples.alarm 0 in
  (forall k, breaches k data = true
             /\ now tk - lastFired k initialState > ALERT_COOLDOWN)
  /\ snd (checkThresholds initialState tk data) =
       [alertOf OfTemperature tk data; alertOf OfCO2 tk data;
        alertOf OfHumidity tk data]
  /\ unreadAlertCount (fst (checkThresholds initialState tk data)) = 0 + 3.
Proof.
  cbv zeta.
  assert (H : forall k,
            breaches k (Examples.sampleWith 50 90 600) = true
            /\ now (Examples.alarm 0) - lastFired k initialState > ALERT_COOLDOWN)
    by (intros k; destruct k; split; reflexivity).
  split; [exact H|].
  destruct (proj2 (proj2 (alerts_are_decided_per_metric initialState
                            (Examples.alarm 0) (Examples.sampleWith 50 90 600))) H)
    as (Hsent & _ & Hcount).
  split; assumption.
Defined.

Lemma cooldown_is_set_once_the_metric_alerted_witness :
  let es := [Poll (Examples.hot 0); BellClick; Poll (Examples.hot 400)] in
  let st := run initialState es in
  neverCleared es
  /\ (lastFired OfTemperature st > ALERT_COOLDOWN
      /\ exists a, In a (activeAlerts st) /\ Alert.metric a = "Temperature")
  /\ (lastFired OfCO2 st = 0
      /\ forall a, In a (activeAlerts st) -> Alert.metric a <> "CO2 Level").
Proof.
  cbv zeta.
  assert (H : neverCleared [Poll (Examples.hot 0); BellClick; Poll (Examples.hot 400)])
    by (repeat constructor; discriminate).
  split; [exact H|]. split.
  - destruct (cooldown_is_set_once_the_metric_alerted _ OfTemperature H)
      as [[H0 _] | Hset].
    + vm_compute in H0. discriminate H0.
    + exact Hset.
  - destruct (cooldown_is_set_once_the_metric_alerted _ OfCO2 H)
      as [Hunset | [Hgt _]].
    + exact Hunset.
    + vm_compute in Hgt. discriminate Hgt.
Defined.

Lemma clearing_does_not_rearm_witness :
  let st := poll initialState [Examples.alarm 0] in
  let tks := [Examples.alarm 10; Examples.alarm 20] in
  List.length (activeAlerts st) = 3%nat
  /\ (forall tk k, In tk tks -> now tk - lastFired k st <= ALERT_COOLDOWN)
  /\ activeAlerts (poll (clearAllAlertsBtn_click st) tks) = []
  /\ unreadAlertCount (poll (clearAllAlertsBtn_click st) tks) = 0.
Proof.
  cbv zeta. split; [reflexivity|].
  assert (H : forall tk k,
            In tk [Examples.alarm 10; Examples.alarm 20] ->
            now tk - lastFired k (poll initialState [Examples.alarm 0])
              <= ALERT_COOLDOWN).
  { intros tk k [<- | [<- | []]]; destruct k; vm_compute; discriminate. }
  split; [exact H|].
  exact (proj2 (clearing_does_not_rearm _ _ H)).
Defined.

Lemma alerts_come_with_abnormal_status_witness :
  exists panel a,
    snd (fetchData initialState (Examples.hot 0)) = Accepted panel [a]
    /\ Alert.metric a = "Temperature"
    /\ (statusText panel = HighCO2 \/ statusText panel = HighTemperature)
    /\ statusText panel <> Normal.
Proof.
  eexists. eexists.
  assert (H : snd (fetchData initialState (Examples.hot 0))
              = Accepted (mkPanel HighTemperature SuggestFireHazards)
                  [alertOf OfTemperature (Examples.hot 0)
                     Examples.hotSample]).
  2: { split; [exact H|]. split; [reflexivity|].
       destruct (alerts_come_with_abnormal_status _ _ _ _ H) as (_ & _ & Ht & Hn).
       split; [apply (Ht _ (or_introl eq_refl)); reflexivity
              |apply (Hn _ (or_introl eq_refl))]. }
  reflexivity.
Defined.

Lemma activity_goes_with_status_witness :
  updateActivitySuggestions (Examples.sampleWith 50 50 300)
    = StayIndoors (JNum (Num 300)) (JNum (Num 50))
  /\ (updateActivitySuggestions (Examples.sampleWith 25 50 520)
        = StayIndoors (JNum (Num 520)) (JNum (Num 25))
      \/ updateActivitySuggestions (Examples.sampleWith 25 50 520)
         = ModerateAirQuality)
  /\ updateActivitySuggestions (Examples.sampleWith 25 50 300) = PicnicOrCamping
  /\ statusText (updateStatusPanel initialState (Examples.sampleWith 25 50 300))
     = Normal.
Proof.
  split; [|split; [|split]].
  - exact (proj1 (activity_goes_with_status initialState
                    (Examples.sampleWith 50 50 300)) eq_refl).
  - exact (proj1 (proj2 (activity_goes_with_status initialState
                           (Examples.sampleWith 25 50 520))) eq_refl).
  - reflexivity.
  - exact (proj1 (proj2 (proj2 (activity_goes_with_status initialState
                                  (Examples.sampleWith 25 50 300))) eq_refl)).
Defined.

Lemma unreadable_readings_look_normal_witness :
  ToNumber (temperature Examples.unreadable) = NaN
  /\ updateStatusPanel (poll initialState Examples.rising6) Examples.unreadable
     = mkPanel Normal Stable
  /\ updateActivitySuggestions Examples.unreadable = AverageConditions
  /\ checkThresholds initialState (Examples.hot 0) Examples.unreadable
     = (initialState, []).
Proof.
  split; [reflexivity|].
  destruct (unreadable_readings_look_normal (host := ExampleHost.host)
              (poll initialState Examples.rising6) (Examples.hot 0)
              Examples.unreadable eq_refl eq_refl eq_refl) as (Hs & Ha & _ & _).
  destruct (unreadable_readings_look_normal (host := ExampleHost.host)
              initialState (Examples.hot 0)
              Examples.unreadable eq_refl eq_refl eq_refl) as (_ & _ & Hc & _).
  split; [exact Hs|]. split; [exact Ha|exact Hc].
Defined.

Lemma trend_suggestions_are_founded_witness :
  let st := poll initialState Examples.rising6 in
  statusSuggestion (updateStatusPanel st (Examples.sampleWith 28 50 420))
    = TrendingUpwards 120
  /\ statusSuggestion (updateStatusPanel st (Examples.sampleWith 28 50 200))
     = TrendingDownwards
  /\ statusText (updateStatusPanel st (Examples.sampleWith 28 50 420)) = Normal
  /\ 50 <= 120
  /\ statusText (updateStatusPanel st (Examples.sampleWith 28 50 200)) = Normal.
Proof.
  cbv zeta.
  assert (Hup : statusSuggestion
                  (updateStatusPanel (poll initialState Examples.rising6)
                                     (Examples.sampleWith 28 50 420))
                = TrendingUpwards 120) by reflexivity.
  assert (Hdown : statusSuggestion
                    (updateStatusPanel (poll initialState Examples.rising6)
                                       (Examples.sampleWith 28 50 200))
                  = TrendingDownwards) by reflexivity.
  split; [exact Hup|]. split; [exact Hdown|].
  destruct (proj1 (trend_suggestions_are_founded _ _) 120 Hup) as (Hn & Hge & _).
  destruct (proj2 (trend_suggestions_are_founded _ _) Hdown) as (Hn' & _).
  split; [exact Hn|]. split; [exact Hge|exact Hn'].
Defined.

Lemma coordinates_are_the_first_two_fields_witness :
  let d := Examples.payload 28 50 300 "2025-01-01 00:00:00" in
  let tk := Examples.hot 0 in
  longitude (formatData d "unknown" tk) = JUndefined
  /\ latitude (formatData d "10.908500,76.909800" tk)
     = JNum (StringToNumber "10.908500")
  /\ longitude (formatData d "10.908500,76.909800" tk)
     = JNum (StringToNumber "76.909800")
  /\ longitude (formatData d "10.908500,76.909800,431.0" tk)
     = JNum (StringToNumber "76.909800").
Proof.
  cbv zeta.
  destruct (coordinates_are_the_first_two_fields
              (Examples.payload 28 50 300 "2025-01-01 00:00:00") (Examples.hot 0))
    as (H1 & H2 & H3).
  split; [exact (proj2 (H1 "unknown" eq_refl))|].
  split; [exact (proj1 (H2 "10.908500" "76.909800" eq_refl eq_refl))|].
  split; [exact (proj2 (H2 "10.908500" "76.909800" eq_refl eq_refl))|].
  exact (proj2 (H3 "10.908500" "76.909800" "431.0" eq_refl eq_refl)).
Defined.

Lemma alert_location_stops_at_the_asterisk_witness :
  let a := alertOf OfTemperature Examples.starred Examples.hotSample in
  In a (snd (checkThresholds initialState Examples.starred Examples.hotSample))
  /\ Alert.location a = "Coimbatore, Tamil Nadu, India"
  /\ lacks "*" (Alert.location a) = true
  /\ exists rest,
       sensorLocationName Examples.starred = (Alert.location a ++ rest)%string
       /\ (rest = EmptyString \/ exists r, rest = String "*" r).
Proof.
  cbv zeta.
  assert (H : In (alertOf OfTemperature Examples.starred Examples.hotSample)
                 (snd (checkThresholds initialState Examples.starred
                                       Examples.hotSample)))
    by (left; reflexivity).
  split; [exact H|]. split; [reflexivity|].
  exact (alert_location_stops_at_the_asterisk _ _ _ _ H).
Defined.

Lemma interpolation_reaches_both_ends_witness :
  hexColor 59 130 246 = blue
  /\ hexColor 34 197 94 = green
  /\ interpolateColor blue green (Num ((25 - 25) / 15)) = blue
  /\ interpolateColor blue green (Num (25 / 25)) = green.
Proof.
  split; [reflexivity|]. split; [reflexivity|].
  assert (B : forall z, 0 <= z <= 255 -> 0 <= z <= 255) by auto.
  split.
  - exact (proj1 (interpolation_reaches_both_ends 59 130 246 34 197 94
                    ((25 - 25) / 15)
                    ltac:(lia) ltac:(lia) ltac:(lia) ltac:(lia) ltac:(lia) ltac:(lia))
             ltac:(reflexivity)).
  - exact (proj2 (interpolation_reaches_both_ends 59 130 246 34 197 94
                    (25 / 25)
                    ltac:(lia) ltac:(lia) ltac:(lia) ltac:(lia) ltac:(lia) ltac:(lia))
             ltac:(reflexivity)).
Defined.

Lemma temperature_color_is_well_formed_witness :
  (0 <= 30 <= 100)%Q
  /\ exists r g b,
       0 <= r <= 255 /\ 0 <= g <= 255 /\ 0 <= b <= 255
       /\ getTemperatureColor (JNum (Num 30)) = hexColor r g b
       /\ String.length (getTemperatureColor (JNum (Num 30))) = 7%nat.
Proof.
  assert (H : (0 <= 30 <= 100)%Q) by (split; discriminate).
  split; [exact H|]. exact (temperature_color_is_well_formed 30 H).
Defined.

Lemma co2_color_is_well_formed_witness :
  (400 <= 800)%Q
  /\ getCO2Color (JNum (Num 200)) = green
  /\ exists r g b,
       0 <= r <= 255 /\ 0 <= g <= 255 /\ 0 <= b <= 255
       /\ getCO2Color (JNum (Num 400)) = hexColor r g b
       /\ String.length (getCO2Color (JNum (Num 400))) = 7%nat.
Proof.
  assert (H : (400 <= 800)%Q) by discriminate.
  assert (H' : (200 <= 800)%Q) by discriminate.
  split; [exact H|]. split.
  - apply (proj1 (co2_color_is_well_formed 200 H')). reflexivity.
  - exact (proj2 (co2_color_is_well_formed 400 H)).
Defined.

Lemma gauge_fraction_is_clamped_witness :
  (0 < 800)%Q
  /\ exists p,
       gaugePercentage (JNum (Num 1200)) 800 = Num p
       /\ turn (updateGaugeFill (mkFill None (Num 0)) (JNum (Num 1200)) 800 CarbonGauge)
          = Num (p / 2)
       /\ (0 <= p <= 1)%Q
       /\ ((1200 <= 0)%Q -> (p == 0)%Q)
       /\ ((800 <= 1200)%Q -> (p == 1)%Q)
       /\ ((0 <= 1200 <= 800)%Q -> (p == 1200 / 800)%Q).
Proof.
  assert (H : (0 < 800)%Q) by reflexivity.
  split; [exact H|].
  exact (gauge_fraction_is_clamped (mkFill None (Num 0)) (JNum (Num 1200))
           1200 800 CarbonGauge H eq_refl).
Defined.

Lemma gauge_animation_ends_on_the_reading_witness :
  animation 28 (JNum (Num 46)) None [1000; 1016; 1400; 1800; 1816]%Q =
    [Text false 28; Text false 28; Text false 37; Text false 46].
Proof.
  assert (H : animation 28 (JNum (Num 46)) None
                ((1000 :: [1016; 1400] ++ 1800 :: [1816])%Q) =
              map (fun t => toFixed_0 (currentValue 28 (JNum (Num 46))
                                         (animationProgress 1000 t)))
                  ([1000; 1016; 1400]%Q)
              ++ [toFixed_0 (Num 46)]).
  { apply (gauge_animation_ends_on_the_reading 28 46 1000 [1016; 1400]%Q 1800
             [1816]%Q).
    - discriminate.
    - intros t [<- | [<- | []]]; reflexivity.
    - discriminate. }
  exact H.
Defined.

Lemma heat_layers_mirror_the_history_witness :
  let pg := pageRun Examples.page0
              [PagePoll (Examples.hot 0); BellClicked;
               PagePoll Examples.noLocation; PagePoll (Examples.alarm 400)] in
  freshPage Examples.page0
  /\ List.length (co2HeatLayer (heatLayers pg)) = 2%nat
  /\ heatLayers pg = heatOf (historicalData (globals pg))
  /\ (List.length (tempHeatLayer (heatLayers pg)) <= 20)%nat.
Proof.
  cbv zeta.
  assert (H : freshPage Examples.page0) by (repeat split; reflexivity).
  split; [exact H|]. split; [reflexivity|].
  destruct (heat_layers_mirror_the_history Examples.page0
              [PagePoll (Examples.hot 0); BellClicked;
               PagePoll Examples.noLocation; PagePoll (Examples.alarm 400)] H)
    as (Hm & Hb & _).
  split; [exact Hm|exact Hb].
Defined.

Lemma badge_shows_the_unread_count_witness :
  let pg := pageRun Examples.page0
              [PagePoll (Examples.alarm 0); CloseModalClicked;
               TabClicked AnalyticsTab Examples.t0] in
  badgeShows (badge (alertsUi Examples.page0))
             (unreadAlertCount (globals Examples.page0))
  /\ unreadAlertCount (globals pg) = 3
  /\ badge (alertsUi pg) = mkBadge (Some 3) false
  /\ badgeShows (badge (alertsUi pg)) (unreadAlertCount (globals pg)).
Proof.
  cbv zeta.
  assert (H : badgeShows (badge (alertsUi Examples.page0))
                         (unreadAlertCount (globals Examples.page0)))
    by reflexivity.
  split; [exact H|]. split; [reflexivity|]. split; [reflexivity|].
  exact (proj1 badge_shows_the_unread_count Examples.page0 _ H).
Defined.

Lemma open_modal_misses_new_alerts_witness :
  let pg := pageRun Examples.page0 [PagePoll (Examples.hot 0); BellClicked] in
  let tk := Examples.alarm 1 in
  alertsList (alertsUi pg) = renderAlertsInModal (globals pg)
  /\ (exists panel a sent,
        snd (fetchData (globals pg) tk) = Accepted panel (a :: sent))
  /\ alertsList (alertsUi (fetchDataPage pg tk))
     <> renderAlertsInModal (globals (fetchDataPage pg tk)).
Proof.
  cbv zeta.
  set (pg := pageRun Examples.page0 [PagePoll (Examples.hot 0); BellClicked]).
  assert (Hsync : alertsList (alertsUi pg) = renderAlertsInModal (globals pg))
    by reflexivity.
  assert (Hacc : snd (fetchData (globals pg) (Examples.alarm 1))
                 = Accepted (mkPanel HighCO2 SuggestVentilation)
                     [alertOf OfCO2 (Examples.alarm 1) (Examples.sampleWith 50 90 600);
                      alertOf OfHumidity (Examples.alarm 1)
                        (Examples.sampleWith 50 90 600)])
    by reflexivity.
  split; [exact Hsync|]. split; [eauto|].
  exact (proj2 (proj2 open_modal_misses_new_alerts) pg _ _ _ _ Hacc Hsync).
Defined.

Lemma hidden_chart_is_not_redrawn_witness :
  contentHidden (analyticsTab (analytics Examples.page0)) = true
  /\ analytics (fetchDataPage Examples.page0 (Examples.hot 0))
     = analytics Examples.page0
  /\ contentHidden (analyticsTab (analytics Examples.page0Analytics)) = false
  /\ exists older labels dataPoints,
       historicalData (globals (fetchDataPage Examples.page0Analytics (Examples.hot 0)))
         = older ++ [List.last (samplesOf [Examples.hot 0]) Examples.hotSample]
       /\ analyticsChart (analytics (fetchDataPage Examples.page0Analytics
                                                   (Examples.hot 0)))
          = Some (labels, dataPoints)
       /\ snd (renderAnalyticsChart
                 (globals (fetchDataPage Examples.page0Analytics (Examples.hot 0)))
                 Filter24h KeyCarbon (now (Examples.hot 0)))
          = Some (labels, dataPoints).
Proof.
  split; [reflexivity|].
  split; [exact (proj1 (hidden_chart_is_not_redrawn Examples.page0 (Examples.hot 0))
                   eq_refl)|].
  split; [reflexivity|].
  exact (proj2 (hidden_chart_is_not_redrawn Examples.page0Analytics (Examples.hot 0))
           _ eq_refl eq_refl).
Defined.

Lemma polls_that_do_not_ingest_witness :
  let pg := pageRun Examples.page0 [PagePoll (Examples.hot 0)] in
  lacksLocation Examples.noLocation
  /\ fetchDataPage pg Examples.noLocation = pg
  /\ setLatLng_throws (JNum (StringToNumber "unknown")) JUndefined = true
  /\ globals (fetchDataPage pg Examples.badLocation) = globals pg
  /\ statusPanel (display (fetchDataPage pg Examples.badLocation))
     = statusPanel (display pg)
  /\ tempGauge (display (fetchDataPage pg Examples.badLocation)) =
       updateGaugeFill (tempGauge (display pg)) (JNum (Num 46)) 100 TemperatureGauge.
Proof.
  cbv zeta.
  set (pg := pageRun Examples.page0 [PagePoll (Examples.hot 0)]).
  assert (H : lacksLocation Examples.noLocation)
    by (right; eexists; split; reflexivity).
  split; [exact H|].
  split; [exact (proj1 (polls_that_do_not_ingest (host := ExampleHost.host)
                          pg Examples.noLocation)
                   (or_intror H))|].
  split; [reflexivity|].
  destruct (proj2 (polls_that_do_not_ingest (host := ExampleHost.host)
                     pg Examples.badLocation)
              _ "unknown" eq_refl eq_refl eq_refl eq_refl)
    as (Hg & _ & _ & _ & Hs & _ & Ht & _).
  split; [exact Hg|]. split; [exact Hs|exact Ht].
Defined.

Lemma recent_history_is_charted_whole_witness :
  let st := poll initialState Examples.rising6 in
  let nowMs := Examples.t0 + 80000 in
  (forall d, In d (historicalData st) ->
     exists t, DateParse (timestamp d) = Some t /\ nowMs - 86400000 < t)
  /\ snd (renderAnalyticsChart st Filter24h KeyCarbon nowMs)
     = snd (renderAnalyticsChart st FilterAll KeyCarbon nowMs)
  /\ snd (renderAnalyticsChart st Filter7d KeyCarbon nowMs) =
       Some (map (fun d => DateParse (timestamp d)) (historicalData st),
             map (readKey KeyCarbon) (historicalData st)).
Proof.
  cbv zeta.
  set (st := poll initialState Examples.rising6).
  assert (Hne : historicalData st <> []) by discriminate.
  assert (H : forall d, In d (historicalData st) ->
              exists t, DateParse (timestamp d) = Some t
                        /\ Examples.t0 + 80000 - 86400000 < t).
  { intros d [<- | [<- | [<- | [<- | [<- | [<- | []]]]]]];
      eexists; (split; [reflexivity|reflexivity]). }
  split; [exact H|]. split.
  - rewrite (recent_history_is_charted_whole st Filter24h KeyCarbon _ Hne H),
      (recent_history_is_charted_whole st FilterAll KeyCarbon _ Hne H).
    reflexivity.
  - exact (recent_history_is_charted_whole st Filter7d KeyCarbon _ Hne H).
Defined.
